(** * Booth backend: order lifecycle, ranking adjuster and engagement recorder

    A shallow embedding of the service and repository layers of the
    marketplace, rankings and engagement modules, with the properties the
    specification states about them.

    Conventions of the embedding:
    - every [async] method becomes a computation in the monad [M], which
      threads the database ([World]) and either returns a value or throws
      a JavaScript [Error]; a throw keeps the writes made before it, as no
      method opens a transaction;
    - the Prisma tables are finite maps keyed by the primary key;
    - a JavaScript [number] is an IEEE 754 double ([Number.t]): a value of
      the binary64 format of [SpecFloat], with its sums, differences,
      products and quotients rounded to nearest, ties to even, as the
      language defines them; an integer below 2^53 in absolute value is
      held exactly ([Number.of_Z]);
    - a string is its sequence of UTF-8 bytes;
    - calls to the logger have no effect on the database or on the value
      returned and are left out, so a [catch] block that logs and rethrows
      is the identity. *)

From Stdlib Require Import ZArith Lia Ascii String Bool Sorted SpecFloat.
From stdpp Require Import gmap strings stringmap.

Open Scope string_scope.

(** ** JavaScript values *)

(** [new Error(message)] *)
Inductive Error : Type := Err (message : string).

Definition message (e : Error) : string := let 'Err m := e in m.

(** A string used as a condition: the empty string is falsy. *)
Definition truthy (s : string) : bool := negb (String.eqb s "").

(** [a || b] on optional strings. *)
Definition or_else (o : option string) (d : string) : string :=
  match o with Some s => if truthy s then s else d | None => d end.

(** [String.prototype.includes] *)
Definition includes (s sub : string) : bool :=
  match index 0 sub s with Some _ => true | None => false end.

(** ** JavaScript numbers

    The binary64 format: 53 bits of precision, exponents below 1024.  The
    operations are those of [SpecFloat], the specification of the
    hardware floats of Rocq. *)

Module Number.

Definition prec : Z := 53.
Definition emax : Z := 1024.

Definition t : Type := spec_float.

(** [a + b], [a - b], [a * b], [a / b] *)
Definition add : t -> t -> t := SFadd prec emax.
Definition sub : t -> t -> t := SFsub prec emax.
Definition mul : t -> t -> t := SFmul prec emax.
Definition div : t -> t -> t := SFdiv prec emax.

(** [-a] and [Math.abs(a)] *)
Definition neg : t -> t := SFopp.
Definition abs : t -> t := SFabs.

(** [a < b] and [a > b]; both are false when an operand is NaN. *)
Definition ltb : t -> t -> bool := SFltb.
Definition gtb (a b : t) : bool := SFltb b a.

(** An integer literal, and the value of an integer in general: the
    nearest double. *)
Definition of_Z (z : Z) : t := binary_normalize prec emax z 0 false.

(** A decimal literal [m / scale], as [0.01] for [decimal 1 100]: the
    double nearest to the quotient, which the correctly rounded division
    of two integers held exactly gives. *)
Definition decimal (m scale : Z) : t := div (of_Z m) (of_Z scale).

(** A number used as a condition: 0, -0 and NaN are falsy. *)
Definition truthy (a : t) : bool :=
  match a with
  | S754_zero _ | S754_nan => false
  | _ => true
  end.

(** The order of a [double precision] column in an [ORDER BY]: the usual
    order, with -0 equal to 0, and NaN equal to itself and above every
    other value. *)
Definition leb (a b : t) : bool :=
  match SFcompare a b with
  | Some Gt => false
  | Some _ => true
  | None => match b with S754_nan => true | _ => false end
  end.

(** The integers every double holds exactly, sums and differences
    included: [Number.isSafeInteger], or -2^53 < z < 2^53. *)
Definition safe (z : Z) : Prop := (- 2 ^ 53 < z < 2 ^ 53)%Z.

End Number.

Arguments Number.add : simpl never.
Arguments Number.sub : simpl never.
Arguments Number.mul : simpl never.
Arguments Number.div : simpl never.
Arguments Number.of_Z : simpl never.
Arguments Number.decimal : simpl never.
Arguments Number.ltb : simpl never.
Arguments Number.gtb : simpl never.
Arguments Number.leb : simpl never.

(** ** Prisma models

    Each record lists the columns the services below read or write; the
    remaining columns (names, descriptions, time stamps) play no part. *)

Inductive OrderStatus : Type :=
  | pending | processing | shipped | completed | canceled.

#[global] Instance OrderStatus_eq_dec : EqDecision OrderStatus.
Proof. solve_decision. Defined.

Definition OrderStatus_eqb (a b : OrderStatus) : bool := bool_decide (a = b).

(** The status as it prints inside a template string. *)
Definition OrderStatus_toString (s : OrderStatus) : string :=
  match s with
  | pending => "pending"
  | processing => "processing"
  | shipped => "shipped"
  | completed => "completed"
  | canceled => "canceled"
  end.

(** [list.includes(status)] *)
Definition status_in (l : list OrderStatus) (s : OrderStatus) : bool :=
  existsb (OrderStatus_eqb s) l.

Module MarketplaceProduct.
Record t : Type := mk {
  id : string;
  sellerId : string;
  price : Number.t;
  stock : Number.t;
  isActive : bool
}.
End MarketplaceProduct.

Module Order.
Record t : Type := mk {
  id : string;
  buyerId : string;
  productId : string;
  quantity : Number.t;
  totalPrice : Number.t;
  status : OrderStatus;
  shippingAddress : option string
}.
End Order.

Module UserRanking.
Record t : Type := mk {
  userId : string;
  categoryId : string;
  score : Number.t;
  updatedBy : string
}.
End UserRanking.

Inductive EngagementType : Type := Like | Comment | Share.

#[global] Instance EngagementType_eq_dec : EqDecision EngagementType.
Proof. solve_decision. Defined.

Module Engagement.
Record t : Type := mk {
  id : string;
  userId : string;
  contentId : string;
  contentType : string;
  type : EngagementType;
  comment : option string;
  parentId : option string
}.
End Engagement.

(** ** The database and the monad of the async methods *)

Record World : Type := mkWorld {
  products : gmap string MarketplaceProduct.t;
  orders : gmap string Order.t;
  rankings : gmap (string * string) UserRanking.t;
  engagements : gmap string Engagement.t
}.

Definition set_products (f : gmap string MarketplaceProduct.t) (w : World) : World :=
  mkWorld f (orders w) (rankings w) (engagements w).
Definition set_orders (f : gmap string Order.t) (w : World) : World :=
  mkWorld (products w) f (rankings w) (engagements w).
Definition set_rankings (f : gmap (string * string) UserRanking.t) (w : World) : World :=
  mkWorld (products w) (orders w) f (engagements w).
Definition set_engagements (f : gmap string Engagement.t) (w : World) : World :=
  mkWorld (products w) (orders w) (rankings w) f.

Inductive Outcome (A : Type) : Type :=
  | Ok (a : A)
  | Throw (e : Error).
Arguments Ok {A} a.
Arguments Throw {A} e.

Definition M (A : Type) : Type := World -> Outcome A * World.

Definition ret {A} (a : A) : M A := fun w => (Ok a, w).

Definition throw {A} (e : Error) : M A := fun w => (Throw e, w).

Definition bind {A B} (c : M A) (k : A -> M B) : M B :=
  fun w =>
    match c w with
    | (Ok a, w') => k a w'
    | (Throw e, w') => (Throw e, w')
    end.

(** [try { c } catch (error) { h error }] *)
Definition try_catch {A} (c : M A) (h : Error -> M A) : M A :=
  fun w =>
    match c w with
    | (Ok a, w') => (Ok a, w')
    | (Throw e, w') => h e w'
    end.

(** [if (b) { throw e }] *)
Definition throw_if (b : bool) (e : Error) : M unit :=
  if b then throw e else ret tt.

(** [if (b) { c }] *)
Definition when (b : bool) (c : M unit) : M unit :=
  if b then c else ret tt.

Notation "'let*' x := c 'in' k" := (bind c (fun x => k))
  (at level 10, x name, c at level 100, k at level 200).
Notation "c ;;; k" := (bind c (fun _ => k))
  (at level 100, k at level 200, right associativity).

(** The error Prisma raises when [update] or [delete] finds no row. *)
Definition RecordNotFound : Error :=
  Err "An operation failed because it depends on one or more records that were required but not found.".

(** The error Prisma raises when [create] breaks a unique constraint. *)
Definition UniqueConstraint : Error :=
  Err "Unique constraint failed".

(** ** marketplace/product.repository.ts *)

Module ProductRepository.

(** [UpdateProductInput], for the columns above. *)
Record UpdateProductInput : Type := mkUpdate {
  u_price : option Number.t;
  u_stock : option Number.t;
  u_isActive : option bool
}.

Definition apply_update (d : UpdateProductInput) (p : MarketplaceProduct.t)
  : MarketplaceProduct.t :=
  MarketplaceProduct.mk
    (MarketplaceProduct.id p)
    (MarketplaceProduct.sellerId p)
    (default (MarketplaceProduct.price p) (u_price d))
    (default (MarketplaceProduct.stock p) (u_stock d))
    (default (MarketplaceProduct.isActive p) (u_isActive d)).

Definition findById (id : string) : M (option MarketplaceProduct.t) :=
  fun w => (Ok (products w !! id), w).

Definition update (id : string) (data : UpdateProductInput)
  : M MarketplaceProduct.t :=
  fun w =>
    match products w !! id with
    | Some p =>
        let p' := apply_update data p in
        (Ok p', set_products (<[id := p']> (products w)) w)
    | None => (Throw RecordNotFound, w)
    end.

End ProductRepository.

(** ** marketplace/product.service.ts *)

Module ProductService.
Import ProductRepository.

Definition getProductById (productId : string) : M (option MarketplaceProduct.t) :=
  ProductRepository.findById productId.

Definition updateProduct (productId userId : string)
    (updateData : UpdateProductInput) (isAdmin : bool)
  : M MarketplaceProduct.t :=
  let* product := ProductRepository.findById productId in
  match product with
  | None => throw (Err "Product not found")
  | Some product =>
      throw_if (negb isAdmin
                && negb (String.eqb (MarketplaceProduct.sellerId product) userId))
               (Err "You can only update your own products") ;;;
      ProductRepository.update productId updateData
  end.

End ProductService.

(** The statistics [getSellerStats] and [getBuyerStats] return. *)
Module SellerStats.
Record t : Type := mk {
  totalOrders : nat;
  totalRevenue : Number.t;
  pendingOrders : nat;
  completedOrders : nat
}.
End SellerStats.

Module BuyerStats.
Record t : Type := mk {
  totalOrders : nat;
  totalSpent : Number.t;
  pendingOrders : nat;
  completedOrders : nat
}.
End BuyerStats.

(** ** marketplace/order.repository.ts *)

Module OrderRepository.

Record CreateOrderInput : Type := mkCreate {
  buyerId : string;
  productId : string;
  quantity : Number.t;
  totalPrice : Number.t;
  status : option OrderStatus;
  shippingAddress : option string
}.

(** [Partial<Omit<CreateOrderInput, 'buyerId' | 'productId'>>] *)
Record UpdateOrderInput : Type := mkUpdate {
  u_quantity : option Number.t;
  u_totalPrice : option Number.t;
  u_status : option OrderStatus;
  u_shippingAddress : option string
}.

(** [{ status }] *)
Definition only_status (s : OrderStatus) : UpdateOrderInput :=
  mkUpdate None None (Some s) None.

(** [OrderWithDetails]: the order joined with its product. *)
Definition OrderWithDetails : Type := (Order.t * MarketplaceProduct.t)%type.

Definition apply_update (d : UpdateOrderInput) (o : Order.t) : Order.t :=
  Order.mk
    (Order.id o) (Order.buyerId o) (Order.productId o)
    (default (Order.quantity o) (u_quantity d))
    (default (Order.totalPrice o) (u_totalPrice d))
    (default (Order.status o) (u_status d))
    (match u_shippingAddress d with
     | Some a => Some a
     | None => Order.shippingAddress o
     end).

(** The primary key is [@default(uuid())]: any key not yet in the table.
    Only its freshness is used. *)
Definition new_id (w : World) : string := fresh_string "order" (orders w).

Definition create (data : CreateOrderInput) : M Order.t :=
  fun w =>
    let o := Order.mk (new_id w) (buyerId data) (productId data)
               (quantity data) (totalPrice data)
               (default pending (status data))
               (shippingAddress data) in
    (Ok o, set_orders (<[Order.id o := o]> (orders w)) w).

(** [findUnique] with the product included; the relation is required, so
    a row whose product is missing does not occur and is answered as
    no row. *)
Definition findById (id : string) : M (option OrderWithDetails) :=
  fun w =>
    (Ok (o ← orders w !! id;
         p ← products w !! Order.productId o;
         Some (o, p)), w).

Definition update (id : string) (data : UpdateOrderInput) : M Order.t :=
  fun w =>
    match orders w !! id with
    | Some o =>
        let o' := apply_update data o in
        (Ok o', set_orders (<[id := o']> (orders w)) w)
    | None => (Throw RecordNotFound, w)
    end.

(** [findMany]: the rows of the order table.  The queries of the source
    ask for no order: the rows come in the order of the table, in which a
    row that is rewritten keeps its place. *)
Definition findMany (w : World) : list Order.t :=
  map snd (map_to_list (orders w)).

(** The relation filter [{ product: { sellerId } }]. *)
Definition sold_by (sellerId : string) (w : World) (o : Order.t) : bool :=
  match products w !! Order.productId o with
  | Some p => String.eqb (MarketplaceProduct.sellerId p) sellerId
  | None => false
  end.

(** [orders.reduce((sum, order) => sum + order.totalPrice, 0)] *)
Definition sum_totalPrice (l : list Order.t) : Number.t :=
  fold_left (fun sum order => Number.add sum (Order.totalPrice order)) l
    (Number.of_Z 0).

(** [orders.filter(order => order.status === s).length] *)
Definition count_status (s : OrderStatus) (l : list Order.t) : nat :=
  length (List.filter (fun order => OrderStatus_eqb (Order.status order) s) l).

Definition getSellerStats (sellerId : string) : M SellerStats.t :=
  fun w =>
    let orders := List.filter (sold_by sellerId w) (findMany w) in
    (Ok (SellerStats.mk (length orders) (sum_totalPrice orders)
           (count_status pending orders) (count_status completed orders)), w).

Definition getBuyerStats (buyerId : string) : M BuyerStats.t :=
  fun w =>
    let orders :=
      List.filter (fun o => String.eqb (Order.buyerId o) buyerId) (findMany w) in
    (Ok (BuyerStats.mk (length orders) (sum_totalPrice orders)
           (count_status pending orders) (count_status completed orders)), w).

End OrderRepository.

(** ** marketplace/order.service.ts *)

Module OrderService.
Import OrderRepository.

Definition createOrder (orderData : CreateOrderInput) : M Order.t :=
  let* product := ProductService.getProductById (productId orderData) in
  match product with
  | None => throw (Err "Product not found")
  | Some product =>
      throw_if (negb (MarketplaceProduct.isActive product))
               (Err "Product is not available for purchase") ;;;
      throw_if (Number.ltb (MarketplaceProduct.stock product) (quantity orderData))
               (Err "Not enough stock available") ;;;
      let calculatedPrice :=
        Number.mul (MarketplaceProduct.price product) (quantity orderData) in
      throw_if (Number.gtb
                  (Number.abs (Number.sub calculatedPrice (totalPrice orderData)))
                  (Number.decimal 1 100))
               (Err "Price mismatch - order price does not match current product price") ;;;
      let* order := OrderRepository.create orderData in
      ProductService.updateProduct
        (MarketplaceProduct.id product)
        (MarketplaceProduct.sellerId product)
        (ProductRepository.mkUpdate None
           (Some (Number.sub (MarketplaceProduct.stock product) (quantity orderData)))
           None)
        true ;;;
      ret order
  end.

Definition cannot_transition (currentStatus newStatus : OrderStatus) : Error :=
  Err ("Cannot transition from " +:+ OrderStatus_toString currentStatus
       +:+ " to " +:+ OrderStatus_toString newStatus).

Definition validateStatusTransition
    (currentStatus newStatus : OrderStatus) (userId : string)
    (order : OrderWithDetails) : M unit :=
  match currentStatus with
  | pending =>
      throw_if (negb (status_in [processing; completed; canceled] newStatus))
               (cannot_transition currentStatus newStatus)
  | processing =>
      throw_if (negb (status_in [completed; shipped; canceled] newStatus))
               (cannot_transition currentStatus newStatus)
  | shipped =>
      throw_if (negb (OrderStatus_eqb newStatus completed))
               (cannot_transition currentStatus newStatus)
  | completed => throw (Err "Cannot change status of a completed order")
  | canceled => throw (Err "Cannot change status of a canceled order")
  end ;;;
  let isSeller := String.eqb userId (MarketplaceProduct.sellerId (snd order)) in
  let isBuyer := String.eqb userId (Order.buyerId (fst order)) in
  throw_if (isSeller && negb (status_in [processing; shipped; completed] newStatus))
           (Err "Sellers can only set orders to processing, shipped, or completed") ;;;
  throw_if (isBuyer && negb (OrderStatus_eqb newStatus canceled))
           (Err "Buyers can only cancel pending orders").

Definition updateOrderStatus (orderId : string) (status : OrderStatus)
    (userId : string) (isAdmin : bool) : M Order.t :=
  let* order := OrderRepository.findById orderId in
  match order with
  | None => throw (Err "Order not found")
  | Some order =>
      throw_if (negb isAdmin
                && negb (String.eqb (MarketplaceProduct.sellerId (snd order)) userId)
                && negb (String.eqb (Order.buyerId (fst order)) userId))
               (Err "You are not authorized to update this order") ;;;
      validateStatusTransition (Order.status (fst order)) status userId order ;;;
      OrderRepository.update orderId (only_status status)
  end.

Definition cancelOrder (orderId userId : string) (isAdmin : bool) : M Order.t :=
  let* order := OrderRepository.findById orderId in
  match order with
  | None => throw (Err "Order not found")
  | Some order =>
      throw_if (negb isAdmin
                && negb (String.eqb (Order.buyerId (fst order)) userId)
                && negb (String.eqb (MarketplaceProduct.sellerId (snd order)) userId))
               (Err "You are not authorized to cancel this order") ;;;
      throw_if (negb (OrderStatus_eqb (Order.status (fst order)) pending))
               (Err "Only pending orders can be canceled") ;;;
      let* updatedOrder := OrderRepository.update orderId (only_status canceled) in
      ProductService.updateProduct
        (Order.productId (fst order))
        (MarketplaceProduct.sellerId (snd order))
        (ProductRepository.mkUpdate None
           (Some (Number.add (MarketplaceProduct.stock (snd order))
                    (Order.quantity (fst order))))
           None)
        true ;;;
      ret updatedOrder
  end.

Definition getOrderById (orderId : string) : M (option OrderWithDetails) :=
  OrderRepository.findById orderId.

Definition updateOrder (orderId : string) (updateData : UpdateOrderInput)
    (userId : string) (isAdmin : bool) : M Order.t :=
  let* order := OrderRepository.findById orderId in
  match order with
  | None => throw (Err "Order not found")
  | Some order =>
      throw_if (negb isAdmin
                && negb (String.eqb (Order.buyerId (fst order)) userId))
               (Err "You are not authorized to update this order") ;;;
      throw_if (OrderStatus_eqb (Order.status (fst order)) completed && negb isAdmin)
               (Err "Cannot update a completed order") ;;;
      OrderRepository.update orderId updateData
  end.

Definition getSellerStats (sellerId : string) : M SellerStats.t :=
  OrderRepository.getSellerStats sellerId.

Definition getBuyerStats (buyerId : string) : M BuyerStats.t :=
  OrderRepository.getBuyerStats buyerId.

End OrderService.

(** ** What a controller works with: the authenticated user of the
    request and the JSON response *)

Module Http.

(** [req.user] *)
Record User : Type := mkUser {
  id : string;
  email : string;
  role : string
}.

(** [!req.user?.id] *)
Definition unauthenticated (user : option User) : bool :=
  match user with
  | Some u => negb (truthy (id u))
  | None => true
  end.

(** [error.message] *)
Definition messageOf (e : Error) : string := message e.

(** [res.status(status).json({ success, message, data, error })] *)
Record Response (A : Type) : Type := mkResponse {
  status : nat;
  success : bool;
  message : option string;
  data : option A;
  error : option string
}.
Arguments mkResponse {A} _ _ _ _ _.
Arguments status {A} _.
Arguments success {A} _.
Arguments message {A} _.
Arguments data {A} _.
Arguments error {A} _.

Definition ok {A} (status : nat) (message : option string) (data : A) : Response A :=
  mkResponse status true message (Some data) None.

Definition fail {A} (status : nat) (message : string) : Response A :=
  mkResponse status false (Some message) None None.

(** The answer of the outer [catch] of every handler. *)
Definition serverError {A} (e : Error) : Response A :=
  mkResponse 500 false (Some "Server error") None (Some (messageOf e)).

End Http.

(** ** marketplace/order.controller.ts: the status code answered for an
    error thrown by [updateOrderStatus] *)

Module OrderController.

Definition updateOrderStatus_code (e : Error) : nat :=
  if includes (message e) "not found" then 404
  else if includes (message e) "not authorized" || includes (message e) "can only"
  then 403
  else if includes (message e) "Cannot" then 400
  else 500.

(** The output of [orderCreateSchema]: the keys of the schema, any other
    key of the body being stripped. *)
Record OrderCreateData : Type := mkCreateData {
  productId : string;
  quantity : Number.t;
  totalPrice : Number.t;
  shippingAddress : option string
}.

(** The output of [orderUpdateSchema]. *)
Record OrderUpdateData : Type := mkUpdateData {
  u_shippingAddress : option string;
  u_status : option OrderStatus
}.

(** [createOrder]; [validationResult] is the outcome of [safeParse], [None]
    when the body does not fit the schema. *)
Definition createOrder (user : option Http.User)
    (validationResult : option OrderCreateData) : M (Http.Response Order.t) :=
  try_catch
    (match user with
     | Some u =>
         if Http.unauthenticated user
         then ret (Http.fail 401 "Authentication required")
         else
           match validationResult with
           | None => ret (Http.fail 400 "Invalid data")
           | Some data =>
               let* order :=
                 OrderService.createOrder
                   (OrderRepository.mkCreate (Http.id u) (productId data)
                      (quantity data) (totalPrice data) None
                      (shippingAddress data)) in
               ret (Http.ok 201 (Some "Order created successfully") order)
           end
     | None => ret (Http.fail 401 "Authentication required")
     end)
    (fun error =>
       if includes (message error) "not found"
          || includes (message error) "stock"
          || includes (message error) "price"
          || includes (message error) "not available"
       then ret (Http.fail 400 (message error))
       else ret (Http.serverError error)).

(** [getOrderById] *)
Definition getOrderById (user : option Http.User) (id : string)
    : M (Http.Response OrderRepository.OrderWithDetails) :=
  try_catch
    (match user with
     | Some u =>
         if Http.unauthenticated user
         then ret (Http.fail 401 "Authentication required")
         else
           let* order := OrderService.getOrderById id in
           match order with
           | None => ret (Http.fail 404 "Order not found")
           | Some order =>
               let isAdmin := String.eqb (Http.role u) "Admin" in
               let isBuyer := String.eqb (Http.id u) (Order.buyerId (fst order)) in
               let isSeller :=
                 String.eqb (Http.id u) (MarketplaceProduct.sellerId (snd order)) in
               if negb isAdmin && negb isBuyer && negb isSeller
               then ret (Http.fail 403 "You are not authorized to view this order")
               else ret (Http.ok 200 None order)
           end
     | None => ret (Http.fail 401 "Authentication required")
     end)
    (fun error => ret (Http.serverError error)).

(** [updateOrder]: a body with a status goes to [updateOrderStatus], any
    other body to [updateOrder] of the service. *)
Definition updateOrder (user : option Http.User) (id : string)
    (validationResult : option OrderUpdateData) : M (Http.Response Order.t) :=
  try_catch
    (match user with
     | Some u =>
         if Http.unauthenticated user
         then ret (Http.fail 401 "Authentication required")
         else
           let isAdmin := String.eqb (Http.role u) "Admin" in
           match validationResult with
           | None => ret (Http.fail 400 "Invalid data")
           | Some data =>
               try_catch
                 (match u_status data with
                  | Some status =>
                      let* order :=
                        OrderService.updateOrderStatus id status (Http.id u) isAdmin in
                      ret (Http.ok 200 (Some "Order updated successfully") order)
                  | None =>
                      let* order :=
                        OrderService.updateOrder id
                          (OrderRepository.mkUpdate None None (u_status data)
                             (u_shippingAddress data))
                          (Http.id u) isAdmin in
                      ret (Http.ok 200 (Some "Order updated successfully") order)
                  end)
                 (fun error =>
                    if includes (message error) "not found"
                    then ret (Http.fail 404 "Order not found")
                    else if includes (message error) "not authorized"
                    then ret (Http.fail 403 (message error))
                    else if includes (message error) "Cannot"
                    then ret (Http.fail 400 (message error))
                    else throw error)
           end
     | None => ret (Http.fail 401 "Authentication required")
     end)
    (fun error => ret (Http.serverError error)).

End OrderController.

(** [RankingSummary] *)
Module RankingSummary.
Record t : Type := mk {
  userId : string;
  totalScore : Number.t;
  rankingCount : nat;
  averageScore : Number.t;
  rankings : list UserRanking.t
}.
End RankingSummary.

(** ** rankings/ranking.repository.ts *)

Module RankingRepository.

Record CreateRankingInput : Type := mkCreate {
  userId : string;
  categoryId : string;
  score : Number.t;
  updatedBy : option string
}.

(** [Partial<Pick<CreateRankingInput, 'score' | 'updatedBy'>>] *)
Record UpdateRankingInput : Type := mkUpdate {
  u_score : option Number.t;
  u_updatedBy : option string
}.

Definition apply_update (d : UpdateRankingInput) (r : UserRanking.t)
  : UserRanking.t :=
  UserRanking.mk
    (UserRanking.userId r) (UserRanking.categoryId r)
    (default (UserRanking.score r) (u_score d))
    (default (UserRanking.updatedBy r) (u_updatedBy d)).

Definition findRanking (userId categoryId : string) : M (option UserRanking.t) :=
  fun w => (Ok (rankings w !! (userId, categoryId)), w).

(** The pair (userId, categoryId) is unique. *)
Definition createRanking (data : CreateRankingInput) : M UserRanking.t :=
  fun w =>
    match rankings w !! (userId data, categoryId data) with
    | Some _ => (Throw UniqueConstraint, w)
    | None =>
        let r := UserRanking.mk (userId data) (categoryId data) (score data)
                   (or_else (updatedBy data) (userId data)) in
        (Ok r, set_rankings (<[(userId data, categoryId data) := r]> (rankings w)) w)
    end.

Definition updateRanking (userId categoryId : string) (data : UpdateRankingInput)
  : M UserRanking.t :=
  fun w =>
    match rankings w !! (userId, categoryId) with
    | Some r =>
        let r' := apply_update data r in
        (Ok r', set_rankings (<[(userId, categoryId) := r']> (rankings w)) w)
    | None => (Throw RecordNotFound, w)
    end.

(** [orderBy: { score: 'desc' }]: the rows sorted by score, highest first,
    in the order of the column ([Number.leb]), here by insertion; rows of
    equal score come in an order the database chooses, and nothing below
    depends on it. *)
Fixpoint insert_by_score (r : UserRanking.t) (l : list UserRanking.t)
  : list UserRanking.t :=
  match l with
  | [] => [r]
  | x :: l' =>
      if Number.leb (UserRanking.score x) (UserRanking.score r)
      then r :: x :: l'
      else x :: insert_by_score r l'
  end.

Definition orderBy_score_desc (l : list UserRanking.t) : list UserRanking.t :=
  foldr insert_by_score [] l.

(** [findMany] with a [where] clause. *)
Definition findMany (clause : UserRanking.t -> bool) (w : World)
  : list UserRanking.t :=
  List.filter clause (map snd (map_to_list (rankings w))).

Definition getUserRankings (userId : string) : M (list UserRanking.t) :=
  fun w =>
    (Ok (orderBy_score_desc
           (findMany (fun r => String.eqb (UserRanking.userId r) userId) w)), w).

Definition getUserRankingSummary (userId : string) : M RankingSummary.t :=
  let* rankings := getUserRankings userId in
  let totalScore :=
    fold_left (fun sum ranking => Number.add sum (UserRanking.score ranking))
      rankings (Number.of_Z 0) in
  let rankingCount := length rankings in
  let averageScore :=
    if Nat.ltb 0 rankingCount
    then Number.div totalScore (Number.of_Z (Z.of_nat rankingCount))
    else Number.of_Z 0 in
  ret (RankingSummary.mk userId totalScore rankingCount averageScore rankings).

(** [take: limit], for a limit that is a natural number. *)
Definition getTopUsersByCategory (categoryId : string) (limit : nat)
  : M (list UserRanking.t) :=
  fun w =>
    (Ok (take limit
           (orderBy_score_desc
              (findMany (fun r => String.eqb (UserRanking.categoryId r) categoryId) w))),
     w).

End RankingRepository.

(** ** rankings/ranking.service.ts *)

Module RankingService.
Import RankingRepository.

Definition adjustRanking (userId categoryId : string) (adjustment : Number.t)
    (updatedBy : option string) : M UserRanking.t :=
  let* existingRanking := RankingRepository.findRanking userId categoryId in
  match existingRanking with
  | Some existingRanking =>
      let newScore := Number.add (UserRanking.score existingRanking) adjustment in
      RankingRepository.updateRanking userId categoryId
        (mkUpdate (Some newScore) updatedBy)
  | None =>
      RankingRepository.createRanking
        (mkCreate userId categoryId adjustment updatedBy)
  end.

Definition applyOrderCompletionRanking (sellerId buyerId : string)
    (orderValue : Number.t) (wasSuccessful : bool) : M unit :=
  let salesCategoryId := "sales" in
  let salesAdjustment :=
    if wasSuccessful
    then Number.mul orderValue (Number.decimal 1 10)
    else Number.mul (Number.neg orderValue) (Number.decimal 5 100) in
  adjustRanking sellerId salesCategoryId salesAdjustment (Some buyerId) ;;;
  let repCategoryId := "reputation" in
  let repAdjustment :=
    if wasSuccessful then Number.of_Z 5 else Number.neg (Number.of_Z 10) in
  adjustRanking sellerId repCategoryId repAdjustment (Some buyerId) ;;;
  ret tt.

Definition getOrCreateRanking (userId categoryId : string)
    (defaultScore : option Number.t) : M UserRanking.t :=
  let* existingRanking := RankingRepository.findRanking userId categoryId in
  match existingRanking with
  | Some existingRanking => ret existingRanking
  | None =>
      RankingRepository.createRanking
        (mkCreate userId categoryId (default (Number.of_Z 0) defaultScore) None)
  end.

(** [data.score || 0] *)
Definition score_or_zero (score : option Number.t) : Number.t :=
  match score with
  | Some s => if Number.truthy s then s else Number.of_Z 0
  | None => Number.of_Z 0
  end.

Definition updateRanking (userId categoryId : string) (data : UpdateRankingInput)
  : M UserRanking.t :=
  let* existingRanking := RankingRepository.findRanking userId categoryId in
  match existingRanking with
  | Some _ => RankingRepository.updateRanking userId categoryId data
  | None =>
      RankingRepository.createRanking
        (mkCreate userId categoryId (score_or_zero (u_score data)) (u_updatedBy data))
  end.

Definition getUserRankings (userId : string) : M (list UserRanking.t) :=
  RankingRepository.getUserRankings userId.

Definition getUserRankingSummary (userId : string) : M RankingSummary.t :=
  RankingRepository.getUserRankingSummary userId.

(** [limit] defaults to 10. *)
Definition getTopUsersByCategory (categoryId : string) (limit : option nat)
  : M (list UserRanking.t) :=
  RankingRepository.getTopUsersByCategory categoryId (default 10 limit).

(** ['like' | 'comment' | 'share'] *)
Inductive engagementType : Type := like | comment | share.

Definition applyPostEngagementRanking (userId : string)
    (engagementType : engagementType) (engagementValue : Number.t) : M unit :=
  let contentCategoryId := "content" in
  let adjustment :=
    match engagementType with
    | like => Number.mul (Number.of_Z 1) engagementValue
    | comment => Number.mul (Number.of_Z 3) engagementValue
    | share => Number.mul (Number.of_Z 5) engagementValue
    end in
  adjustRanking userId contentCategoryId adjustment None ;;;
  ret tt.

End RankingService.

(** ** rankings/ranking.controller.ts *)

Module RankingController.

(** The output of [rankingUpdateSchema]. *)
Record RankingUpdateData : Type := mkData {
  score : option Number.t;
  adjustment : option Number.t
}.

(** [updateUserRanking]; [validationResult] is the outcome of [safeParse]. *)
Definition updateUserRanking (user : option Http.User) (userId categoryId : string)
    (validationResult : option RankingUpdateData)
  : M (Http.Response UserRanking.t) :=
  try_catch
    (match user with
     | Some u =>
         if Http.unauthenticated user || negb (String.eqb (Http.role u) "Admin")
         then ret (Http.fail 403 "Admin access required")
         else
           match validationResult with
           | None => ret (Http.fail 400 "Invalid data")
           | Some data =>
               match adjustment data with
               | Some adjustment =>
                   let* updatedRanking :=
                     RankingService.adjustRanking userId categoryId adjustment
                       (Some (Http.id u)) in
                   ret (Http.ok 200 (Some "Ranking updated successfully") updatedRanking)
               | None =>
                   match score data with
                   | Some score =>
                       let* updatedRanking :=
                         RankingService.updateRanking userId categoryId
                           (RankingRepository.mkUpdate (Some score) (Some (Http.id u))) in
                       ret (Http.ok 200 (Some "Ranking updated successfully")
                              updatedRanking)
                   | None =>
                       ret (Http.fail 400 "Either score or adjustment must be provided")
                   end
               end
           end
     | None => ret (Http.fail 403 "Admin access required")
     end)
    (fun error => ret (Http.serverError error)).

End RankingController.

(** [EngagementCount] *)
Module EngagementCount.
Record t : Type := mk {
  likes : nat;
  comments : nat;
  shares : nat;
  total : nat
}.
End EngagementCount.

(** ** engagement/engagement.repository.ts *)

Module EngagementRepository.

Record CreateEngagementInput : Type := mkCreate {
  userId : string;
  contentId : string;
  contentType : string;
  type : EngagementType;
  comment : option string;
  parentId : option string
}.

(** The primary key is [@default(uuid())]: any key not yet in the table. *)
Definition new_id (w : World) : string :=
  fresh_string "engagement" (engagements w).

Definition create (data : CreateEngagementInput) : M Engagement.t :=
  fun w =>
    let e := Engagement.mk (new_id w) (userId data) (contentId data)
               (contentType data) (type data) (comment data) (parentId data) in
    (Ok e, set_engagements (<[Engagement.id e := e]> (engagements w)) w).

Definition findById (id : string) : M (option Engagement.t) :=
  fun w => (Ok (engagements w !! id), w).

Definition delete (id : string) : M Engagement.t :=
  fun w =>
    match engagements w !! id with
    | Some e => (Ok e, set_engagements (base.delete id (engagements w)) w)
    | None => (Throw RecordNotFound, w)
    end.

(** The [where] clause of [findUserEngagement]. *)
Definition matches (userId contentId : string) (type : EngagementType)
    (e : Engagement.t) : bool :=
  String.eqb (Engagement.userId e) userId
  && String.eqb (Engagement.contentId e) contentId
  && bool_decide (Engagement.type e = type).

(** [findFirst]: some row that satisfies the clause, when there is one. *)
Definition findUserEngagement (userId contentId : string)
    (type : EngagementType) : M (option Engagement.t) :=
  fun w =>
    (Ok (snd <$> find (fun kv => matches userId contentId type (snd kv))
                      (map_to_list (engagements w))), w).

(** [groupBy({ by: ['type'], where: { contentId }, _count: { id: true } })]:
    one group, with its number of rows, for each type that has rows. *)
Definition groupByType (contentId : string) (w : World)
  : list (EngagementType * nat) :=
  List.filter (fun g => negb (Nat.eqb (snd g) 0))
    (map (fun t =>
            (t, length
                  (List.filter
                     (fun e => String.eqb (Engagement.contentId e) contentId
                               && bool_decide (Engagement.type e = t))
                     (map snd (map_to_list (engagements w))))))
         [Like; Comment; Share]).

Definition countEngagements (contentId : string) : M EngagementCount.t :=
  fun w =>
    let counts := groupByType contentId w in
    let result :=
      fold_left
        (fun result count =>
           match fst count with
           | Like =>
               EngagementCount.mk (snd count) (EngagementCount.comments result)
                 (EngagementCount.shares result) (EngagementCount.total result)
           | Comment =>
               EngagementCount.mk (EngagementCount.likes result) (snd count)
                 (EngagementCount.shares result) (EngagementCount.total result)
           | Share =>
               EngagementCount.mk (EngagementCount.likes result)
                 (EngagementCount.comments result) (snd count)
                 (EngagementCount.total result)
           end)
        counts (EngagementCount.mk 0 0 0 0) in
    (Ok (EngagementCount.mk (EngagementCount.likes result)
           (EngagementCount.comments result) (EngagementCount.shares result)
           (EngagementCount.likes result + EngagementCount.comments result
            + EngagementCount.shares result)), w).

End EngagementRepository.

(** ** engagement/engagement.service.ts *)

Module EngagementService.
Import EngagementRepository.

(** The ASCII white space: tab, line feed, vertical tab, form feed,
    carriage return and space. *)
Definition is_space (c : ascii) : bool :=
  let n := nat_of_ascii c in
  (Nat.leb 9 n && Nat.leb n 13) || Nat.eqb n 32.

(** The white space beyond ASCII that [trim] strips, in UTF-8: U+00A0 on
    two bytes; U+1680, U+2000 to U+200A, U+2028, U+2029, U+202F, U+205F,
    U+3000 and U+FEFF on three. *)
Definition is_space2 (a b : ascii) : bool :=
  (N_of_ascii a =? 194)%N && (N_of_ascii b =? 160)%N.

Definition is_space3 (a b c : ascii) : bool :=
  let a := N_of_ascii a in
  let b := N_of_ascii b in
  let c := N_of_ascii c in
  ((a =? 225) && (b =? 154) && (c =? 128)
   || (a =? 226) && (b =? 128)
      && ((128 <=? c) && (c <=? 138) || (c =? 168) || (c =? 169) || (c =? 175))
   || (a =? 226) && (b =? 129) && (c =? 159)
   || (a =? 227) && (b =? 128) && (c =? 128)
   || (a =? 239) && (b =? 187) && (c =? 191))%N.

(** [s.trim().length === 0]: the string is white space throughout. *)
Fixpoint blank_bytes (l : list ascii) : bool :=
  match l with
  | [] => true
  | a :: l1 =>
      if is_space a then blank_bytes l1
      else
        match l1 with
        | b :: l2 =>
            if is_space2 a b then blank_bytes l2
            else
              match l2 with
              | c :: l3 => is_space3 a b c && blank_bytes l3
              | [] => false
              end
        | [] => false
        end
  end.

Definition blank (s : string) : bool :=
  blank_bytes (list_ascii_of_string s).

Section WithRankingService.

(** The method of the field [this.rankingService] the class calls.  The
    constructor sets the field to a [RankingService]; its behaviour is
    left open here, so that a call that throws is covered. *)
Variable applyPostEngagementRanking :
  string -> RankingService.engagementType -> Number.t -> M unit.

(** The block each method ends with:
<<
  if (contentOwnerId && contentOwnerId !== userId) {
    try { await this.rankingService.applyPostEngagementRanking(...) }
    catch (error) { logger.error(...) }
  }
>> *)
Definition updateOwnerRanking (contentOwnerId : option string)
    (userId : string) (engagementType : RankingService.engagementType)
    (engagementValue : Number.t) : M unit :=
  match contentOwnerId with
  | Some owner =>
      when (truthy owner && negb (String.eqb owner userId))
           (try_catch
              (applyPostEngagementRanking owner engagementType engagementValue)
              (fun _ => ret tt))
  | None => ret tt
  end.

Definition createLike (userId contentId contentType : string)
    (contentOwnerId : option string) : M Engagement.t :=
  let* existingLike :=
    EngagementRepository.findUserEngagement userId contentId Like in
  match existingLike with
  | Some _ => throw (Err "User has already liked this content")
  | None =>
      let* like :=
        EngagementRepository.create
          (mkCreate userId contentId contentType Like None None) in
      updateOwnerRanking contentOwnerId userId RankingService.like
        (Number.of_Z 1) ;;;
      ret like
  end.

Definition removeLike (userId contentId : string)
    (contentOwnerId : option string) : M unit :=
  let* existingLike :=
    EngagementRepository.findUserEngagement userId contentId Like in
  match existingLike with
  | None => throw (Err "Like not found")
  | Some existingLike =>
      EngagementRepository.delete (Engagement.id existingLike) ;;;
      updateOwnerRanking contentOwnerId userId RankingService.like
        (Number.neg (Number.of_Z 1))
  end.

Definition createComment (userId contentId contentType comment : string)
    (parentId contentOwnerId : option string) : M Engagement.t :=
  throw_if (negb (truthy comment) || blank comment)
           (Err "Comment content is required") ;;;
  let* engagement :=
    EngagementRepository.create
      (mkCreate userId contentId contentType Comment (Some comment) parentId) in
  updateOwnerRanking contentOwnerId userId RankingService.comment
    (Number.of_Z 1) ;;;
  ret engagement.

Definition deleteComment (commentId userId : string) (isAdmin : bool)
    (contentOwnerId : option string) : M Engagement.t :=
  let* comment := EngagementRepository.findById commentId in
  match comment with
  | None => throw (Err "Comment not found")
  | Some comment =>
      throw_if (negb isAdmin
                && negb (String.eqb (Engagement.userId comment) userId))
               (Err "You are not authorized to delete this comment") ;;;
      let* deletedComment := EngagementRepository.delete commentId in
      updateOwnerRanking contentOwnerId userId RankingService.comment
        (Number.neg (Number.of_Z 1)) ;;;
      ret deletedComment
  end.

Definition createShare (userId contentId contentType : string)
    (contentOwnerId : option string) : M Engagement.t :=
  let* share :=
    EngagementRepository.create
      (mkCreate userId contentId contentType Share None None) in
  updateOwnerRanking contentOwnerId userId RankingService.share
    (Number.of_Z 1) ;;;
  ret share.

End WithRankingService.

Definition getEngagementCounts (contentId : string) : M EngagementCount.t :=
  EngagementRepository.countEngagements contentId.

(** [!!like] *)
Definition hasUserLiked (userId contentId : string) : M bool :=
  let* like := EngagementRepository.findUserEngagement userId contentId Like in
  ret (match like with Some _ => true | None => false end).

End EngagementService.

(** ** The engagement service as its constructor builds it, with
    [this.rankingService = new RankingService()] *)

Module Booth.

Definition createLike :=
  EngagementService.createLike RankingService.applyPostEngagementRanking.
Definition removeLike :=
  EngagementService.removeLike RankingService.applyPostEngagementRanking.
Definition createComment :=
  EngagementService.createComment RankingService.applyPostEngagementRanking.
Definition deleteComment :=
  EngagementService.deleteComment RankingService.applyPostEngagementRanking.
Definition createShare :=
  EngagementService.createShare RankingService.applyPostEngagementRanking.

End Booth.

(** The score of a user in a category; a pair without an entry counts 0. *)
Definition scoreOf (w : World) (userId categoryId : string) : Number.t :=
  match rankings w !! (userId, categoryId) with
  | Some r => UserRanking.score r
  | None => Number.of_Z 0
  end.

(** * Notions used in the statements *)

(** ** The raw transition table and the role checks *)

(** The table of the specification: the statuses an order may move to. *)
Definition transition_table (currentStatus : OrderStatus) : list OrderStatus :=
  match currentStatus with
  | pending => [processing; completed; canceled]
  | processing => [completed; shipped; canceled]
  | shipped => [completed]
  | completed => []
  | canceled => []
  end.

Definition raw_transition (currentStatus newStatus : OrderStatus) : bool :=
  status_in (transition_table currentStatus) newStatus.

(** The role checks at the end of [validateStatusTransition], as a test. *)
Definition role_refused (userId : string) (order : OrderRepository.OrderWithDetails)
    (newStatus : OrderStatus) : bool :=
  (String.eqb userId (MarketplaceProduct.sellerId (snd order))
   && negb (status_in [processing; shipped; completed] newStatus))
  || (String.eqb userId (Order.buyerId (fst order))
      && negb (OrderStatus_eqb newStatus canceled)).

(** ** Integers as doubles *)

(** [n * 2^k] on positive numbers, for [0 <= k]. *)
Definition shift_pos (n : positive) (k : Z) : positive :=
  match k with
  | Zpos j => Pos.iter xO n j
  | _ => n
  end.

(** The double that holds the integer [n], or [-n] when [s] is set, for
    [n < 2^53]: the mantissa is [n] shifted to 53 digits. *)
Definition int_float (s : bool) (n : positive) : Number.t :=
  let d := Zpos (digits2_pos n) in
  S754_finite s (shift_pos n (53 - d)) (d - 53).

Definition Z_float (z : Z) : Number.t :=
  match z with
  | Z0 => S754_zero false
  | Zpos n => int_float false n
  | Zneg n => int_float true n
  end.

(** The place of a double in the order of a column: class, then exponent,
    then mantissa, compared in this order. *)
Definition rank (a : Number.t) : Z * Z * Z :=
  match a with
  | S754_nan => (3, 0, 0)
  | S754_infinity false => (2, 0, 0)
  | S754_finite false m e => (1, e, Zpos m)
  | S754_zero _ => (0, 0, 0)
  | S754_finite true m e => (-1, - e, Zneg m)
  | S754_infinity true => (-2, 0, 0)
  end%Z.

Definition lex_le (a b : Z * Z * Z) : Prop :=
  (a.1.1 < b.1.1
   \/ a.1.1 = b.1.1
      /\ (a.1.2 < b.1.2 \/ a.1.2 = b.1.2 /\ a.2 <= b.2))%Z.

(** The sum of a list of integers, and of their absolute values. *)
Definition sum_Z (l : list Z) : Z := foldr Z.add 0%Z l.
Definition sum_abs (l : list Z) : Z := foldr (fun n a => (Z.abs n + a)%Z) 0%Z l.

(** ** Scores *)

(** The score [adjustRanking] writes: the sum of the score of the entry
    and the adjustment, and the adjustment itself when there is no entry. *)
Definition adjusted (entry : option UserRanking.t) (adjustment : Number.t)
  : Number.t :=
  match entry with
  | Some r => Number.add (UserRanking.score r) adjustment
  | None => adjustment
  end.

(** The type of the ranking method the engagement service calls. *)
Definition Adjuster : Type :=
  string -> RankingService.engagementType -> Number.t -> M unit.

(** [full] runs the record mutation of [primary] and then the ranking call
    [adjust]: whenever [primary] returns a value, [full] returns that same
    value, and when [adjust], run after the mutation, throws, [full] still
    returns it, in the database the failed call left. *)
Definition survives_adjuster {A} (primary full : M A) (adjust : M unit)
    (w : World) : Prop :=
  forall (a : A) (w1 : World),
    primary w = (Ok a, w1) ->
    fst (full w) = Ok a
    /\ forall (e : Error) (w2 : World),
         adjust w1 = (Throw e, w2) -> full w = (Ok a, w2).

(** The operation [op], given any ranking method, never consults it and
    leaves every score entry as it was. *)
Definition no_adjustment {A} (op : Adjuster -> M A) (w : World) : Prop :=
  (forall rk rk' : Adjuster, op rk w = op rk' w)
  /\ forall rk : Adjuster, rankings (snd (op rk w)) = rankings w.

(** The weight of an engagement in the content score. *)
Definition weight (k : RankingService.engagementType) : Z :=
  match k with
  | RankingService.like => 1
  | RankingService.comment => 3
  | RankingService.share => 5
  end.

(** Highest score first: the order of [orderBy: { score: 'desc' }]. *)
Definition by_score_desc (a b : UserRanking.t) : Prop :=
  Number.leb (UserRanking.score b) (UserRanking.score a) = true.

(** Every score entry is stored under its own pair (user, category), as
    [createRanking] stores it. *)
Definition rankings_keyed (w : World) : Prop :=
  forall k r, rankings w !! k = Some r ->
    k = (UserRanking.userId r, UserRanking.categoryId r).

(** Every engagement is stored under its own id, and no user has two likes
    on the same content. *)
Definition likes_consistent (w : World) : Prop :=
  (forall k e, engagements w !! k = Some e -> Engagement.id e = k)
  /\ (forall i j e1 e2,
        engagements w !! i = Some e1 -> engagements w !! j = Some e2 ->
        Engagement.type e1 = Like -> Engagement.type e2 = Like ->
        Engagement.userId e1 = Engagement.userId e2 ->
        Engagement.contentId e1 = Engagement.contentId e2 ->
        i = j).

(** The number of engagements of a type on a content. *)
Definition engagements_of (contentId : string) (type : EngagementType) (w : World)
  : nat :=
  length (List.filter
            (fun e => String.eqb (Engagement.contentId e) contentId
                      && bool_decide (Engagement.type e = type))
            (map snd (map_to_list (engagements w)))).

(** [contentOwnerId && contentOwnerId !== userId] *)
Definition truthy_owner (contentOwnerId : option string) (userId : string) : bool :=
  match contentOwnerId with
  | Some owner => truthy owner && negb (String.eqb owner userId)
  | None => false
  end.

(** The score of a pair once the block that updates the ranking of the
    owner has run, with the ranking service of the application, for an
    engagement of kind [k] and value [v]: the adjusted score for the
    content score of an owner who is named and is not the user, the score
    as it was for every other pair. *)
Definition engaged (w : World) (owner : option string) (userId : string)
    (k : RankingService.engagementType) (v : Number.t) (u c : string) : Number.t :=
  if truthy_owner owner userId
     && bool_decide ((u, c) = (default "" owner, "content"))
  then adjusted (rankings w !! (u, c)) (Number.mul (Number.of_Z (weight k)) v)
  else scoreOf w u c.

(** A text of ASCII characters only, for which the white space [trim]
    strips is the white space of [EngagementService.is_space]. *)
Definition ascii_text (s : string) : Prop :=
  Forall (fun c => nat_of_ascii c < 128) (list_ascii_of_string s).

(** ** Sample data: the scenario of the specification *)

Module Sample.

(** A product of seller sam at price 10. *)
Definition product (stock : Z) : MarketplaceProduct.t :=
  MarketplaceProduct.mk "p1" "sam" (Number.of_Z 10) (Number.of_Z stock) true.

(** The shop before any order: five items in stock. *)
Definition shop : World := mkWorld {[ "p1" := product 5 ]} ∅ ∅ ∅.

(** Buyer bob orders two items for 20. *)
Definition purchase (status : option OrderStatus) : OrderRepository.CreateOrderInput :=
  OrderRepository.mkCreate "bob" "p1" (Number.of_Z 2) (Number.of_Z 20) status None.

Definition order (status : OrderStatus) : Order.t :=
  Order.mk "o1" "bob" "p1" (Number.of_Z 2) (Number.of_Z 20) status None.

(** The shop once bob's order stands at [status]: three items left. *)
Definition shop_with (status : OrderStatus) : World :=
  mkWorld {[ "p1" := product 3 ]} {[ "o1" := order status ]} ∅ ∅.

(** The shop with [stock] items left and an order of one item by bob. *)
Definition stocked (stock : Z) (status : OrderStatus) : World :=
  mkWorld {[ "p1" := product stock ]}
    {[ "o1" := Order.mk "o1" "bob" "p1" (Number.of_Z 1) (Number.of_Z 10) status None ]}
    ∅ ∅.

(** The shop when the [category] score of bob stands at [score]. *)
Definition ranked (category : string) (score : Number.t) : World :=
  mkWorld {[ "p1" := product 5 ]} ∅
    {[ ("bob", category) := UserRanking.mk "bob" category score "bob" ]} ∅.

(** A ranking service whose database cannot be reached: every call throws. *)
Definition unavailable
  : string -> RankingService.engagementType -> Number.t -> M unit :=
  fun _ _ _ => throw (Err "Database server unreachable").

End Sample.

(** * Properties *)

(** ** Numbers

    Sums and differences of integers below 2^53 in absolute value are
    exact, and such integers compare as their doubles do. *)

Lemma digits2_pos_iter (p k : positive) :
  digits2_pos (Pos.iter xO p k) = (digits2_pos p + k)%positive.
Proof.
  induction k as [| k IH] using Pos.peano_ind.
  - cbn. lia.
  - rewrite Pos.iter_succ. cbn [digits2_pos]. rewrite IH. lia.
Qed.

Lemma Zpos_iter_xO (p k : positive) :
  Zpos (Pos.iter xO p k) = (Zpos p * 2 ^ Zpos k)%Z.
Proof.
  induction k as [| k IH] using Pos.peano_ind.
  - cbn. lia.
  - rewrite Pos.iter_succ, Pos2Z.inj_xO, IH, Pos2Z.inj_succ, Z.pow_succ_r by lia. ring.
Qed.

Lemma digits_shift_pos (n : positive) (k : Z) :
  (0 <= k)%Z ->
  Zpos (digits2_pos (shift_pos n k)) = (Zpos (digits2_pos n) + k)%Z.
Proof.
  destruct k as [| j | j]; cbn [shift_pos]; intros H; [lia | | lia].
  rewrite digits2_pos_iter. lia.
Qed.

Lemma Zpos_shift_pos (n : positive) (k : Z) :
  (0 <= k)%Z -> Zpos (shift_pos n k) = (Zpos n * 2 ^ k)%Z.
Proof.
  destruct k as [| j | j]; cbn [shift_pos]; intros H; [| | lia].
  - rewrite Z.pow_0_r. lia.
  - apply Zpos_iter_xO.
Qed.

Lemma shift_pos_add (n : positive) (j k : Z) :
  (0 <= j)%Z -> (0 <= k)%Z ->
  shift_pos (shift_pos n j) k = shift_pos n (j + k).
Proof.
  intros Hj Hk. apply Pos2Z.inj.
  rewrite !Zpos_shift_pos by lia. rewrite Z.pow_add_r by lia. ring.
Qed.

Lemma digits2_pos_bounds (p : positive) :
  (2 ^ (Zpos (digits2_pos p) - 1) <= Zpos p < 2 ^ Zpos (digits2_pos p))%Z.
Proof.
  induction p as [p IH | p IH |]; cbn [digits2_pos].
  - rewrite Pos2Z.inj_succ, (Pos2Z.inj_xI p).
    replace (Z.succ (Zpos (digits2_pos p)) - 1)%Z with (Z.succ (Zpos (digits2_pos p) - 1))%Z by lia.
    rewrite !Z.pow_succ_r by lia.
    revert IH. generalize (2 ^ (Z.pos (digits2_pos p) - 1))%Z (2 ^ Z.pos (digits2_pos p))%Z.
    lia.
  - rewrite Pos2Z.inj_succ, (Pos2Z.inj_xO p).
    replace (Z.succ (Zpos (digits2_pos p)) - 1)%Z with (Z.succ (Zpos (digits2_pos p) - 1))%Z by lia.
    rewrite !Z.pow_succ_r by lia.
    revert IH. generalize (2 ^ (Z.pos (digits2_pos p) - 1))%Z (2 ^ Z.pos (digits2_pos p))%Z.
    lia.
  - split; [discriminate | reflexivity].
Qed.

Lemma digits2_pos_safe (p : positive) :
  (Zpos p < 2 ^ 53)%Z <-> (Zpos (digits2_pos p) <= 53)%Z.
Proof.
  pose proof (digits2_pos_bounds p) as [Hlo Hhi]. split; intros H.
  - destruct (Z.le_gt_cases (Zpos (digits2_pos p)) 53) as [|Hgt]; [assumption |].
    exfalso. assert (2 ^ 53 <= 2 ^ (Zpos (digits2_pos p) - 1))%Z
      by (apply Z.pow_le_mono_r; lia). lia.
  - assert (2 ^ Zpos (digits2_pos p) <= 2 ^ 53)%Z by (apply Z.pow_le_mono_r; lia). lia.
Qed.

Lemma iter_pos_iter {A} (f : A -> A) (n : positive) (x : A) :
  SpecFloat.iter_pos f n x = Pos.iter f x n.
Proof.
  revert x. induction n as [n IH | n IH |]; intros x; cbn [SpecFloat.iter_pos Pos.iter].
  - rewrite !IH, !Pos.iter_swap. reflexivity.
  - rewrite !IH. reflexivity.
  - reflexivity.
Qed.

Lemma iter_pos_shr_1 (r t : positive) :
  SpecFloat.iter_pos shr_1 t (Build_shr_record (Zpos (Pos.iter xO r t)) false false)
  = Build_shr_record (Zpos r) false false.
Proof.
  rewrite iter_pos_iter.
  induction t as [| t IH] using Pos.peano_ind.
  - reflexivity.
  - rewrite Pos.iter_succ_r, Pos.iter_succ. cbn [shr_1 orb]. exact IH.
Qed.

(** A mantissa of 53 digits at an exponent of the normal range is kept
    as it is; a longer one that ends in zeros is shifted, exactly. *)
Lemma binary_round_aux_exact (s : bool) (r : positive) (e t : Z) :
  Zpos (digits2_pos r) = 53%Z ->
  (0 <= t)%Z -> (-1074 <= e + t <= 971)%Z ->
  binary_round_aux 53 1024 s (Zpos (shift_pos r t)) e loc_Exact
  = S754_finite s r (e + t).
Proof.
  intros Hd Ht He. unfold binary_round_aux.
  assert (Hshift : shr_fexp 53 1024 (Zpos (shift_pos r t)) e loc_Exact
                   = (Build_shr_record (Zpos r) false false, (e + t)%Z)).
  { unfold shr_fexp. cbn [Zdigits2 shr_record_of_loc].
    rewrite digits_shift_pos by assumption. rewrite Hd.
    replace (fexp 53 1024 (53 + t + e) - e)%Z with t by (unfold fexp, emin; lia).
    destruct t as [| j | j]; cbn [shr shift_pos]; [| | lia].
    - f_equal. lia.
    - rewrite iter_pos_shr_1. reflexivity. }
  rewrite Hshift. cbn [shr_m loc_of_shr_record round_nearest_even].
  assert (Hkeep : shr_fexp 53 1024 (Zpos r) (e + t) loc_Exact
                  = (Build_shr_record (Zpos r) false false, (e + t)%Z)).
  { unfold shr_fexp. cbn [Zdigits2 shr_record_of_loc]. rewrite Hd.
    replace (fexp 53 1024 (53 + (e + t)) - (e + t))%Z with 0%Z
      by (unfold fexp, emin; lia).
    reflexivity. }
  rewrite Hkeep. cbn [shr_m].
  replace (e + t <=? 1024 - 53)%Z with true by (symmetry; apply Z.leb_le; lia).
  reflexivity.
Qed.

(** Rounding [n * 2^k] at exponent [-k] gives the double of the integer
    [n], whatever [k]. *)
Lemma binary_round_int (s : bool) (n : positive) (k : Z) :
  (Zpos n < 2 ^ 53)%Z -> (0 <= k)%Z ->
  binary_round 53 1024 s (shift_pos n k) (- k) = int_float s n.
Proof.
  intros Hn Hk. apply digits2_pos_safe in Hn.
  pose proof (Pos2Z.is_pos (digits2_pos n)) as Hd0.
  unfold binary_round, int_float.
  rewrite digits_shift_pos by assumption.
  replace (fexp 53 1024 (Zpos (digits2_pos n) + k + - k))
    with (Zpos (digits2_pos n) - 53)%Z by (unfold fexp, emin; lia).
  set (d := Zpos (digits2_pos n)) in *.
  unfold shl_align.
  destruct (d - 53 - - k)%Z as [| j | j] eqn:Hj.
  - (* already aligned *)
    replace (shift_pos n k) with (shift_pos (shift_pos n (53 - d)) 0)
      by (cbn [shift_pos]; f_equal; lia).
    rewrite binary_round_aux_exact.
    + f_equal. lia.
    + rewrite digits_shift_pos by lia. fold d. lia.
    + lia.
    + lia.
  - (* too long: shift right *)
    replace (shift_pos n k) with (shift_pos (shift_pos n (53 - d)) (Zpos j))
      by (rewrite shift_pos_add by lia; f_equal; lia).
    rewrite binary_round_aux_exact.
    + f_equal. lia.
    + rewrite digits_shift_pos by lia. fold d. lia.
    + lia.
    + lia.
  - (* too short: shift left *)
    change (Pos.iter xO (shift_pos n k) j) with (shift_pos (shift_pos n k) (Zpos j)).
    rewrite shift_pos_add by lia.
    replace (k + Zpos j)%Z with (53 - d)%Z by lia.
    replace (shift_pos n (53 - d)) with (shift_pos (shift_pos n (53 - d)) 0) at 1
      by reflexivity.
    rewrite binary_round_aux_exact.
    + f_equal. lia.
    + rewrite digits_shift_pos by lia. fold d. lia.
    + lia.
    + lia.
Qed.

(** Normalising [z * 2^k] at exponent [-k] gives the double of [z]. *)
Lemma binary_normalize_int (z k : Z) :
  Number.safe z -> (0 <= k)%Z ->
  binary_normalize 53 1024 (z * 2 ^ k) (- k) false = Z_float z.
Proof.
  unfold Number.safe. intros Hz Hk.
  assert (Hpow : (0 < 2 ^ k)%Z) by (apply Z.pow_pos_nonneg; lia).
  destruct z as [| n | n]; cbn [Z_float].
  - reflexivity.
  - assert (Hq : (Zpos n * 2 ^ k)%Z = Zpos (shift_pos n k))
      by (symmetry; apply Zpos_shift_pos; assumption).
    rewrite Hq. cbn [binary_normalize]. apply binary_round_int; lia.
  - assert (Hq : (Zneg n * 2 ^ k)%Z = Zneg (shift_pos n k)).
    { rewrite <- !Pos2Z.opp_pos, Z.mul_opp_l. f_equal.
      symmetry. apply Zpos_shift_pos. assumption. }
    rewrite Hq. cbn [binary_normalize]. apply binary_round_int; lia.
Qed.

Lemma of_Z_float (z : Z) : Number.safe z -> Number.of_Z z = Z_float z.
Proof.
  intros Hz. unfold Number.of_Z, Number.prec, Number.emax.
  rewrite <- (binary_normalize_int z 0 Hz) by lia.
  rewrite Z.pow_0_r, Z.mul_1_r. reflexivity.
Qed.

Lemma aligned_mantissa (s : bool) (n : positive) (ez : Z) :
  (Zpos n < 2 ^ 53)%Z ->
  (ez <= Zpos (digits2_pos n) - 53)%Z ->
  cond_Zopp s
    (Zpos (fst (shl_align (shift_pos n (53 - Zpos (digits2_pos n)))
                  (Zpos (digits2_pos n) - 53) ez)))
  = ((if s then Zneg n else Zpos n) * 2 ^ (- ez))%Z.
Proof.
  intros Hn Hez. apply digits2_pos_safe in Hn.
  set (d := Zpos (digits2_pos n)) in *.
  assert (Hfst : fst (shl_align (shift_pos n (53 - d)) (d - 53) ez)
                 = shift_pos n (- ez)).
  { unfold shl_align. destruct (ez - (d - 53))%Z as [| j | j] eqn:Hj; cbn [fst].
    - f_equal. lia.
    - lia.
    - change (Pos.iter xO (shift_pos n (53 - d)) j)
        with (shift_pos (shift_pos n (53 - d)) (Zpos j)).
      rewrite shift_pos_add by lia. f_equal. lia. }
  rewrite Hfst, Zpos_shift_pos by lia.
  destruct s; cbn [cond_Zopp]; [| reflexivity].
  rewrite <- Z.mul_opp_l. reflexivity.
Qed.

(** The sum of two integers is exact, as long as it stays below 2^53 in
    absolute value. *)
Lemma add_Z_float (a b : Z) :
  Number.safe a -> Number.safe b -> Number.safe (a + b) ->
  Number.add (Z_float a) (Z_float b) = Z_float (a + b).
Proof.
  unfold Number.add, Number.prec, Number.emax. intros Ha Hb Hab.
  destruct a as [| na | na]; [destruct b; reflexivity | |];
    (destruct b as [| nb | nb]; [rewrite Z.add_0_r; reflexivity | |]);
    cbn [Z_float int_float SFadd];
    match goal with
    | |- binary_normalize _ _ (cond_Zopp ?sa _ + cond_Zopp ?sb _) ?ez _ = _ =>
        rewrite (aligned_mantissa sa na ez), (aligned_mantissa sb nb ez)
          by (unfold Number.safe in *; lia);
        rewrite <- Z.mul_add_distr_r;
        replace ez with (- (- ez))%Z at 2 by lia;
        apply binary_normalize_int;
        [ exact Hab
        | pose proof (proj1 (digits2_pos_safe na)); pose proof (proj1 (digits2_pos_safe nb));
          unfold Number.safe in *; lia ]
    end.
Qed.

Lemma sub_Z_float (a b : Z) :
  Number.safe a -> Number.safe b -> Number.safe (a - b) ->
  Number.sub (Z_float a) (Z_float b) = Z_float (a - b).
Proof.
  unfold Number.sub, Number.prec, Number.emax. intros Ha Hb Hab.
  destruct a as [| na | na]; [destruct b; reflexivity | |];
    (destruct b as [| nb | nb]; [rewrite Z.sub_0_r; reflexivity | |]);
    cbn [Z_float int_float SFsub];
    match goal with
    | |- binary_normalize _ _ (cond_Zopp ?sa _ - cond_Zopp ?sb _) ?ez _ = _ =>
        rewrite (aligned_mantissa sa na ez), (aligned_mantissa sb nb ez)
          by (unfold Number.safe in *; lia);
        rewrite <- Z.mul_sub_distr_r;
        replace ez with (- (- ez))%Z at 2 by lia;
        apply binary_normalize_int;
        [ exact Hab
        | pose proof (proj1 (digits2_pos_safe na)); pose proof (proj1 (digits2_pos_safe nb));
          unfold Number.safe in *; lia ]
    end.
Qed.

Lemma add_of_Z (a b : Z) :
  Number.safe a -> Number.safe b -> Number.safe (a + b) ->
  Number.add (Number.of_Z a) (Number.of_Z b) = Number.of_Z (a + b).
Proof.
  intros Ha Hb Hab. rewrite !of_Z_float by assumption. now apply add_Z_float.
Qed.

Lemma sub_of_Z (a b : Z) :
  Number.safe a -> Number.safe b -> Number.safe (a - b) ->
  Number.sub (Number.of_Z a) (Number.of_Z b) = Number.of_Z (a - b).
Proof.
  intros Ha Hb Hab. rewrite !of_Z_float by assumption. now apply sub_Z_float.
Qed.

Lemma compare_int_float (na nb : positive) :
  (Zpos na < 2 ^ 53)%Z -> (Zpos nb < 2 ^ 53)%Z ->
  match (Zpos (digits2_pos na) - 53 ?= Zpos (digits2_pos nb) - 53)%Z with
  | Lt => Lt
  | Gt => Gt
  | Eq => Pos.compare_cont Eq (shift_pos na (53 - Zpos (digits2_pos na)))
                              (shift_pos nb (53 - Zpos (digits2_pos nb)))
  end = (na ?= nb)%positive.
Proof.
  intros Ha Hb.
  pose proof (digits2_pos_bounds na) as [Hla Hua].
  pose proof (digits2_pos_bounds nb) as [Hlb Hub].
  apply digits2_pos_safe in Ha, Hb.
  set (da := Zpos (digits2_pos na)) in *. set (db := Zpos (digits2_pos nb)) in *.
  destruct (Z.compare_spec (da - 53) (db - 53)) as [He | He | He].
  - assert (Hd : da = db) by lia. rewrite <- Hd.
    change (Pos.compare_cont Eq ?x ?y) with (x ?= y)%positive.
    rewrite !Pos2Z.inj_compare, !Zpos_shift_pos by lia.
    symmetry. apply Zmult_compare_compat_r.
    apply Z.lt_gt, Z.pow_pos_nonneg; lia.
  - symmetry. apply Pos.compare_lt_iff.
    assert (2 ^ da <= 2 ^ (db - 1))%Z by (apply Z.pow_le_mono_r; lia). lia.
  - symmetry. apply Pos.compare_gt_iff.
    assert (2 ^ db <= 2 ^ (da - 1))%Z by (apply Z.pow_le_mono_r; lia). lia.
Qed.

(** Integers compare as their doubles do. *)
Lemma compare_Z_float (a b : Z) :
  Number.safe a -> Number.safe b ->
  SFcompare (Z_float a) (Z_float b) = Some (a ?= b)%Z.
Proof.
  unfold Number.safe. intros Ha Hb.
  destruct a as [| na | na], b as [| nb | nb]; try reflexivity;
    cbn [Z_float int_float SFcompare Z.compare]; f_equal.
  - apply compare_int_float; lia.
  - rewrite <- (compare_int_float na nb) by lia.
    destruct (Zpos (digits2_pos na) - 53 ?= Zpos (digits2_pos nb) - 53)%Z; reflexivity.
Qed.

Lemma ltb_of_Z (a b : Z) :
  Number.safe a -> Number.safe b ->
  Number.ltb (Number.of_Z a) (Number.of_Z b) = (a <? b)%Z.
Proof.
  intros Ha Hb. rewrite !of_Z_float by assumption.
  unfold Number.ltb, SFltb. rewrite compare_Z_float by assumption.
  unfold Z.ltb. destruct (a ?= b)%Z; reflexivity.
Qed.

Lemma of_Z_inj (a b : Z) :
  Number.safe a -> Number.safe b -> Number.of_Z a = Number.of_Z b -> a = b.
Proof.
  intros Ha Hb H. rewrite !of_Z_float in H by assumption.
  pose proof (compare_Z_float a b Ha Hb) as Hab.
  rewrite H, (compare_Z_float b b Hb Hb), Z.compare_refl in Hab.
  injection Hab as Hab. symmetry in Hab. now apply Z.compare_eq.
Qed.

Lemma safe_0 : Number.safe 0.
Proof. unfold Number.safe. lia. Qed.

(** A double plus zero is the double, for a double that is an integer. *)
Lemma add_of_Z_0_l (a : Z) :
  Number.safe a -> Number.add (Number.of_Z 0) (Number.of_Z a) = Number.of_Z a.
Proof. intros Ha. rewrite add_of_Z by (try apply safe_0; assumption). reflexivity. Qed.

(** Addition of doubles is commutative. *)
Lemma add_comm (a b : Number.t) : Number.add a b = Number.add b a.
Proof.
  unfold Number.add.
  destruct a as [sa | sa | | sa ma ea], b as [sb | sb | | sb mb eb];
    try reflexivity;
    try (destruct sa, sb; reflexivity).
  cbn [SFadd]. rewrite (Z.min_comm ea eb), Z.add_comm. reflexivity.
Qed.

Lemma sum_abs_nonneg (l : list Z) : (0 <= sum_abs l)%Z.
Proof.
  induction l as [| m l IH]; [reflexivity |].
  change (sum_abs (m :: l)) with (Z.abs m + sum_abs l)%Z. lia.
Qed.

(** The sum, from left to right, of doubles that are integers is the
    double of the sum of the integers, as long as the absolute values add
    up to less than 2^53. *)
Lemma fold_add_of_Z (l : list Z) (a : Z) :
  (Z.abs a + sum_abs l < 2 ^ 53)%Z ->
  fold_left Number.add (map Number.of_Z l) (Number.of_Z a)
  = Number.of_Z (a + sum_Z l).
Proof.
  revert a. induction l as [| n l IH]; intros a Hb.
  - cbn. now rewrite Z.add_0_r.
  - change (sum_abs (n :: l)) with (Z.abs n + sum_abs l)%Z in Hb.
    change (sum_Z (n :: l)) with (n + sum_Z l)%Z.
    pose proof (sum_abs_nonneg l) as Hl.
    cbn [map fold_left].
    rewrite add_of_Z by (unfold Number.safe; lia).
    rewrite IH by lia. f_equal. lia.
Qed.

(** ** The order of a score column *)

Lemma leb_rank (a b : Number.t) :
  Number.leb a b = true <-> lex_le (rank a) (rank b).
Proof.
  unfold Number.leb, lex_le.
  destruct a as [sa | sa | | sa ma ea], b as [sb | sb | | sb mb eb];
    try destruct sa; try destruct sb; cbn [SFcompare rank fst snd];
    try (split; [intros _; lia | reflexivity]);
    try (split; [discriminate | intros; exfalso; lia]).
  - (* negative, negative *)
    change (Pos.compare_cont Eq ma mb) with (ma ?= mb)%positive.
    destruct (Z.compare_spec ea eb), (Pos.compare_spec ma mb); cbn [CompOpp];
      (split; [intros; lia | intros; first [reflexivity | exfalso; lia]])
      || (split; [discriminate | intros; exfalso; lia]).
  - (* positive, positive *)
    change (Pos.compare_cont Eq ma mb) with (ma ?= mb)%positive.
    destruct (Z.compare_spec ea eb), (Pos.compare_spec ma mb);
      (split; [intros; lia | intros; first [reflexivity | exfalso; lia]])
      || (split; [discriminate | intros; exfalso; lia]).
Qed.

Lemma leb_total (a b : Number.t) : Number.leb a b = false -> Number.leb b a = true.
Proof.
  intros H. apply leb_rank. apply not_true_iff_false in H.
  rewrite leb_rank in H. unfold lex_le in *. lia.
Qed.

Lemma leb_trans (a b c : Number.t) :
  Number.leb a b = true -> Number.leb b c = true -> Number.leb a c = true.
Proof. rewrite !leb_rank. unfold lex_le. lia. Qed.

(** ** Strings *)

Lemma eqb_same (s : string) : String.eqb s s = true.
Proof. apply String.eqb_refl. Qed.

Lemma eqb_differ (s t : string) : s <> t -> String.eqb s t = false.
Proof. apply String.eqb_neq. Qed.

(** ** The monad *)

Lemma bind_ok {A B} (c : M A) (k : A -> M B) (w w' : World) (a : A) :
  c w = (Ok a, w') -> bind c k w = k a w'.
Proof. intros H. unfold bind. now rewrite H. Qed.

Lemma bind_throw {A B} (c : M A) (k : A -> M B) (w w' : World) (e : Error) :
  c w = (Throw e, w') -> bind c k w = (Throw e, w').
Proof. intros H. unfold bind. now rewrite H. Qed.

Lemma throw_if_false (e : Error) (w : World) : throw_if false e w = (Ok tt, w).
Proof. reflexivity. Qed.

Lemma throw_if_true (e : Error) (w : World) : throw_if true e w = (Throw e, w).
Proof. reflexivity. Qed.

(** ** The transition table *)

(** A transition outside the table is refused by the [switch], with an
    error the controller answers with 400. *)
Lemma validate_outside_table (cur new : OrderStatus) (userId : string)
    (order : OrderRepository.OrderWithDetails) (w : World) :
  raw_transition cur new = false ->
  exists e, OrderService.validateStatusTransition cur new userId order w = (Throw e, w)
            /\ OrderController.updateOrderStatus_code e = 400.
Proof.
  intros H. destruct cur, new; try discriminate H;
    (eexists; split; [reflexivity | reflexivity]).
Qed.

(** A transition of the table passes the [switch]; the role checks decide. *)
Lemma validate_inside_table (cur new : OrderStatus) (userId : string)
    (order : OrderRepository.OrderWithDetails) (w : World) :
  raw_transition cur new = true ->
  OrderService.validateStatusTransition cur new userId order w =
    if role_refused userId order new
    then (Throw (Err (if String.eqb userId (MarketplaceProduct.sellerId (snd order))
                         && negb (status_in [processing; shipped; completed] new)
                      then "Sellers can only set orders to processing, shipped, or completed"
                      else "Buyers can only cancel pending orders")), w)
    else (Ok tt, w).
Proof.
  intros H. unfold role_refused, OrderService.validateStatusTransition.
  destruct cur, new; try discriminate H; cbn;
    destruct (String.eqb userId (MarketplaceProduct.sellerId (snd order)));
    destruct (String.eqb userId (Order.buyerId (fst order))); reflexivity.
Qed.

Lemma findById_order (w : World) (orderId : string) (o : Order.t)
    (p : MarketplaceProduct.t) :
  orders w !! orderId = Some o ->
  products w !! Order.productId o = Some p ->
  OrderRepository.findById orderId w = (Ok (Some (o, p)), w).
Proof.
  intros Ho Hp. unfold OrderRepository.findById. rewrite Ho. cbn. now rewrite Hp.
Qed.

(** [updateOrderStatus] either throws and leaves the database as it was,
    or writes the status of that one order; it never touches a product. *)
Lemma updateOrderStatus_effect (w : World) (orderId : string) (status : OrderStatus)
    (userId : string) (isAdmin : bool) :
  (exists e, OrderService.updateOrderStatus orderId status userId isAdmin w = (Throw e, w))
  \/ (exists o, orders w !! orderId = Some o /\
        OrderService.updateOrderStatus orderId status userId isAdmin w =
          (Ok (OrderRepository.apply_update (OrderRepository.only_status status) o),
           set_orders (<[orderId := OrderRepository.apply_update
                                      (OrderRepository.only_status status) o]> (orders w)) w)).
Proof.
  unfold OrderService.updateOrderStatus, bind, OrderRepository.findById.
  destruct (orders w !! orderId) as [o|] eqn:Ho; cbn; [| left; eexists; reflexivity].
  destruct (products w !! Order.productId o) as [p|]; cbn; [| left; eexists; reflexivity].
  match goal with |- context [throw_if ?b ?e w] => destruct b end; cbn;
    [left; eexists; reflexivity |].
  destruct (OrderService.validateStatusTransition (Order.status o) status userId (o, p) w)
    as [[[]|e] w'] eqn:Hv.
  - assert (w' = w) as ->.
    { destruct (raw_transition (Order.status o) status) eqn:Hr.
      - rewrite (validate_inside_table _ _ _ _ _ Hr) in Hv.
        destruct (role_refused userId (o, p) status); congruence.
      - destruct (validate_outside_table _ _ userId (o, p) w Hr) as (e & He & _).
        congruence. }
    right. exists o. split; [reflexivity |].
    unfold OrderRepository.update. now rewrite Ho.
  - left. exists e.
    destruct (raw_transition (Order.status o) status) eqn:Hr.
    + rewrite (validate_inside_table _ _ _ _ _ Hr) in Hv.
      destruct (role_refused userId (o, p) status); congruence.
    + destruct (validate_outside_table _ _ userId (o, p) w Hr) as (e' & He & _).
      congruence.
Qed.

(** ** Order lifecycle *)

(** C1. An order whose status is completed or canceled accepts no status
    update: whoever calls [updateOrderStatus], admin or not, and whatever
    the target status, the call throws and the database, hence the status
    of the order, is as before. *)
Theorem updateOrderStatus_terminal (w : World) (orderId : string) (o : Order.t)
    (status : OrderStatus) (userId : string) (isAdmin : bool) :
  orders w !! orderId = Some o ->
  Order.status o = completed \/ Order.status o = canceled ->
  (exists e,
     OrderService.updateOrderStatus orderId status userId isAdmin w = (Throw e, w))
  /\ orders (snd (OrderService.updateOrderStatus orderId status userId isAdmin w))
       !! orderId = Some o.
Proof.
  intros Ho Hst.
  assert (H : exists e,
    OrderService.updateOrderStatus orderId status userId isAdmin w = (Throw e, w)).
  { unfold OrderService.updateOrderStatus, bind, OrderRepository.findById.
    rewrite Ho. cbn.
    destruct (products w !! Order.productId o) as [p|]; cbn; [| eauto].
    match goal with |- context [throw_if ?b ?e w] => destruct b end; cbn; [eauto |].
    destruct Hst as [-> | ->]; cbn; eauto. }
  split; [exact H |]. destruct H as [e ->]. exact Ho.
Qed.

Lemma updateOrderStatus_terminal_witness :
  (exists e,
     OrderService.updateOrderStatus "o1" processing "sam" true
       (Sample.shop_with completed) = (Throw e, Sample.shop_with completed))
  /\ orders (snd (OrderService.updateOrderStatus "o1" processing "sam" true
                    (Sample.shop_with completed)))
       !! "o1" = Some (Sample.order completed).
Proof.
  apply (updateOrderStatus_terminal (Sample.shop_with completed) "o1"
           (Sample.order completed) processing "sam" true).
  - reflexivity.
  - left. reflexivity.
Defined.

(** C4, as the code has it. A seller who asks for a status outside
    processing, shipped and completed, and a buyer who asks for a status
    other than canceled, are always refused and nothing is written.  The
    refusal is Forbidden (403) when the transition is in the table; when
    it is not, the [switch] throws first and the refusal is the
    invalid-transition error (400). *)
Theorem updateOrderStatus_role_restriction (w : World) (orderId : string)
    (o : Order.t) (p : MarketplaceProduct.t) (status : OrderStatus)
    (userId : string) :
  orders w !! orderId = Some o ->
  products w !! Order.productId o = Some p ->
  (userId = MarketplaceProduct.sellerId p
   /\ status_in [processing; shipped; completed] status = false)
  \/ (userId = Order.buyerId o /\ status <> canceled) ->
  exists e,
    OrderService.updateOrderStatus orderId status userId false w = (Throw e, w)
    /\ OrderController.updateOrderStatus_code e =
         if raw_transition (Order.status o) status then 403 else 400.
Proof.
  intros Ho Hp Hrole.
  unfold OrderService.updateOrderStatus.
  rewrite (bind_ok _ _ _ _ _ (findById_order w orderId o p Ho Hp)). cbn [fst snd].
  assert (Hauth : negb false
                  && negb (String.eqb (MarketplaceProduct.sellerId p) userId)
                  && negb (String.eqb (Order.buyerId o) userId) = false).
  { destruct Hrole as [[-> _] | [-> _]]; rewrite eqb_same; cbn;
      [reflexivity | apply andb_false_r]. }
  rewrite Hauth.
  rewrite (bind_ok _ _ _ _ _ (throw_if_false _ w)).
  destruct (raw_transition (Order.status o) status) eqn:Hraw.
  - assert (Hrefused : role_refused userId (o, p) status = true).
    { unfold role_refused. cbn [fst snd].
      destruct Hrole as [[-> Hs] | [-> Hs]]; rewrite eqb_same.
      - rewrite Hs. reflexivity.
      - apply orb_true_iff. right. cbn.
        unfold OrderStatus_eqb. rewrite bool_decide_eq_false_2 by exact Hs.
        reflexivity. }
    eexists. split.
    + apply bind_throw. rewrite (validate_inside_table _ _ _ _ _ Hraw).
      rewrite Hrefused. reflexivity.
    + cbn [fst snd].
      destruct (String.eqb userId (MarketplaceProduct.sellerId p)
                && negb (status_in [processing; shipped; completed] status));
        reflexivity.
  - destruct (validate_outside_table _ _ userId (o, p) w Hraw) as (e & He & Hc).
    exists e. split; [now apply bind_throw | exact Hc].
Qed.

Lemma updateOrderStatus_role_restriction_witness :
  exists e,
    OrderService.updateOrderStatus "o1" processing "bob" false
      (Sample.shop_with pending) = (Throw e, Sample.shop_with pending)
    /\ OrderController.updateOrderStatus_code e = 403.
Proof.
  apply (updateOrderStatus_role_restriction (Sample.shop_with pending) "o1"
           (Sample.order pending) (Sample.product 3) processing "bob").
  - reflexivity.
  - reflexivity.
  - right. split; [reflexivity | discriminate].
Defined.

(** C4 as stated fails: the seller of a shipped order who asks for canceled,
    a status outside processing, shipped and completed, gets the
    invalid-transition error, which the controller answers with 400, not
    the Forbidden of the role check. *)
Lemma seller_cancels_shipped_order_not_forbidden :
  OrderService.updateOrderStatus "o1" canceled "sam" false (Sample.shop_with shipped)
    = (Throw (Err "Cannot transition from shipped to canceled"),
       Sample.shop_with shipped)
  /\ OrderController.updateOrderStatus_code
       (Err "Cannot transition from shipped to canceled") = 400
  /\ OrderController.updateOrderStatus_code
       (Err "Cannot transition from shipped to canceled") <> 403.
Proof. split; [reflexivity | split; [reflexivity | discriminate]]. Qed.

(** [updateOrderStatus] writes to the order table only. *)
Lemma updateOrderStatus_keeps_products (w : World) (orderId : string)
    (status : OrderStatus) (userId : string) (isAdmin : bool) :
  products (snd (OrderService.updateOrderStatus orderId status userId isAdmin w))
    = products w.
Proof.
  destruct (updateOrderStatus_effect w orderId status userId isAdmin)
    as [[e ->] | (o & _ & ->)]; reflexivity.
Qed.

(** C5, at the scenario of the specification: three items are left after
    bob's order of two.  Bob sets his pending order to canceled through
    [updateOrderStatus]: the call succeeds and the order is canceled, but
    the stock stays at three, where [cancelOrder] on the same order brings
    it back to five. *)
Theorem updateOrderStatus_cancel_keeps_stock :
  OrderService.updateOrderStatus "o1" canceled "bob" false (Sample.shop_with pending)
    = (Ok (Sample.order canceled),
       mkWorld {[ "p1" := Sample.product 3 ]} {[ "o1" := Sample.order canceled ]} ∅ ∅)
  /\ OrderService.cancelOrder "o1" "bob" false (Sample.shop_with pending)
    = (Ok (Sample.order canceled),
       mkWorld {[ "p1" := Sample.product 5 ]} {[ "o1" := Sample.order canceled ]} ∅ ∅).
Proof. split; vm_compute; reflexivity. Qed.

(** A privileged [updateProduct] on a product of the table writes it. *)
Lemma updateProduct_admin (w : World) (productId userId : string)
    (data : ProductRepository.UpdateProductInput) (p : MarketplaceProduct.t) :
  products w !! productId = Some p ->
  ProductService.updateProduct productId userId data true w
    = (Ok (ProductRepository.apply_update data p),
       set_products (<[productId := ProductRepository.apply_update data p]> (products w)) w).
Proof.
  intros Hp. unfold ProductService.updateProduct, ProductRepository.findById,
    ProductRepository.update, bind.
  rewrite Hp. cbn [negb andb throw_if ret]. now rewrite Hp.
Qed.

Lemma update_order (w : World) (orderId : string)
    (data : OrderRepository.UpdateOrderInput) (o : Order.t) :
  orders w !! orderId = Some o ->
  OrderRepository.update orderId data w
    = (Ok (OrderRepository.apply_update data o),
       set_orders (<[orderId := OrderRepository.apply_update data o]> (orders w)) w).
Proof. intros Ho. unfold OrderRepository.update. now rewrite Ho. Qed.

(** C6, as the code has it. For a caller who is the buyer, the seller or
    an admin, [cancelOrder] succeeds exactly when the order is pending:
    the order is then written back as canceled and the stock of its
    product becomes the double sum of the stock and the quantity of the
    order, which is their exact sum when the three are integers below
    2^53 in absolute value.  At any other status the call throws
    "Only pending orders can be canceled" and nothing is written. *)
Theorem cancelOrder_outcome (w : World) (orderId : string) (o : Order.t)
    (p : MarketplaceProduct.t) (userId : string) (isAdmin : bool) :
  orders w !! orderId = Some o ->
  products w !! Order.productId o = Some p ->
  isAdmin = true \/ userId = Order.buyerId o \/ userId = MarketplaceProduct.sellerId p ->
  (Order.status o = pending ->
   exists o' p' w',
     OrderService.cancelOrder orderId userId isAdmin w = (Ok o', w')
     /\ orders w' !! orderId = Some o'
     /\ Order.status o' = canceled
     /\ Order.quantity o' = Order.quantity o
     /\ products w' !! Order.productId o = Some p'
     /\ MarketplaceProduct.stock p'
          = Number.add (MarketplaceProduct.stock p) (Order.quantity o)
     /\ (forall s q : Z,
           Number.safe s -> Number.safe q -> Number.safe (s + q) ->
           MarketplaceProduct.stock p = Number.of_Z s ->
           Order.quantity o = Number.of_Z q ->
           MarketplaceProduct.stock p' = Number.of_Z (s + q)))
  /\ (Order.status o <> pending ->
      OrderService.cancelOrder orderId userId isAdmin w
        = (Throw (Err "Only pending orders can be canceled"), w)).
Proof.
  intros Ho Hp Hwho.
  assert (Hauth : negb isAdmin
                  && negb (String.eqb (Order.buyerId o) userId)
                  && negb (String.eqb (MarketplaceProduct.sellerId p) userId) = false).
  { destruct Hwho as [-> | [-> | ->]]; [reflexivity | |];
      rewrite eqb_same; cbn; rewrite ?andb_false_r; reflexivity. }
  unfold OrderService.cancelOrder.
  rewrite (bind_ok _ _ _ _ _ (findById_order w orderId o p Ho Hp)). cbn [fst snd].
  rewrite Hauth, (bind_ok _ _ _ _ _ (throw_if_false _ w)).
  split; intros Hst.
  - rewrite Hst. cbn [OrderStatus_eqb negb].
    rewrite (bind_ok _ _ _ _ _ (throw_if_false _ w)).
    rewrite (bind_ok _ _ _ _ _ (update_order w orderId _ o Ho)).
    erewrite bind_ok; [| apply updateProduct_admin; exact Hp].
    do 3 eexists. split; [reflexivity |]. cbn.
    rewrite !lookup_insert_eq.
    split; [reflexivity |]. split; [reflexivity |]. split; [reflexivity |].
    split; [reflexivity |]. split; [reflexivity |].
    intros s q Hs Hq Hsq -> ->. now apply add_of_Z.
  - unfold OrderStatus_eqb. rewrite bool_decide_eq_false_2 by exact Hst.
    reflexivity.
Qed.

Lemma cancelOrder_outcome_witness :
  exists o' p' w',
    OrderService.cancelOrder "o1" "sam" false (Sample.shop_with pending) = (Ok o', w')
    /\ orders w' !! "o1" = Some o'
    /\ Order.status o' = canceled
    /\ Order.quantity o' = Number.of_Z 2
    /\ products w' !! "p1" = Some p'
    /\ MarketplaceProduct.stock p' = Number.add (Number.of_Z 3) (Number.of_Z 2)
    /\ (forall s q : Z,
          Number.safe s -> Number.safe q -> Number.safe (s + q) ->
          Number.of_Z 3 = Number.of_Z s ->
          Number.of_Z 2 = Number.of_Z q ->
          MarketplaceProduct.stock p' = Number.of_Z (s + q)).
Proof.
  apply (cancelOrder_outcome (Sample.shop_with pending) "o1"
           (Sample.order pending) (Sample.product 3) "sam" false).
  - reflexivity.
  - reflexivity.
  - right. right. reflexivity.
  - reflexivity.
Defined.

(** C6 as stated fails: at a stock of 2^53 the buyer cancels a pending
    order of one item; the call succeeds, and the stock written back is
    the stock from before, 2^53, not one more. *)
Lemma cancelOrder_keeps_stock_at_2_53 :
  exists o' p' w',
    OrderService.cancelOrder "o1" "bob" false (Sample.stocked (2 ^ 53) pending)
      = (Ok o', w')
    /\ Order.status o' = canceled
    /\ Order.quantity o' = Number.of_Z 1
    /\ products (Sample.stocked (2 ^ 53) pending) !! "p1"
       = Some (Sample.product (2 ^ 53))
    /\ products w' !! "p1" = Some p'
    /\ MarketplaceProduct.stock p' = MarketplaceProduct.stock (Sample.product (2 ^ 53))
    /\ Number.ltb (MarketplaceProduct.stock (Sample.product (2 ^ 53)))
         (MarketplaceProduct.stock p') = false.
Proof.
  do 3 eexists. split; [vm_compute; reflexivity |].
  repeat split; reflexivity.
Qed.

(** C2, as the code has it. [createOrder] checks, in this order, that the
    product exists, that it is active, that its stock is not less than the
    quantity and that [Math.abs(price * quantity - totalPrice)], computed
    in doubles, is not greater than [0.01].  The first check that fails
    throws its own error and nothing is written: no order is created and
    the stock is as before.  When the four pass, a new order is created
    and the stock of the product becomes the double difference of the
    stock and the quantity, their exact difference when the three are
    integers below 2^53 in absolute value; the status of the order is the
    one the order data carries, and pending when it carries none. *)
Theorem createOrder_outcome (w : World) (d : OrderRepository.CreateOrderInput) :
  (products w !! OrderRepository.productId d = None ->
   OrderService.createOrder d w = (Throw (Err "Product not found"), w))
  /\ (forall p : MarketplaceProduct.t,
      products w !! OrderRepository.productId d = Some p ->
      (MarketplaceProduct.isActive p = false ->
       OrderService.createOrder d w
         = (Throw (Err "Product is not available for purchase"), w))
      /\ (MarketplaceProduct.isActive p = true ->
          Number.ltb (MarketplaceProduct.stock p) (OrderRepository.quantity d) = true ->
          OrderService.createOrder d w
            = (Throw (Err "Not enough stock available"), w))
      /\ (MarketplaceProduct.isActive p = true ->
          Number.ltb (MarketplaceProduct.stock p) (OrderRepository.quantity d) = false ->
          Number.gtb
            (Number.abs
               (Number.sub
                  (Number.mul (MarketplaceProduct.price p) (OrderRepository.quantity d))
                  (OrderRepository.totalPrice d)))
            (Number.decimal 1 100) = true ->
          OrderService.createOrder d w
            = (Throw (Err "Price mismatch - order price does not match current product price"), w))
      /\ (MarketplaceProduct.isActive p = true ->
          Number.ltb (MarketplaceProduct.stock p) (OrderRepository.quantity d) = false ->
          Number.gtb
            (Number.abs
               (Number.sub
                  (Number.mul (MarketplaceProduct.price p) (OrderRepository.quantity d))
                  (OrderRepository.totalPrice d)))
            (Number.decimal 1 100) = false ->
          MarketplaceProduct.id p = OrderRepository.productId d ->
          exists o p' w',
            OrderService.createOrder d w = (Ok o, w')
            /\ orders w !! Order.id o = None
            /\ orders w' !! Order.id o = Some o
            /\ (forall k, k <> Order.id o -> orders w' !! k = orders w !! k)
            /\ Order.status o = default pending (OrderRepository.status d)
            /\ Order.buyerId o = OrderRepository.buyerId d
            /\ Order.productId o = OrderRepository.productId d
            /\ Order.quantity o = OrderRepository.quantity d
            /\ Order.totalPrice o = OrderRepository.totalPrice d
            /\ products w' !! OrderRepository.productId d = Some p'
            /\ MarketplaceProduct.stock p'
                 = Number.sub (MarketplaceProduct.stock p) (OrderRepository.quantity d)
            /\ (forall s q : Z,
                  Number.safe s -> Number.safe q -> Number.safe (s - q) ->
                  MarketplaceProduct.stock p = Number.of_Z s ->
                  OrderRepository.quantity d = Number.of_Z q ->
                  MarketplaceProduct.stock p' = Number.of_Z (s - q)))).
Proof.
  unfold OrderService.createOrder.
  assert (Hget : ProductService.getProductById (OrderRepository.productId d) w
                 = (Ok (products w !! OrderRepository.productId d), w)) by reflexivity.
  rewrite (bind_ok _ _ _ _ _ Hget). clear Hget.
  split.
  - intros Hnone. now rewrite Hnone.
  - intros p Hp. rewrite Hp. cbv beta iota.
    split; [| split; [| split]].
    + intros Hact. rewrite Hact. reflexivity.
    + intros Hact Hlt. rewrite Hact.
      cbn [negb]. rewrite (bind_ok _ _ _ _ _ (throw_if_false _ w)).
      rewrite Hlt. reflexivity.
    + intros Hact Hle Hgt. rewrite Hact.
      cbn [negb]. rewrite (bind_ok _ _ _ _ _ (throw_if_false _ w)).
      rewrite Hle, (bind_ok _ _ _ _ _ (throw_if_false _ w)).
      rewrite Hgt. reflexivity.
    + intros Hact Hle Hok Hid. rewrite Hact.
      cbn [negb]. rewrite (bind_ok _ _ _ _ _ (throw_if_false _ w)).
      rewrite Hle, (bind_ok _ _ _ _ _ (throw_if_false _ w)).
      rewrite Hok, (bind_ok _ _ _ _ _ (throw_if_false _ w)).
      erewrite bind_ok; [| reflexivity].
      erewrite bind_ok; [| apply updateProduct_admin; rewrite Hid; exact Hp].
      do 3 eexists. split; [reflexivity |]. cbn. rewrite Hid.
      rewrite !lookup_insert_eq.
      split; [apply fresh_string_fresh |]. split; [reflexivity |].
      split; [intros k Hk; now apply lookup_insert_ne |].
      do 7 (split; [reflexivity |]).
      intros s q Hs Hq Hsq -> ->. now apply sub_of_Z.
Qed.

Lemma createOrder_outcome_witness :
  exists o p' w',
    OrderService.createOrder (Sample.purchase None) Sample.shop = (Ok o, w')
    /\ orders Sample.shop !! Order.id o = None
    /\ orders w' !! Order.id o = Some o
    /\ (forall k, k <> Order.id o -> orders w' !! k = orders Sample.shop !! k)
    /\ Order.status o = pending
    /\ Order.buyerId o = "bob"
    /\ Order.productId o = "p1"
    /\ Order.quantity o = Number.of_Z 2
    /\ Order.totalPrice o = Number.of_Z 20
    /\ products w' !! "p1" = Some p'
    /\ MarketplaceProduct.stock p' = Number.sub (Number.of_Z 5) (Number.of_Z 2)
    /\ (forall s q : Z,
          Number.safe s -> Number.safe q -> Number.safe (s - q) ->
          Number.of_Z 5 = Number.of_Z s ->
          Number.of_Z 2 = Number.of_Z q ->
          MarketplaceProduct.stock p' = Number.of_Z (s - q)).
Proof.
  destruct (createOrder_outcome Sample.shop (Sample.purchase None)) as [_ H].
  destruct (H (Sample.product 5)) as (_ & _ & _ & Hok); [reflexivity |].
  apply Hok.
  - reflexivity.
  - reflexivity.
  - reflexivity.
  - reflexivity.
Defined.

(** C2 as stated fails: order data that carries a status is stored with
    that status, here completed, not pending. *)
Lemma createOrder_keeps_given_status :
  exists o w',
    OrderService.createOrder (Sample.purchase (Some completed)) Sample.shop = (Ok o, w')
    /\ Order.status o = completed
    /\ Order.status o <> pending
    /\ orders w' !! Order.id o = Some o.
Proof.
  do 2 eexists. split; [vm_compute; reflexivity |].
  split; [reflexivity | split; [discriminate | reflexivity]].
Qed.

(** ** Ranking adjuster *)

Lemma adjustRanking_existing (w : World) (userId categoryId : string)
    (adjustment : Number.t) (updatedBy : option string) (r : UserRanking.t) :
  rankings w !! (userId, categoryId) = Some r ->
  let r' := UserRanking.mk (UserRanking.userId r) (UserRanking.categoryId r)
              (Number.add (UserRanking.score r) adjustment)
              (default (UserRanking.updatedBy r) updatedBy) in
  RankingService.adjustRanking userId categoryId adjustment updatedBy w
    = (Ok r', set_rankings (<[(userId, categoryId) := r']> (rankings w)) w).
Proof.
  intros Hr. unfold RankingService.adjustRanking, RankingRepository.findRanking, bind.
  rewrite Hr. unfold RankingRepository.updateRanking. now rewrite Hr.
Qed.

Lemma adjustRanking_absent (w : World) (userId categoryId : string)
    (adjustment : Number.t) (updatedBy : option string) :
  rankings w !! (userId, categoryId) = None ->
  let r' := UserRanking.mk userId categoryId adjustment (or_else updatedBy userId) in
  RankingService.adjustRanking userId categoryId adjustment updatedBy w
    = (Ok r', set_rankings (<[(userId, categoryId) := r']> (rankings w)) w).
Proof.
  intros Hr. unfold RankingService.adjustRanking, RankingRepository.findRanking, bind.
  rewrite Hr. unfold RankingRepository.createRanking. cbn. now rewrite Hr.
Qed.

(** One adjustment, whether the entry exists or not: the call returns, only
    the entry of the pair is written and its score is the former score
    plus the adjustment, or the adjustment itself for a new entry. *)
Lemma adjustRanking_score (w : World) (userId categoryId : string)
    (adjustment : Number.t) (updatedBy : option string) :
  exists r' w',
    RankingService.adjustRanking userId categoryId adjustment updatedBy w = (Ok r', w')
    /\ w' = set_rankings (<[(userId, categoryId) := r']> (rankings w)) w
    /\ UserRanking.score r' = adjusted (rankings w !! (userId, categoryId)) adjustment.
Proof.
  destruct (rankings w !! (userId, categoryId)) as [r|] eqn:Hr.
  - do 2 eexists. split; [apply (adjustRanking_existing _ _ _ _ _ _ Hr) |].
    split; reflexivity.
  - do 2 eexists. split; [apply (adjustRanking_absent _ _ _ _ _ Hr) |].
    split; reflexivity.
Qed.

Lemma scoreOf_written (w : World) (userId categoryId : string) (r : UserRanking.t) :
  scoreOf (set_rankings (<[(userId, categoryId) := r]> (rankings w)) w)
    userId categoryId = UserRanking.score r.
Proof. unfold scoreOf. cbn. now rewrite lookup_insert_eq. Qed.

Lemma scoreOf_other (w : World) (k : string * string) (userId categoryId : string)
    (r : UserRanking.t) :
  k <> (userId, categoryId) ->
  scoreOf (set_rankings (<[k := r]> (rankings w)) w) userId categoryId
    = scoreOf w userId categoryId.
Proof. intros Hk. unfold scoreOf. cbn. now rewrite lookup_insert_ne. Qed.

(** An integer adjustment of an integer score is exact: a pair without an
    entry counts 0. *)
Lemma adjusted_of_Z (w : World) (userId categoryId : string) (n a : Z) :
  Number.safe n -> Number.safe a -> Number.safe (n + a) ->
  scoreOf w userId categoryId = Number.of_Z n ->
  adjusted (rankings w !! (userId, categoryId)) (Number.of_Z a) = Number.of_Z (n + a).
Proof.
  intros Hn Ha Hna. unfold scoreOf.
  destruct (rankings w !! (userId, categoryId)) as [r|]; cbn [adjusted]; intros Hs.
  - rewrite Hs. now apply add_of_Z.
  - apply of_Z_inj in Hs; [| apply safe_0 | assumption]. now subst n.
Qed.

(** C3, as the code has it. [adjustRanking] writes the double sum
    score + delta on an existing entry and creates the entry with score
    delta when there is none; two calls in a row, with deltas d1 then d2,
    leave the score at (score + d1) + d2, each sum rounded, and at
    d1 + d2 when there was no entry.  When the score, the deltas and the
    two sums are integers below 2^53 in absolute value, that is the
    initial score plus d1 plus d2, the initial score being 0 when there
    was no entry. *)
Theorem adjustRanking_sequential (w : World) (userId categoryId : string)
    (d1 d2 : Number.t) (by1 by2 : option string) :
  (forall r, rankings w !! (userId, categoryId) = Some r ->
     exists r1 w1,
       RankingService.adjustRanking userId categoryId d1 by1 w = (Ok r1, w1)
       /\ rankings w1 !! (userId, categoryId) = Some r1
       /\ UserRanking.score r1 = Number.add (UserRanking.score r) d1)
  /\ (rankings w !! (userId, categoryId) = None ->
      exists r1 w1,
        RankingService.adjustRanking userId categoryId d1 by1 w = (Ok r1, w1)
        /\ rankings w1 !! (userId, categoryId) = Some r1
        /\ UserRanking.score r1 = d1)
  /\ (exists r1 w1 r2 w2,
        RankingService.adjustRanking userId categoryId d1 by1 w = (Ok r1, w1)
        /\ RankingService.adjustRanking userId categoryId d2 by2 w1 = (Ok r2, w2)
        /\ rankings w2 !! (userId, categoryId) = Some r2
        /\ (forall r, rankings w !! (userId, categoryId) = Some r ->
              UserRanking.score r2
              = Number.add (Number.add (UserRanking.score r) d1) d2)
        /\ (rankings w !! (userId, categoryId) = None ->
              UserRanking.score r2 = Number.add d1 d2)
        /\ (forall s a b : Z,
              Number.safe s -> Number.safe a -> Number.safe b ->
              Number.safe (s + a) -> Number.safe (s + a + b) ->
              scoreOf w userId categoryId = Number.of_Z s ->
              d1 = Number.of_Z a -> d2 = Number.of_Z b ->
              UserRanking.score r2 = Number.of_Z (s + a + b))).
Proof.
  split; [| split].
  - intros r Hr. do 2 eexists.
    split; [apply (adjustRanking_existing _ _ _ _ _ _ Hr) |].
    split; [cbn; apply lookup_insert_eq | reflexivity].
  - intros Hr. do 2 eexists.
    split; [apply (adjustRanking_absent _ _ _ _ _ Hr) |].
    split; [cbn; apply lookup_insert_eq | reflexivity].
  - destruct (adjustRanking_score w userId categoryId d1 by1)
      as (r1 & w1 & H1 & Hw1 & Hs1).
    assert (Hr1 : rankings w1 !! (userId, categoryId) = Some r1).
    { rewrite Hw1. cbn. apply lookup_insert_eq. }
    exists r1, w1. do 2 eexists.
    split; [exact H1 |].
    split; [apply (adjustRanking_existing _ _ _ _ _ _ Hr1) |].
    split; [cbn; apply lookup_insert_eq |]. cbn [UserRanking.score].
    split; [| split].
    + intros r Hr. rewrite Hs1, Hr. reflexivity.
    + intros Hr. rewrite Hs1, Hr. reflexivity.
    + intros s a b Hs Ha Hb Hsa Hsab Hscore -> ->.
      rewrite Hs1, (adjusted_of_Z w userId categoryId s a) by assumption.
      now apply add_of_Z.
Qed.

Lemma adjustRanking_sequential_witness :
  exists r1 w1,
    RankingService.adjustRanking "bob" "content" (Number.of_Z 3) None Sample.shop
      = (Ok r1, w1)
    /\ rankings w1 !! ("bob", "content") = Some r1
    /\ UserRanking.score r1 = Number.of_Z 3.
Proof.
  destruct (adjustRanking_sequential Sample.shop "bob" "content"
              (Number.of_Z 3) (Number.of_Z 5) None None)
    as (_ & Habsent & _).
  apply Habsent. reflexivity.
Defined.

(** C3 as stated fails: on a score of 2^53, two adjustments by 1 leave the
    score at 2^53, where the initial score plus d1 plus d2 is 2^53 + 2, a
    number a double holds. *)
Lemma adjustRanking_twice_at_2_53 :
  exists r1 w1 r2 w2,
    RankingService.adjustRanking "bob" "content" (Number.of_Z 1) None
      (Sample.ranked "content" (Number.of_Z (2 ^ 53))) = (Ok r1, w1)
    /\ RankingService.adjustRanking "bob" "content" (Number.of_Z 1) None w1 = (Ok r2, w2)
    /\ UserRanking.score r2 = Number.of_Z (2 ^ 53)
    /\ UserRanking.score r2 <> Number.of_Z (2 ^ 53 + 1 + 1)
    /\ Number.ltb (UserRanking.score r2) (Number.of_Z (2 ^ 53 + 1 + 1)) = true.
Proof.
  do 4 eexists. split; [vm_compute; reflexivity |].
  split; [vm_compute; reflexivity |].
  split; [reflexivity |]. split; [| reflexivity].
  vm_compute. discriminate.
Qed.

(** C9, as the code has it. [applyOrderCompletionRanking] returns; for a
    successful order it adds the double product of the order value and
    0.1 to the sales score of the seller and 5 to the reputation score,
    and for a failed one it adds the double product of minus the order
    value and 0.05 to the sales score and -10 to the reputation score;
    a seller without an entry starts at the adjustment itself.  On an
    integer reputation below 2^53 in absolute value the 5 and the -10
    are exact. *)
Theorem applyOrderCompletionRanking_scores (w : World) (sellerId buyerId : string)
    (orderValue : Number.t) :
  (exists w',
     RankingService.applyOrderCompletionRanking sellerId buyerId orderValue true w
       = (Ok tt, w')
     /\ scoreOf w' sellerId "sales"
        = adjusted (rankings w !! (sellerId, "sales"))
            (Number.mul orderValue (Number.decimal 1 10))
     /\ scoreOf w' sellerId "reputation"
        = adjusted (rankings w !! (sellerId, "reputation")) (Number.of_Z 5)
     /\ (forall n : Z,
           Number.safe n -> Number.safe (n + 5) ->
           scoreOf w sellerId "reputation" = Number.of_Z n ->
           scoreOf w' sellerId "reputation" = Number.of_Z (n + 5)))
  /\ (exists w',
        RankingService.applyOrderCompletionRanking sellerId buyerId orderValue false w
          = (Ok tt, w')
        /\ scoreOf w' sellerId "sales"
           = adjusted (rankings w !! (sellerId, "sales"))
               (Number.mul (Number.neg orderValue) (Number.decimal 5 100))
        /\ scoreOf w' sellerId "reputation"
           = adjusted (rankings w !! (sellerId, "reputation"))
               (Number.neg (Number.of_Z 10))
        /\ (forall n : Z,
              Number.safe n -> Number.safe (n - 10) ->
              scoreOf w sellerId "reputation" = Number.of_Z n ->
              scoreOf w' sellerId "reputation" = Number.of_Z (n - 10))).
Proof.
  assert (Hgen : forall ok : bool,
    exists w',
      RankingService.applyOrderCompletionRanking sellerId buyerId orderValue ok w
        = (Ok tt, w')
      /\ scoreOf w' sellerId "sales"
         = adjusted (rankings w !! (sellerId, "sales"))
             (if ok then Number.mul orderValue (Number.decimal 1 10)
              else Number.mul (Number.neg orderValue) (Number.decimal 5 100))
      /\ scoreOf w' sellerId "reputation"
         = adjusted (rankings w !! (sellerId, "reputation"))
             (if ok then Number.of_Z 5 else Number.neg (Number.of_Z 10))).
  { intros ok. unfold RankingService.applyOrderCompletionRanking.
    destruct (adjustRanking_score w sellerId "sales"
                (if ok then Number.mul orderValue (Number.decimal 1 10)
                 else Number.mul (Number.neg orderValue) (Number.decimal 5 100))
                (Some buyerId))
      as (r1 & w1 & H1 & Hw1 & Hs1).
    destruct (adjustRanking_score w1 sellerId "reputation"
                (if ok then Number.of_Z 5 else Number.neg (Number.of_Z 10))
                (Some buyerId))
      as (r2 & w2 & H2 & Hw2 & Hs2).
    exists w2. split; [| split].
    - rewrite (bind_ok _ _ _ _ _ H1), (bind_ok _ _ _ _ _ H2). reflexivity.
    - rewrite Hw2, scoreOf_other by (intros [= ?]; discriminate).
      rewrite Hw1, scoreOf_written. exact Hs1.
    - rewrite Hw2, scoreOf_written, Hs2.
      rewrite Hw1. cbn [rankings set_rankings].
      rewrite lookup_insert_ne by (intros [= ?]; discriminate). reflexivity. }
  split.
  - destruct (Hgen true) as (w' & H & Hs & Hr). exists w'.
    split; [exact H |]. split; [exact Hs |]. split; [exact Hr |].
    intros n Hn Hn5 Hscore. rewrite Hr.
    apply adjusted_of_Z; [assumption | unfold Number.safe; lia | assumption | assumption].
  - destruct (Hgen false) as (w' & H & Hs & Hr). exists w'.
    split; [exact H |]. split; [exact Hs |]. split; [exact Hr |].
    intros n Hn Hn10 Hscore. rewrite Hr.
    change (Number.neg (Number.of_Z 10)) with (Number.of_Z (- 10)).
    apply (adjusted_of_Z w sellerId "reputation" n (- 10));
      [assumption | unfold Number.safe; lia | assumption | assumption].
Qed.

(** C9 as stated fails: for a seller without a sales entry and an order of
    value 3, the sales score after a successful order is 3 * 0.1 in
    doubles, 0.30000000000000004, which is above 0.3. *)
Lemma applyOrderCompletionRanking_three_tenths :
  exists w',
    RankingService.applyOrderCompletionRanking "sam" "bob" (Number.of_Z 3) true Sample.shop
      = (Ok tt, w')
    /\ scoreOf Sample.shop "sam" "sales" = Number.of_Z 0
    /\ scoreOf w' "sam" "sales" = Number.mul (Number.of_Z 3) (Number.decimal 1 10)
    /\ scoreOf w' "sam" "sales" <> Number.decimal 3 10
    /\ Number.ltb (Number.decimal 3 10) (scoreOf w' "sam" "sales") = true.
Proof.
  eexists. split; [vm_compute; reflexivity |].
  split; [reflexivity |]. split; [reflexivity |].
  split; [vm_compute; discriminate | reflexivity].
Qed.

(** ** Engagement recorder *)

Lemma updateOwnerRanking_none (rk : Adjuster) (userId : string)
    (k : RankingService.engagementType) (v : Number.t) (w : World) :
  EngagementService.updateOwnerRanking rk None userId k v w = (Ok tt, w).
Proof. reflexivity. Qed.

Lemma updateOwnerRanking_self (rk : Adjuster) (userId : string)
    (k : RankingService.engagementType) (v : Number.t) (w : World) :
  EngagementService.updateOwnerRanking rk (Some userId) userId k v w = (Ok tt, w).
Proof.
  unfold EngagementService.updateOwnerRanking.
  rewrite eqb_same, andb_false_r. reflexivity.
Qed.

(** For an owner other than the actor, the block calls the ranking method
    once and swallows what it throws. *)
Lemma updateOwnerRanking_other (rk : Adjuster) (owner userId : string)
    (k : RankingService.engagementType) (v : Number.t) (w : World) :
  owner <> "" -> owner <> userId ->
  EngagementService.updateOwnerRanking rk (Some owner) userId k v w
    = (Ok tt, snd (rk owner k v w)).
Proof.
  intros Hne Hother. unfold EngagementService.updateOwnerRanking, truthy.
  rewrite (eqb_differ _ _ Hne), (eqb_differ _ _ Hother). cbn.
  unfold try_catch. destruct (rk owner k v w) as [[[]|e] w']; reflexivity.
Qed.

Lemma tail_skipped {A} (rk : Adjuster) (owner : option string) (userId : string)
    (k : RankingService.engagementType) (v : Number.t) (a : A) (w : World) :
  owner = None \/ owner = Some userId ->
  (EngagementService.updateOwnerRanking rk owner userId k v ;;; ret a) w = (Ok a, w).
Proof.
  intros [-> | ->].
  - now rewrite (bind_ok _ _ _ _ _ (updateOwnerRanking_none rk userId k v w)).
  - now rewrite (bind_ok _ _ _ _ _ (updateOwnerRanking_self rk userId k v w)).
Qed.

Lemma tail_called {A} (rk : Adjuster) (owner userId : string)
    (k : RankingService.engagementType) (v : Number.t) (a : A) (w : World) :
  owner <> "" -> owner <> userId ->
  (EngagementService.updateOwnerRanking rk (Some owner) userId k v ;;; ret a) w
    = (Ok a, snd (rk owner k v w)).
Proof.
  intros Hne Hother.
  now rewrite (bind_ok _ _ _ _ _ (updateOwnerRanking_other rk owner userId k v w Hne Hother)).
Qed.

Lemma findUserEngagement_returns (userId contentId : string) (type : EngagementType)
    (w : World) :
  EngagementRepository.findUserEngagement userId contentId type w
    = (Ok (snd <$> find (fun kv => EngagementRepository.matches userId contentId type (snd kv))
                       (map_to_list (engagements w))), w).
Proof. reflexivity. Qed.

Lemma create_engagement (data : EngagementRepository.CreateEngagementInput) (w : World) :
  EngagementRepository.create data w
    = (Ok (Engagement.mk (EngagementRepository.new_id w)
             (EngagementRepository.userId data) (EngagementRepository.contentId data)
             (EngagementRepository.contentType data) (EngagementRepository.type data)
             (EngagementRepository.comment data) (EngagementRepository.parentId data)),
       set_engagements
         (<[EngagementRepository.new_id w :=
              Engagement.mk (EngagementRepository.new_id w)
                (EngagementRepository.userId data) (EngagementRepository.contentId data)
                (EngagementRepository.contentType data) (EngagementRepository.type data)
                (EngagementRepository.comment data) (EngagementRepository.parentId data)]>
            (engagements w)) w).
Proof. reflexivity. Qed.

Lemma findById_engagement (id : string) (w : World) :
  EngagementRepository.findById id w = (Ok (engagements w !! id), w).
Proof. reflexivity. Qed.

Lemma delete_engagement (id : string) (e : Engagement.t) (w : World) :
  engagements w !! id = Some e ->
  EngagementRepository.delete id w
    = (Ok e, set_engagements (delete id (engagements w)) w).
Proof. intros H. unfold EngagementRepository.delete. now rewrite H. Qed.

Lemma delete_engagement_missing (id : string) (w : World) :
  engagements w !! id = None ->
  EngagementRepository.delete id w = (Throw RecordNotFound, w).
Proof. intros H. unfold EngagementRepository.delete. now rewrite H. Qed.

(** Closes a goal [survives_adjuster] once both operations are reduced to
    their last block. *)
Ltac finish_survives Hne Hother :=
  rewrite (tail_skipped _ None) by (left; reflexivity);
  rewrite (tail_called _ _ _ _ _ _ _ Hne Hother);
  intros [= <- <-]; split; [reflexivity |];
  let H := fresh "Hthrow" in
  intros ? ? H; f_equal; exact (f_equal snd H).

(** C7. Whenever the record mutation of an engagement operation succeeds,
    the operation returns the result of that mutation whatever the ranking
    method does; when the ranking method throws, the error is caught and
    the operation returns the same successful result. *)
Theorem ranking_failure_is_swallowed (rk : Adjuster) (w : World)
    (userId owner contentId contentType text commentId : string)
    (parentId : option string) (isAdmin : bool) :
  owner <> "" -> owner <> userId ->
  survives_adjuster
    (EngagementService.createLike rk userId contentId contentType None)
    (EngagementService.createLike rk userId contentId contentType (Some owner))
    (rk owner RankingService.like (Number.of_Z 1)) w
  /\ survives_adjuster
       (EngagementService.removeLike rk userId contentId None)
       (EngagementService.removeLike rk userId contentId (Some owner))
       (rk owner RankingService.like (Number.neg (Number.of_Z 1))) w
  /\ survives_adjuster
       (EngagementService.createComment rk userId contentId contentType text parentId None)
       (EngagementService.createComment rk userId contentId contentType text parentId
          (Some owner))
       (rk owner RankingService.comment (Number.of_Z 1)) w
  /\ survives_adjuster
       (EngagementService.deleteComment rk commentId userId isAdmin None)
       (EngagementService.deleteComment rk commentId userId isAdmin (Some owner))
       (rk owner RankingService.comment (Number.neg (Number.of_Z 1))) w
  /\ survives_adjuster
       (EngagementService.createShare rk userId contentId contentType None)
       (EngagementService.createShare rk userId contentId contentType (Some owner))
       (rk owner RankingService.share (Number.of_Z 1)) w.
Proof.
  intros Hne Hother. split; [| split; [| split; [| split]]].
  - (* createLike *)
    intros a w1. unfold EngagementService.createLike.
    rewrite !(bind_ok _ _ _ _ _ (findUserEngagement_returns userId contentId Like w)).
    destruct (snd <$> find _ _) as [existing|]; [discriminate |].
    rewrite !(bind_ok _ _ _ _ _ (create_engagement _ w)).
    finish_survives Hne Hother.
  - (* removeLike *)
    intros a w1. unfold EngagementService.removeLike.
    rewrite !(bind_ok _ _ _ _ _ (findUserEngagement_returns userId contentId Like w)).
    destruct (snd <$> find _ _) as [existing|]; [| discriminate].
    destruct (engagements w !! Engagement.id existing) as [e0|] eqn:He.
    + rewrite !(bind_ok _ _ _ _ _ (delete_engagement _ _ w He)).
      rewrite updateOwnerRanking_none.
      rewrite (updateOwnerRanking_other rk owner userId _ _ _ Hne Hother).
      intros [= <- <-]. split; [reflexivity |].
      intros ? ? Hthrow. f_equal. exact (f_equal snd Hthrow).
    + rewrite !(bind_throw _ _ _ _ _ (delete_engagement_missing _ w He)).
      discriminate.
  - (* createComment *)
    intros a w1. unfold EngagementService.createComment.
    destruct (negb (truthy text) || EngagementService.blank text).
    + rewrite !(bind_throw _ _ _ _ _ (throw_if_true _ w)). discriminate.
    + rewrite !(bind_ok _ _ _ _ _ (throw_if_false _ w)).
      rewrite !(bind_ok _ _ _ _ _ (create_engagement _ w)).
      finish_survives Hne Hother.
  - (* deleteComment *)
    intros a w1. unfold EngagementService.deleteComment.
    rewrite !(bind_ok _ _ _ _ _ (findById_engagement commentId w)).
    destruct (engagements w !! commentId) as [c|] eqn:Hc; [| discriminate].
    destruct (negb isAdmin && negb (String.eqb (Engagement.userId c) userId)).
    + rewrite !(bind_throw _ _ _ _ _ (throw_if_true _ w)). discriminate.
    + rewrite !(bind_ok _ _ _ _ _ (throw_if_false _ w)).
      rewrite !(bind_ok _ _ _ _ _ (delete_engagement _ _ w Hc)).
      finish_survives Hne Hother.
  - (* createShare *)
    intros a w1. unfold EngagementService.createShare.
    rewrite !(bind_ok _ _ _ _ _ (create_engagement _ w)).
    finish_survives Hne Hother.
Qed.

Lemma ranking_failure_is_swallowed_witness :
  fst (EngagementService.createLike Sample.unavailable "alice" "post1" "Post"
         (Some "bob") Sample.shop)
    = Ok (Engagement.mk "engagement" "alice" "post1" "Post" Like None None).
Proof.
  destruct (ranking_failure_is_swallowed Sample.unavailable Sample.shop
              "alice" "bob" "post1" "Post" "hello" "c1" None false) as [H _].
  - discriminate.
  - discriminate.
  - apply (H (Engagement.mk "engagement" "alice" "post1" "Post" Like None None)
             (snd (EngagementService.createLike Sample.unavailable
                     "alice" "post1" "Post" None Sample.shop))).
    reflexivity.
Defined.

Lemma updateOwnerRanking_skipped (rk : Adjuster) (owner : option string)
    (userId : string) (k : RankingService.engagementType) (v : Number.t) (w : World) :
  owner = None \/ owner = Some userId ->
  EngagementService.updateOwnerRanking rk owner userId k v w = (Ok tt, w).
Proof.
  intros [-> | ->]; [apply updateOwnerRanking_none | apply updateOwnerRanking_self].
Qed.

(** C10. When the content owner is not given, or is the acting user, no
    engagement operation consults the ranking method, and every score
    entry is as before: engaging with one's own content changes no score.
    For [deleteComment] the owner is compared with the user who deletes:
    with the deleting user as owner nothing is adjusted whoever wrote the
    comment, and an admin who deletes the comment of another user, with
    that author as owner, does trigger the adjustment. *)
Theorem self_engagement_leaves_scores (w : World)
    (userId contentId contentType text commentId : string)
    (parentId : option string) (isAdmin : bool) (owner : option string) :
  owner = None \/ owner = Some userId ->
  no_adjustment
    (fun rk => EngagementService.createLike rk userId contentId contentType owner) w
  /\ no_adjustment
       (fun rk => EngagementService.removeLike rk userId contentId owner) w
  /\ no_adjustment
       (fun rk => EngagementService.createComment rk userId contentId contentType
                    text parentId owner) w
  /\ no_adjustment
       (fun rk => EngagementService.deleteComment rk commentId userId isAdmin owner) w
  /\ no_adjustment
       (fun rk => EngagementService.createShare rk userId contentId contentType owner) w
  /\ (forall (rk : Adjuster) (c : Engagement.t),
        engagements w !! commentId = Some c ->
        Engagement.userId c <> "" ->
        Engagement.userId c <> userId ->
        EngagementService.deleteComment rk commentId userId true
          (Some (Engagement.userId c)) w
        = (Ok c,
           snd (rk (Engagement.userId c) RankingService.comment (Number.neg (Number.of_Z 1))
                  (set_engagements (delete commentId (engagements w)) w)))).
Proof.
  intros Hself.
  assert (Hlike : forall rk : Adjuster,
    EngagementService.createLike rk userId contentId contentType owner w
    = EngagementService.createLike (fun _ _ _ => ret tt) userId contentId contentType None w
    /\ rankings (snd (EngagementService.createLike rk userId contentId contentType owner w))
       = rankings w).
  { intros rk. unfold EngagementService.createLike.
    rewrite !(bind_ok _ _ _ _ _ (findUserEngagement_returns userId contentId Like w)).
    destruct (snd <$> find _ _) as [existing|]; [split; reflexivity |].
    rewrite !(bind_ok _ _ _ _ _ (create_engagement _ w)).
    rewrite (tail_skipped rk owner) by exact Hself.
    rewrite (tail_skipped _ None) by (left; reflexivity).
    split; reflexivity. }
  assert (Hunlike : forall rk : Adjuster,
    EngagementService.removeLike rk userId contentId owner w
    = EngagementService.removeLike (fun _ _ _ => ret tt) userId contentId None w
    /\ rankings (snd (EngagementService.removeLike rk userId contentId owner w))
       = rankings w).
  { intros rk. unfold EngagementService.removeLike.
    rewrite !(bind_ok _ _ _ _ _ (findUserEngagement_returns userId contentId Like w)).
    destruct (snd <$> find _ _) as [existing|]; [| split; reflexivity].
    destruct (engagements w !! Engagement.id existing) as [e0|] eqn:He.
    - rewrite !(bind_ok _ _ _ _ _ (delete_engagement _ _ w He)).
      rewrite (updateOwnerRanking_skipped rk owner) by exact Hself.
      split; reflexivity.
    - rewrite !(bind_throw _ _ _ _ _ (delete_engagement_missing _ w He)).
      split; reflexivity. }
  assert (Hcomment : forall rk : Adjuster,
    EngagementService.createComment rk userId contentId contentType text parentId owner w
    = EngagementService.createComment (fun _ _ _ => ret tt) userId contentId contentType
        text parentId None w
    /\ rankings (snd (EngagementService.createComment rk userId contentId contentType
                        text parentId owner w))
       = rankings w).
  { intros rk. unfold EngagementService.createComment.
    destruct (negb (truthy text) || EngagementService.blank text).
    - rewrite !(bind_throw _ _ _ _ _ (throw_if_true _ w)). split; reflexivity.
    - rewrite !(bind_ok _ _ _ _ _ (throw_if_false _ w)).
      rewrite !(bind_ok _ _ _ _ _ (create_engagement _ w)).
      rewrite (tail_skipped rk owner) by exact Hself.
      rewrite (tail_skipped _ None) by (left; reflexivity).
      split; reflexivity. }
  assert (Hdelete : forall rk : Adjuster,
    EngagementService.deleteComment rk commentId userId isAdmin owner w
    = EngagementService.deleteComment (fun _ _ _ => ret tt) commentId userId isAdmin None w
    /\ rankings (snd (EngagementService.deleteComment rk commentId userId isAdmin owner w))
       = rankings w).
  { intros rk. unfold EngagementService.deleteComment.
    rewrite !(bind_ok _ _ _ _ _ (findById_engagement commentId w)).
    destruct (engagements w !! commentId) as [c|] eqn:Hc; [| split; reflexivity].
    destruct (negb isAdmin && negb (String.eqb (Engagement.userId c) userId)).
    - rewrite !(bind_throw _ _ _ _ _ (throw_if_true _ w)). split; reflexivity.
    - rewrite !(bind_ok _ _ _ _ _ (throw_if_false _ w)).
      rewrite !(bind_ok _ _ _ _ _ (delete_engagement _ _ w Hc)).
      rewrite (tail_skipped rk owner) by exact Hself.
      rewrite (tail_skipped _ None) by (left; reflexivity).
      split; reflexivity. }
  assert (Hshare : forall rk : Adjuster,
    EngagementService.createShare rk userId contentId contentType owner w
    = EngagementService.createShare (fun _ _ _ => ret tt) userId contentId contentType None w
    /\ rankings (snd (EngagementService.createShare rk userId contentId contentType owner w))
       = rankings w).
  { intros rk. unfold EngagementService.createShare.
    rewrite !(bind_ok _ _ _ _ _ (create_engagement _ w)).
    rewrite (tail_skipped rk owner) by exact Hself.
    rewrite (tail_skipped _ None) by (left; reflexivity).
    split; reflexivity. }
  unfold no_adjustment.
  split; [| split; [| split; [| split; [| split]]]].
  - split; [intros rk rk' | intros rk].
    + now rewrite (proj1 (Hlike rk)), (proj1 (Hlike rk')).
    + apply Hlike.
  - split; [intros rk rk' | intros rk].
    + now rewrite (proj1 (Hunlike rk)), (proj1 (Hunlike rk')).
    + apply Hunlike.
  - split; [intros rk rk' | intros rk].
    + now rewrite (proj1 (Hcomment rk)), (proj1 (Hcomment rk')).
    + apply Hcomment.
  - split; [intros rk rk' | intros rk].
    + now rewrite (proj1 (Hdelete rk)), (proj1 (Hdelete rk')).
    + apply Hdelete.
  - split; [intros rk rk' | intros rk].
    + now rewrite (proj1 (Hshare rk)), (proj1 (Hshare rk')).
    + apply Hshare.
  - intros rk c Hc Hne Hother. unfold EngagementService.deleteComment.
    rewrite (bind_ok _ _ _ _ _ (findById_engagement commentId w)), Hc.
    cbn [negb andb]. rewrite (bind_ok _ _ _ _ _ (throw_if_false _ w)).
    rewrite (bind_ok _ _ _ _ _ (delete_engagement _ _ w Hc)).
    apply tail_called; assumption.
Qed.

Lemma self_engagement_leaves_scores_witness :
  no_adjustment
    (fun rk => EngagementService.createLike rk "bob" "post1" "Post" (Some "bob"))
    Sample.shop.
Proof.
  destruct (self_engagement_leaves_scores Sample.shop "bob" "post1" "Post" "hello"
              "c1" None false (Some "bob")) as [H _].
  - right. reflexivity.
  - exact H.
Defined.

(** [findFirst] after an insert at a fresh key: when no row of the table
    satisfied the clause and the new row does, the new row is found. *)
Lemma find_after_insert (m : gmap string Engagement.t) (i : string)
    (x : Engagement.t) (f : string * Engagement.t -> bool) :
  find f (map_to_list m) = None ->
  f (i, x) = true ->
  find f (map_to_list (<[i := x]> m)) = Some (i, x).
Proof.
  intros Hnone Hf.
  destruct (find f (map_to_list (<[i := x]> m))) as [[k v]|] eqn:E.
  - apply find_some in E as [Hin Hkv].
    apply list_elem_of_In, elem_of_map_to_list, lookup_insert_Some in Hin.
    destruct Hin as [[-> ->] | [_ Hold]]; [reflexivity |].
    apply elem_of_map_to_list, list_elem_of_In in Hold.
    rewrite (find_none _ _ Hnone _ Hold) in Hkv. discriminate.
  - assert (Hin : In (i, x) (map_to_list (<[i := x]> m))).
    { apply list_elem_of_In, elem_of_map_to_list, lookup_insert_eq. }
    rewrite (find_none _ _ E _ Hin) in Hf. discriminate.
Qed.

Lemma scoreOf_rankings (w w' : World) (userId categoryId : string) :
  rankings w' = rankings w -> scoreOf w' userId categoryId = scoreOf w userId categoryId.
Proof. intros H. unfold scoreOf. now rewrite H. Qed.

(** The products of the weights with the values the engagement service
    passes are exact. *)
Lemma weight_times_one (k : RankingService.engagementType) :
  Number.mul (Number.of_Z (weight k)) (Number.of_Z 1) = Number.of_Z (weight k).
Proof. destruct k; reflexivity. Qed.

Lemma weight_times_minus_one (k : RankingService.engagementType) :
  Number.mul (Number.of_Z (weight k)) (Number.neg (Number.of_Z 1))
  = Number.of_Z (- weight k).
Proof. destruct k; reflexivity. Qed.

Lemma applyPostEngagementRanking_score (w : World) (userId : string)
    (k : RankingService.engagementType) (v : Number.t) :
  exists r w',
    RankingService.applyPostEngagementRanking userId k v w = (Ok tt, w')
    /\ w' = set_rankings (<[(userId, "content") := r]> (rankings w)) w
    /\ UserRanking.score r
       = adjusted (rankings w !! (userId, "content"))
           (Number.mul (Number.of_Z (weight k)) v).
Proof.
  unfold RankingService.applyPostEngagementRanking.
  destruct (adjustRanking_score w userId "content"
              (match k with
               | RankingService.like => Number.mul (Number.of_Z 1) v
               | RankingService.comment => Number.mul (Number.of_Z 3) v
               | RankingService.share => Number.mul (Number.of_Z 5) v
               end) None) as (r & w' & H & Hw & Hs).
  exists r, w'. split; [| split; [exact Hw |]].
  - now rewrite (bind_ok _ _ _ _ _ H).
  - rewrite Hs. destruct k; reflexivity.
Qed.

Lemma updateOwnerRanking_empty (rk : Adjuster) (userId : string)
    (k : RankingService.engagementType) (v : Number.t) (w : World) :
  EngagementService.updateOwnerRanking rk (Some "") userId k v w = (Ok tt, w).
Proof. reflexivity. Qed.

(** C8, as the code has it. User A, who has not liked the content yet,
    likes content owned by another user B and then removes the like,
    nothing else being written in between: both calls return and the like
    is gone from the engagement table.  The content score of B is
    s + 1 after the like and (s + 1) + (-1) after the removal, each sum
    rounded, where s is the original score, and 1 and then 0 when B had
    no entry.  For an original score that is an integer below 2^53 - 1 in
    absolute value, an absent entry counting 0, the score is back at its
    original value. *)
Theorem like_then_unlike_restores_score (w : World)
    (A B contentId contentType : string) :
  A <> B ->
  fst (EngagementRepository.findUserEngagement A contentId Like w) = Ok None ->
  exists like w1 w2,
    Booth.createLike A contentId contentType (Some B) w = (Ok like, w1)
    /\ Booth.removeLike A contentId (Some B) w1 = (Ok tt, w2)
    /\ (B <> "" ->
        scoreOf w1 B "content"
        = adjusted (rankings w !! (B, "content")) (Number.of_Z 1)
        /\ scoreOf w2 B "content"
           = Number.add (scoreOf w1 B "content") (Number.of_Z (- 1)))
    /\ (forall n : Z,
          Number.safe n -> Number.safe (n + 1) ->
          scoreOf w B "content" = Number.of_Z n ->
          scoreOf w2 B "content" = Number.of_Z n)
    /\ engagements w2 = engagements w.
Proof.
  intros HAB Hnot.
  assert (HBA : B <> A) by congruence.
  rewrite findUserEngagement_returns in Hnot. cbn [fst] in Hnot.
  injection Hnot as Hnot.
  destruct (find _ (map_to_list (engagements w))) as [kv|] eqn:Hfind;
    [discriminate |]. clear Hnot.
  set (id := EngagementRepository.new_id w).
  set (like := Engagement.mk id A contentId contentType Like None None).
  assert (Hfresh : engagements w !! id = None) by apply fresh_string_fresh.
  assert (Hmatch : EngagementRepository.matches A contentId Like like = true).
  { unfold EngagementRepository.matches, like. cbn.
    rewrite !eqb_same. reflexivity. }
  assert (Hgone : delete id (<[id := like]> (engagements w)) = engagements w).
  { rewrite delete_insert_eq. now apply delete_id. }
  (* the database after the like, for a ranking step [tail] *)
  assert (Hcreate : forall tail : M unit,
    (let* existingLike := EngagementRepository.findUserEngagement A contentId Like in
     match existingLike with
     | Some _ => throw (Err "User has already liked this content")
     | None =>
         let* l := EngagementRepository.create
                     (EngagementRepository.mkCreate A contentId contentType Like None None) in
         tail ;;; ret l
     end) w
    = (tail ;;; ret like) (set_engagements (<[id := like]> (engagements w)) w)).
  { intros tail.
    rewrite (bind_ok _ _ _ _ _ (findUserEngagement_returns A contentId Like w)).
    rewrite Hfind. cbn [fmap option_fmap option_map].
    now rewrite (bind_ok _ _ _ _ _ (create_engagement _ w)). }
  (* the removal, in a database [w1] that holds the like *)
  assert (Hremove : forall (w1 : World) (tail : M unit),
    engagements w1 = <[id := like]> (engagements w) ->
    (let* existingLike := EngagementRepository.findUserEngagement A contentId Like in
     match existingLike with
     | None => throw (Err "Like not found")
     | Some existingLike =>
         EngagementRepository.delete (Engagement.id existingLike) ;;; tail
     end) w1
    = tail (set_engagements (engagements w) w1)).
  { intros w1 tail Hw1.
    rewrite (bind_ok _ _ _ _ _ (findUserEngagement_returns A contentId Like w1)).
    rewrite Hw1.
    rewrite (find_after_insert (engagements w) id like _ Hfind Hmatch).
    cbn [fmap option_fmap option_map snd Engagement.id like].
    assert (Hthere : engagements w1 !! id = Some like)
      by (rewrite Hw1; apply lookup_insert_eq).
    rewrite (bind_ok _ _ _ _ _ (delete_engagement _ _ w1 Hthere)).
    now rewrite Hw1, Hgone. }
  unfold Booth.createLike, Booth.removeLike,
    EngagementService.createLike, EngagementService.removeLike.
  rewrite Hcreate.
  destruct (string_dec B "") as [-> | HB].
  - (* an empty owner id is falsy: no adjustment either way *)
    rewrite (bind_ok _ _ _ _ _ (updateOwnerRanking_empty _ A _ _ _)).
    do 3 eexists. split; [reflexivity |].
    rewrite Hremove by reflexivity.
    split; [apply updateOwnerRanking_empty |].
    split; [congruence |]. split; [| reflexivity].
    intros n _ _ Hn. exact Hn.
  - rewrite (tail_called _ B A _ _ _ _ HB HBA).
    destruct (applyPostEngagementRanking_score
                (set_engagements (<[id := like]> (engagements w)) w)
                B RankingService.like (Number.of_Z 1)) as (r1 & w1 & H1 & Hw1 & Hs1).
    rewrite H1. cbn [snd].
    assert (He1 : engagements w1 = <[id := like]> (engagements w))
      by (rewrite Hw1; reflexivity).
    pose proof (Hremove w1
                  (EngagementService.updateOwnerRanking
                     RankingService.applyPostEngagementRanking (Some B) A
                     RankingService.like (Number.neg (Number.of_Z 1))) He1) as Hrm.
    rewrite (updateOwnerRanking_other _ B A _ _ _ HB HBA) in Hrm.
    destruct (applyPostEngagementRanking_score
                (set_engagements (engagements w) w1)
                B RankingService.like (Number.neg (Number.of_Z 1)))
      as (r2 & w2 & H2 & Hw2 & Hs2).
    rewrite H2 in Hrm. cbn [snd] in Hrm.
    rewrite weight_times_one in Hs1. rewrite weight_times_minus_one in Hs2.
    cbn [weight rankings set_engagements] in Hs1, Hs2.
    assert (Hscore1 : scoreOf w1 B "content"
                      = adjusted (rankings w !! (B, "content")) (Number.of_Z 1)).
    { rewrite Hw1, scoreOf_written. exact Hs1. }
    assert (Hscore2 : scoreOf w2 B "content"
                      = Number.add (scoreOf w1 B "content") (Number.of_Z (- 1))).
    { rewrite Hw2, scoreOf_written, Hs2.
      unfold scoreOf.
      destruct (rankings w1 !! (B, "content")) as [r|] eqn:Hr; [reflexivity |].
      rewrite Hw1 in Hr. cbn [rankings set_rankings] in Hr.
      rewrite lookup_insert_eq in Hr. discriminate. }
    exists like, w1, w2. split; [reflexivity |]. split; [exact Hrm |].
    split; [intros _; split; assumption |]. split.
    + intros n Hn Hn1 Hscore. rewrite Hscore2, Hscore1.
      rewrite (adjusted_of_Z w B "content" n 1)
        by (try assumption; unfold Number.safe; lia).
      rewrite add_of_Z by (unfold Number.safe in *; lia).
      f_equal. lia.
    + rewrite Hw2. reflexivity.
Qed.

Lemma like_then_unlike_restores_score_witness :
  exists like w1 w2,
    Booth.createLike "alice" "post1" "Post" (Some "bob") Sample.shop = (Ok like, w1)
    /\ Booth.removeLike "alice" "post1" (Some "bob") w1 = (Ok tt, w2)
    /\ ("bob" <> "" ->
        scoreOf w1 "bob" "content"
        = adjusted (rankings Sample.shop !! ("bob", "content")) (Number.of_Z 1)
        /\ scoreOf w2 "bob" "content"
           = Number.add (scoreOf w1 "bob" "content") (Number.of_Z (- 1)))
    /\ (forall n : Z,
          Number.safe n -> Number.safe (n + 1) ->
          scoreOf Sample.shop "bob" "content" = Number.of_Z n ->
          scoreOf w2 "bob" "content" = Number.of_Z n)
    /\ engagements w2 = engagements Sample.shop.
Proof.
  apply (like_then_unlike_restores_score Sample.shop "alice" "bob" "post1" "Post").
  - discriminate.
  - reflexivity.
Defined.

(** C8 as stated fails: from a content score of 0.1, a like and its
    removal leave 0.10000000000000009, which is above 0.1. *)
Lemma like_then_unlike_from_a_tenth :
  exists like w1 w2,
    Booth.createLike "alice" "post1" "Post" (Some "bob")
      (Sample.ranked "content" (Number.decimal 1 10)) = (Ok like, w1)
    /\ Booth.removeLike "alice" "post1" (Some "bob") w1 = (Ok tt, w2)
    /\ scoreOf (Sample.ranked "content" (Number.decimal 1 10)) "bob" "content"
       = Number.decimal 1 10
    /\ scoreOf w2 "bob" "content" <> Number.decimal 1 10
    /\ Number.ltb (Number.decimal 1 10) (scoreOf w2 "bob" "content") = true.
Proof.
  do 3 eexists. split; [vm_compute; reflexivity |].
  split; [vm_compute; reflexivity |]. split; [reflexivity |].
  split; [vm_compute; discriminate | reflexivity].
Qed.

(** * Further properties *)

(** ** Status updates *)

Lemma status_in_In (l : list OrderStatus) (s : OrderStatus) :
  status_in l s = true <-> In s l.
Proof.
  unfold status_in. rewrite existsb_exists. split.
  - intros (x & Hx & Heq). unfold OrderStatus_eqb in Heq.
    apply bool_decide_eq_true in Heq. now subst.
  - intros H. exists s. split; [exact H |].
    unfold OrderStatus_eqb. now apply bool_decide_eq_true.
Qed.

(** The four ways a status update of an order of the table ends. *)
Lemma updateOrderStatus_cases (w : World) (orderId : string) (o : Order.t)
    (p : MarketplaceProduct.t) (status : OrderStatus) (userId : string)
    (isAdmin : bool) :
  orders w !! orderId = Some o ->
  products w !! Order.productId o = Some p ->
  let auth := isAdmin || String.eqb (MarketplaceProduct.sellerId p) userId
              || String.eqb (Order.buyerId o) userId in
  let run := OrderService.updateOrderStatus orderId status userId isAdmin w in
  (auth = false
   /\ run = (Throw (Err "You are not authorized to update this order"), w))
  \/ (auth = true /\ raw_transition (Order.status o) status = false
      /\ exists e, run = (Throw e, w) /\ OrderController.updateOrderStatus_code e = 400)
  \/ (auth = true /\ raw_transition (Order.status o) status = true
      /\ role_refused userId (o, p) status = true
      /\ exists e, run = (Throw e, w) /\ OrderController.updateOrderStatus_code e = 403)
  \/ (auth = true /\ raw_transition (Order.status o) status = true
      /\ role_refused userId (o, p) status = false
      /\ run = (Ok (OrderRepository.apply_update (OrderRepository.only_status status) o),
                set_orders (<[orderId := OrderRepository.apply_update
                                           (OrderRepository.only_status status) o]>
                              (orders w)) w)).
Proof.
  intros Ho Hp auth run. subst run.
  unfold OrderService.updateOrderStatus.
  rewrite (bind_ok _ _ _ _ _ (findById_order w orderId o p Ho Hp)). cbn [fst snd].
  replace (negb isAdmin
           && negb (String.eqb (MarketplaceProduct.sellerId p) userId)
           && negb (String.eqb (Order.buyerId o) userId)) with (negb auth)
    by (subst auth; now rewrite !negb_orb).
  destruct auth.
  2:{ left. split; [reflexivity |]. now rewrite (bind_throw _ _ _ _ _ (throw_if_true _ w)). }
  right. cbn [negb]. rewrite (bind_ok _ _ _ _ _ (throw_if_false _ w)).
  destruct (raw_transition (Order.status o) status) eqn:Hraw.
  - right. unfold bind. rewrite (validate_inside_table _ _ userId (o, p) w Hraw).
    destruct (role_refused userId (o, p) status) eqn:Hrole.
    + left. repeat split. eexists. split; [reflexivity |].
      cbn [fst snd].
      destruct (String.eqb userId (MarketplaceProduct.sellerId p)
                && negb (status_in [processing; shipped; completed] status));
        reflexivity.
    + right. repeat split. now rewrite (update_order w orderId _ o Ho).
  - left. repeat split.
    destruct (validate_outside_table _ _ userId (o, p) w Hraw) as (e & He & Hc).
    exists e. split; [| exact Hc]. now rewrite (bind_throw _ _ _ _ _ He).
Qed.

(** X1. A status update of an existing order succeeds exactly when the
    caller is an admin, the seller or the buyer, the new status is in the
    transition table of the current one, a seller asks for processing,
    shipped or completed and a buyer asks for canceled; the admin flag
    lifts neither the table nor the role checks.  When it succeeds, the
    order is written back with the new status and nothing else changes. *)
Theorem updateOrderStatus_succeeds_iff (w : World) (orderId : string) (o : Order.t)
    (p : MarketplaceProduct.t) (status : OrderStatus) (userId : string)
    (isAdmin : bool) :
  orders w !! orderId = Some o ->
  products w !! Order.productId o = Some p ->
  ((exists r w', OrderService.updateOrderStatus orderId status userId isAdmin w = (Ok r, w'))
   <-> (isAdmin = true \/ userId = MarketplaceProduct.sellerId p
        \/ userId = Order.buyerId o)
       /\ In status (transition_table (Order.status o))
       /\ (userId = MarketplaceProduct.sellerId p ->
           In status [processing; shipped; completed])
       /\ (userId = Order.buyerId o -> status = canceled))
  /\ (forall r w',
        OrderService.updateOrderStatus orderId status userId isAdmin w = (Ok r, w') ->
        r = Order.mk (Order.id o) (Order.buyerId o) (Order.productId o)
              (Order.quantity o) (Order.totalPrice o) status (Order.shippingAddress o)
        /\ w' = set_orders (<[orderId := r]> (orders w)) w).
Proof.
  intros Ho Hp.
  pose proof (updateOrderStatus_cases w orderId o p status userId isAdmin Ho Hp) as Hc.
  cbv zeta in Hc.
  assert (Hauth : isAdmin || String.eqb (MarketplaceProduct.sellerId p) userId
                  || String.eqb (Order.buyerId o) userId = true
                  <-> isAdmin = true \/ userId = MarketplaceProduct.sellerId p
                      \/ userId = Order.buyerId o).
  { rewrite !orb_true_iff, !String.eqb_eq. intuition congruence. }
  assert (Hrole : role_refused userId (o, p) status = false
                  <-> (userId = MarketplaceProduct.sellerId p ->
                       In status [processing; shipped; completed])
                      /\ (userId = Order.buyerId o -> status = canceled)).
  { unfold role_refused. cbn [fst snd].
    rewrite orb_false_iff, !andb_false_iff, !negb_false_iff.
    rewrite status_in_In. unfold OrderStatus_eqb.
    rewrite bool_decide_eq_true, !String.eqb_neq. split.
    - intros [[H1 | H1] [H2 | H2]]; split; intros; (congruence || assumption).
    - intros [H1 H2]. split.
      + destruct (string_dec userId (MarketplaceProduct.sellerId p)); auto.
      + destruct (string_dec userId (Order.buyerId o)); auto. }
  unfold raw_transition in Hc. split.
  - split.
    + intros (r & w' & Hrun).
      destruct Hc as [[_ H] | [(_ & _ & e & H & _) | [(_ & _ & _ & e & H & _) | (Ha & Ht & Hr & _)]]];
        try (rewrite H in Hrun; discriminate).
      split; [now apply Hauth |]. split; [now apply status_in_In |]. now apply Hrole.
    + intros (Ha & Ht & Hr). apply Hauth in Ha. apply status_in_In in Ht.
      pose proof (proj2 Hrole Hr) as Hr'.
      destruct Hc as [[H _] | [(_ & H & _) | [(_ & _ & H & _) | (_ & _ & _ & H)]]];
        try congruence.
      eauto.
  - intros r w' Hrun.
    destruct Hc as [[_ H] | [(_ & _ & e & H & _) | [(_ & _ & _ & e & H & _) | (_ & _ & _ & H)]]];
      try (rewrite H in Hrun; discriminate).
    rewrite H in Hrun. injection Hrun as <- <-. split; reflexivity.
Qed.

Lemma updateOrderStatus_succeeds_iff_witness :
  exists r w',
    OrderService.updateOrderStatus "o1" processing "sam" false
      (Sample.shop_with pending) = (Ok r, w').
Proof.
  apply (proj1 (updateOrderStatus_succeeds_iff (Sample.shop_with pending) "o1"
                  (Sample.order pending) (Sample.product 3) processing "sam" false
                  eq_refl eq_refl)).
  split; [right; left; reflexivity |].
  split; [left; reflexivity |].
  split; [intros _; left; reflexivity | intros H; discriminate H].
Defined.

(** X2. Whatever [updateOrderStatus] throws, the controller answers it with
    404, 403 or 400: its last branch, which rethrows into the 500 answer,
    is never taken.  The answer is 404 only when the order is not found. *)
Theorem updateOrderStatus_error_codes (w w' : World) (orderId : string)
    (status : OrderStatus) (userId : string) (isAdmin : bool) (e : Error) :
  OrderService.updateOrderStatus orderId status userId isAdmin w = (Throw e, w') ->
  w' = w
  /\ (OrderController.updateOrderStatus_code e = 404
      \/ OrderController.updateOrderStatus_code e = 403
      \/ OrderController.updateOrderStatus_code e = 400)
  /\ (OrderController.updateOrderStatus_code e = 404 ->
      fst (OrderRepository.findById orderId w) = Ok None).
Proof.
  intros Hrun.
  destruct (orders w !! orderId) as [o|] eqn:Ho.
  1: destruct (products w !! Order.productId o) as [p|] eqn:Hp.
  - destruct (updateOrderStatus_cases w orderId o p status userId isAdmin Ho Hp)
      as [[_ H] | [(_ & _ & e' & H & Hcode) | [(_ & _ & _ & e' & H & Hcode) | (_ & _ & _ & H)]]];
      cbv zeta in H; rewrite H in Hrun; try discriminate;
      injection Hrun as <- <-; (split; [reflexivity |]).
    + split; [right; left; reflexivity | discriminate].
    + rewrite Hcode. split; [right; right; reflexivity | discriminate].
    + rewrite Hcode. split; [right; left; reflexivity | discriminate].
  - assert (Hf : OrderRepository.findById orderId w = (Ok None, w)).
    { unfold OrderRepository.findById. rewrite Ho. cbn. now rewrite Hp. }
    unfold OrderService.updateOrderStatus in Hrun.
    rewrite (bind_ok _ _ _ _ _ Hf) in Hrun. injection Hrun as <- <-.
    split; [reflexivity |]. split; [left; reflexivity |]. intros _. now rewrite Hf.
  - assert (Hf : OrderRepository.findById orderId w = (Ok None, w)).
    { unfold OrderRepository.findById. now rewrite Ho. }
    unfold OrderService.updateOrderStatus in Hrun.
    rewrite (bind_ok _ _ _ _ _ Hf) in Hrun. injection Hrun as <- <-.
    split; [reflexivity |]. split; [left; reflexivity |]. intros _. now rewrite Hf.
Qed.

Lemma updateOrderStatus_error_codes_witness :
  Sample.shop_with shipped = Sample.shop_with shipped
  /\ (OrderController.updateOrderStatus_code
        (Err "Cannot transition from shipped to canceled") = 404
      \/ OrderController.updateOrderStatus_code
           (Err "Cannot transition from shipped to canceled") = 403
      \/ OrderController.updateOrderStatus_code
           (Err "Cannot transition from shipped to canceled") = 400)
  /\ (OrderController.updateOrderStatus_code
        (Err "Cannot transition from shipped to canceled") = 404 ->
      fst (OrderRepository.findById "o1" (Sample.shop_with shipped)) = Ok None).
Proof.
  apply (updateOrderStatus_error_codes (Sample.shop_with shipped)
           (Sample.shop_with shipped) "o1" canceled "sam" false).
  reflexivity.
Defined.


(** ** Cancelling and creating orders *)

(** What a successful [cancelOrder] found and wrote. *)
Lemma cancelOrder_success_inv (w w1 : World) (orderId userId : string)
    (isAdmin : bool) (r : Order.t) :
  OrderService.cancelOrder orderId userId isAdmin w = (Ok r, w1) ->
  exists o p,
    orders w !! orderId = Some o
    /\ products w !! Order.productId o = Some p
    /\ Order.status o = pending
    /\ r = OrderRepository.apply_update (OrderRepository.only_status canceled) o
    /\ w1 = set_products
              (<[Order.productId o :=
                   ProductRepository.apply_update
                     (ProductRepository.mkUpdate None
                        (Some (Number.add (MarketplaceProduct.stock p) (Order.quantity o)))
                        None) p]>
                 (products w))
              (set_orders (<[orderId := r]> (orders w)) w).
Proof.
  intros Hrun. unfold OrderService.cancelOrder in Hrun.
  destruct (orders w !! orderId) as [o|] eqn:Ho.
  2:{ assert (Hf : OrderRepository.findById orderId w = (Ok None, w))
        by (unfold OrderRepository.findById; now rewrite Ho).
      rewrite (bind_ok _ _ _ _ _ Hf) in Hrun. discriminate. }
  destruct (products w !! Order.productId o) as [p|] eqn:Hp.
  2:{ assert (Hf : OrderRepository.findById orderId w = (Ok None, w))
        by (unfold OrderRepository.findById; rewrite Ho; cbn; now rewrite Hp).
      rewrite (bind_ok _ _ _ _ _ Hf) in Hrun. discriminate. }
  rewrite (bind_ok _ _ _ _ _ (findById_order w orderId o p Ho Hp)) in Hrun.
  cbn [fst snd] in Hrun.
  match type of Hrun with
  | context [throw_if ?b ?e] => destruct b
  end.
  { rewrite (bind_throw _ _ _ _ _ (throw_if_true _ w)) in Hrun. discriminate. }
  rewrite (bind_ok _ _ _ _ _ (throw_if_false _ w)) in Hrun.
  destruct (Order.status o) eqn:Hst;
    try (rewrite (bind_throw _ _ _ _ _ (throw_if_true _ w)) in Hrun; discriminate).
  cbn [OrderStatus_eqb negb] in Hrun.
  rewrite (bind_ok _ _ _ _ _ (throw_if_false _ w)) in Hrun.
  rewrite (bind_ok _ _ _ _ _ (update_order w orderId _ o Ho)) in Hrun.
  erewrite bind_ok in Hrun; [| apply updateProduct_admin; exact Hp].
  injection Hrun as <- <-.
  exists o, p. repeat split; first [reflexivity | assumption].
Qed.

(** X3. A [cancelOrder] issued on the database a successful [cancelOrder]
    left throws, whoever calls it, and writes nothing.  The cancellation
    is not final for that: the buyer can set the canceled order back to
    pending through [updateOrder] and cancel it again, and the quantity is
    then added to the stock a second time. *)
Theorem cancelOrder_repeated (w w1 : World) (orderId userId : string)
    (isAdmin : bool) (r : Order.t) :
  OrderService.cancelOrder orderId userId isAdmin w = (Ok r, w1) ->
  (forall (userId' : string) (isAdmin' : bool),
     exists e,
       OrderService.cancelOrder orderId userId' isAdmin' w1 = (Throw e, w1)
       /\ (e = Err "Only pending orders can be canceled"
           \/ e = Err "You are not authorized to cancel this order"))
  /\ exists o p r2 w2 r3 p3 w3,
       orders w !! orderId = Some o
       /\ products w !! Order.productId o = Some p
       /\ OrderService.updateOrder orderId
            (OrderRepository.mkUpdate None None (Some pending) None)
            (Order.buyerId o) false w1 = (Ok r2, w2)
       /\ OrderService.cancelOrder orderId (Order.buyerId o) false w2 = (Ok r3, w3)
       /\ Order.status r3 = canceled
       /\ products w3 !! Order.productId o = Some p3
       /\ MarketplaceProduct.stock p3
          = Number.add (Number.add (MarketplaceProduct.stock p) (Order.quantity o))
              (Order.quantity o).
Proof.
  intros Hrun.
  destruct (cancelOrder_success_inv _ _ _ _ _ _ Hrun)
    as (o & p & Ho & Hp & Hst & Hr & Hw1).
  set (p1 := ProductRepository.apply_update
               (ProductRepository.mkUpdate None
                  (Some (Number.add (MarketplaceProduct.stock p) (Order.quantity o)))
                  None) p) in *.
  assert (Ho1 : orders w1 !! orderId = Some r).
  { rewrite Hw1. cbn. apply lookup_insert_eq. }
  assert (Hpid : Order.productId r = Order.productId o) by (rewrite Hr; reflexivity).
  assert (Hp1 : products w1 !! Order.productId r = Some p1).
  { rewrite Hpid, Hw1. cbn. apply lookup_insert_eq. }
  split.
  - intros userId' isAdmin'.
    unfold OrderService.cancelOrder.
    rewrite (bind_ok _ _ _ _ _ (findById_order w1 orderId r p1 Ho1 Hp1)). cbn [fst snd].
    match goal with
    | |- context [throw_if ?b ?e] => destruct b
    end.
    + eexists. split; [| right; reflexivity].
      now rewrite (bind_throw _ _ _ _ _ (throw_if_true _ w1)).
    + rewrite (bind_ok _ _ _ _ _ (throw_if_false _ w1)).
      assert (Hcanceled : Order.status r = canceled) by (rewrite Hr; reflexivity).
      rewrite Hcanceled. cbn [OrderStatus_eqb negb].
      eexists. split; [| left; reflexivity].
      now rewrite (bind_throw _ _ _ _ _ (throw_if_true _ w1)).
  - set (r2 := OrderRepository.apply_update
                 (OrderRepository.mkUpdate None None (Some pending) None) r).
    set (w2 := set_orders (<[orderId := r2]> (orders w1)) w1).
    assert (Hupd : OrderService.updateOrder orderId
                     (OrderRepository.mkUpdate None None (Some pending) None)
                     (Order.buyerId o) false w1 = (Ok r2, w2)).
    { unfold OrderService.updateOrder.
      rewrite (bind_ok _ _ _ _ _ (findById_order w1 orderId r p1 Ho1 Hp1)).
      cbn [fst snd].
      assert (Hb : Order.buyerId r = Order.buyerId o) by (rewrite Hr; reflexivity).
      assert (Hc : Order.status r = canceled) by (rewrite Hr; reflexivity).
      rewrite Hb, Hc, eqb_same. cbn [negb andb].
      rewrite (bind_ok _ _ _ _ _ (throw_if_false _ w1)).
      cbn [OrderStatus_eqb negb andb].
      rewrite (bind_ok _ _ _ _ _ (throw_if_false _ w1)).
      apply (update_order w1 orderId _ r Ho1). }
    assert (Ho2 : orders w2 !! orderId = Some r2).
    { unfold w2. cbn. apply lookup_insert_eq. }
    assert (Hp2 : products w2 !! Order.productId r2 = Some p1).
    { unfold w2, r2. cbn. exact Hp1. }
    exists o, p, r2, w2. do 3 eexists.
    split; [exact Ho |]. split; [exact Hp |]. split; [exact Hupd |].
    unfold OrderService.cancelOrder.
    rewrite (bind_ok _ _ _ _ _ (findById_order w2 orderId r2 p1 Ho2 Hp2)).
    cbn [fst snd].
    assert (Hb2 : Order.buyerId r2 = Order.buyerId o) by (unfold r2; rewrite Hr; reflexivity).
    rewrite Hb2, eqb_same. cbn [negb andb].
    rewrite (bind_ok _ _ _ _ _ (throw_if_false _ w2)).
    assert (Hs2 : Order.status r2 = pending) by reflexivity.
    rewrite Hs2. cbn [OrderStatus_eqb negb].
    rewrite (bind_ok _ _ _ _ _ (throw_if_false _ w2)).
    rewrite (bind_ok _ _ _ _ _ (update_order w2 orderId _ r2 Ho2)).
    erewrite bind_ok; [| apply updateProduct_admin; exact Hp2].
    split; [reflexivity |]. split; [reflexivity |].
    assert (Hpid2 : Order.productId r2 = Order.productId o) by (unfold r2; rewrite Hr; reflexivity).
    cbn [products set_products]. rewrite Hpid2, lookup_insert_eq.
    split; [reflexivity |].
    unfold r2, p1. rewrite Hr. reflexivity.
Qed.

Lemma cancelOrder_repeated_witness :
  (forall (userId' : string) (isAdmin' : bool),
     exists e,
       OrderService.cancelOrder "o1" userId' isAdmin'
         (snd (OrderService.cancelOrder "o1" "bob" false (Sample.shop_with pending)))
       = (Throw e,
          snd (OrderService.cancelOrder "o1" "bob" false (Sample.shop_with pending)))
       /\ (e = Err "Only pending orders can be canceled"
           \/ e = Err "You are not authorized to cancel this order"))
  /\ exists o p r2 w2 r3 p3 w3,
       orders (Sample.shop_with pending) !! "o1" = Some o
       /\ products (Sample.shop_with pending) !! Order.productId o = Some p
       /\ OrderService.updateOrder "o1"
            (OrderRepository.mkUpdate None None (Some pending) None)
            (Order.buyerId o) false
            (snd (OrderService.cancelOrder "o1" "bob" false (Sample.shop_with pending)))
          = (Ok r2, w2)
       /\ OrderService.cancelOrder "o1" (Order.buyerId o) false w2 = (Ok r3, w3)
       /\ Order.status r3 = canceled
       /\ products w3 !! Order.productId o = Some p3
       /\ MarketplaceProduct.stock p3
          = Number.add (Number.add (MarketplaceProduct.stock p) (Order.quantity o))
              (Order.quantity o).
Proof.
  apply (cancelOrder_repeated (Sample.shop_with pending) _ "o1" "bob" false
           (Sample.order canceled)).
  reflexivity.
Defined.

(** A privileged [updateProduct] fails only for a product that is not in
    the table, and then writes nothing. *)
Lemma updateProduct_admin_cases (w : World) (productId userId : string)
    (data : ProductRepository.UpdateProductInput) :
  match products w !! productId with
  | Some p =>
      ProductService.updateProduct productId userId data true w
      = (Ok (ProductRepository.apply_update data p),
         set_products (<[productId := ProductRepository.apply_update data p]>
                         (products w)) w)
  | None =>
      ProductService.updateProduct productId userId data true w
      = (Throw (Err "Product not found"), w)
  end.
Proof.
  destruct (products w !! productId) as [p|] eqn:Hp.
  - now apply updateProduct_admin.
  - unfold ProductService.updateProduct, ProductRepository.findById, bind.
    now rewrite Hp.
Qed.

(** What a successful [createOrder] found and wrote. *)
Lemma createOrder_success_inv (w w1 : World) (d : OrderRepository.CreateOrderInput)
    (o : Order.t) :
  OrderService.createOrder d w = (Ok o, w1) ->
  exists p p2,
    products w !! OrderRepository.productId d = Some p
    /\ MarketplaceProduct.isActive p = true
    /\ Number.ltb (MarketplaceProduct.stock p) (OrderRepository.quantity d) = false
    /\ Number.gtb
         (Number.abs
            (Number.sub
               (Number.mul (MarketplaceProduct.price p) (OrderRepository.quantity d))
               (OrderRepository.totalPrice d)))
         (Number.decimal 1 100) = false
    /\ o = Order.mk (OrderRepository.new_id w) (OrderRepository.buyerId d)
             (OrderRepository.productId d) (OrderRepository.quantity d)
             (OrderRepository.totalPrice d)
             (default pending (OrderRepository.status d))
             (OrderRepository.shippingAddress d)
    /\ products w !! MarketplaceProduct.id p = Some p2
    /\ w1 = set_products
              (<[MarketplaceProduct.id p :=
                   ProductRepository.apply_update
                     (ProductRepository.mkUpdate None
                        (Some (Number.sub (MarketplaceProduct.stock p)
                                 (OrderRepository.quantity d)))
                        None) p2]> (products w))
              (set_orders (<[OrderRepository.new_id w := o]> (orders w)) w).
Proof.
  intros Hrun. unfold OrderService.createOrder in Hrun.
  assert (Hget : ProductService.getProductById (OrderRepository.productId d) w
                 = (Ok (products w !! OrderRepository.productId d), w)) by reflexivity.
  rewrite (bind_ok _ _ _ _ _ Hget) in Hrun. clear Hget.
  destruct (products w !! OrderRepository.productId d) as [p|] eqn:Hp;
    [| discriminate].
  destruct (MarketplaceProduct.isActive p) eqn:Hact;
    [| rewrite (bind_throw _ _ _ _ _ (throw_if_true _ w)) in Hrun; discriminate].
  cbn [negb] in Hrun. rewrite (bind_ok _ _ _ _ _ (throw_if_false _ w)) in Hrun.
  destruct (Number.ltb (MarketplaceProduct.stock p) (OrderRepository.quantity d)) eqn:Hlt;
    [rewrite (bind_throw _ _ _ _ _ (throw_if_true _ w)) in Hrun; discriminate |].
  rewrite (bind_ok _ _ _ _ _ (throw_if_false _ w)) in Hrun.
  destruct (Number.gtb
              (Number.abs
                 (Number.sub
                    (Number.mul (MarketplaceProduct.price p) (OrderRepository.quantity d))
                    (OrderRepository.totalPrice d)))
              (Number.decimal 1 100)) eqn:Hgt;
    [rewrite (bind_throw _ _ _ _ _ (throw_if_true _ w)) in Hrun; discriminate |].
  rewrite (bind_ok _ _ _ _ _ (throw_if_false _ w)) in Hrun.
  erewrite bind_ok in Hrun; [| reflexivity].
  match type of Hrun with
  | bind (ProductService.updateProduct ?i ?u ?upd true) _ ?w0 = _ =>
      pose proof (updateProduct_admin_cases w0 i u upd) as Hup
  end.
  cbn [products set_orders] in Hup.
  destruct (products w !! MarketplaceProduct.id p) as [p2|] eqn:Hp2.
  - rewrite (bind_ok _ _ _ _ _ Hup) in Hrun. injection Hrun as <- <-.
    exists p, p2. repeat split; first [reflexivity | assumption].
  - rewrite (bind_throw _ _ _ _ _ Hup) in Hrun. discriminate.
Qed.

(** What a failed [createOrder] threw: one of its four errors, with nothing
    written; the last case, a product stored under a key other than its
    id, cannot arise in a table keyed by id. *)
Lemma createOrder_failure_inv (w w1 : World) (d : OrderRepository.CreateOrderInput)
    (e : Error) :
  OrderService.createOrder d w = (Throw e, w1) ->
  (w1 = w
   /\ (e = Err "Product not found"
       \/ e = Err "Product is not available for purchase"
       \/ e = Err "Not enough stock available"
       \/ e = Err "Price mismatch - order price does not match current product price"))
  \/ (e = Err "Product not found"
      /\ exists p, products w !! OrderRepository.productId d = Some p
                   /\ products w !! MarketplaceProduct.id p = None).
Proof.
  intros Hrun. unfold OrderService.createOrder in Hrun.
  assert (Hget : ProductService.getProductById (OrderRepository.productId d) w
                 = (Ok (products w !! OrderRepository.productId d), w)) by reflexivity.
  rewrite (bind_ok _ _ _ _ _ Hget) in Hrun. clear Hget.
  destruct (products w !! OrderRepository.productId d) as [p|] eqn:Hp.
  2:{ injection Hrun as <- <-. left. split; [reflexivity | left; reflexivity]. }
  destruct (MarketplaceProduct.isActive p) eqn:Hact.
  2:{ rewrite (bind_throw _ _ _ _ _ (throw_if_true _ w)) in Hrun.
      injection Hrun as <- <-. left. split; [reflexivity | right; left; reflexivity]. }
  cbn [negb] in Hrun. rewrite (bind_ok _ _ _ _ _ (throw_if_false _ w)) in Hrun.
  destruct (Number.ltb (MarketplaceProduct.stock p) (OrderRepository.quantity d)) eqn:Hlt.
  { rewrite (bind_throw _ _ _ _ _ (throw_if_true _ w)) in Hrun.
    injection Hrun as <- <-. left. split; [reflexivity | right; right; left; reflexivity]. }
  rewrite (bind_ok _ _ _ _ _ (throw_if_false _ w)) in Hrun.
  destruct (Number.gtb
              (Number.abs
                 (Number.sub
                    (Number.mul (MarketplaceProduct.price p) (OrderRepository.quantity d))
                    (OrderRepository.totalPrice d)))
              (Number.decimal 1 100)) eqn:Hgt.
  { rewrite (bind_throw _ _ _ _ _ (throw_if_true _ w)) in Hrun.
    injection Hrun as <- <-. left. split; [reflexivity | right; right; right; reflexivity]. }
  rewrite (bind_ok _ _ _ _ _ (throw_if_false _ w)) in Hrun.
  erewrite bind_ok in Hrun; [| reflexivity].
  match type of Hrun with
  | bind (ProductService.updateProduct ?i ?u ?upd true) _ ?w0 = _ =>
      pose proof (updateProduct_admin_cases w0 i u upd) as Hup
  end.
  cbn [products set_orders] in Hup.
  destruct (products w !! MarketplaceProduct.id p) as [p2|] eqn:Hp2.
  - rewrite (bind_ok _ _ _ _ _ Hup) in Hrun. discriminate.
  - rewrite (bind_throw _ _ _ _ _ Hup) in Hrun. injection Hrun as <- <-.
    right. split; [reflexivity |]. exists p. split; [reflexivity | assumption].
Qed.

(** X4. An order is only ever created for a product that exists, is
    active, whose stock is not less than the quantity and for which
    [Math.abs(price * quantity - totalPrice) > 0.01] is false in doubles.
    The stock left is the double difference of the stock and the
    quantity; when the stock and the quantity are integers below 2^53 and
    the quantity is not negative, the quantity is at most the stock and
    the stock left is their exact difference, which is not negative. *)
Theorem createOrder_success_requires (w w1 : World)
    (d : OrderRepository.CreateOrderInput) (o : Order.t) :
  OrderService.createOrder d w = (Ok o, w1) ->
  exists p,
    products w !! OrderRepository.productId d = Some p
    /\ MarketplaceProduct.isActive p = true
    /\ Number.ltb (MarketplaceProduct.stock p) (OrderRepository.quantity d) = false
    /\ Number.gtb
         (Number.abs
            (Number.sub
               (Number.mul (MarketplaceProduct.price p) (OrderRepository.quantity d))
               (OrderRepository.totalPrice d)))
         (Number.decimal 1 100) = false
    /\ Order.quantity o = OrderRepository.quantity d
    /\ Order.totalPrice o = OrderRepository.totalPrice d
    /\ (MarketplaceProduct.id p = OrderRepository.productId d ->
        exists p',
          products w1 !! OrderRepository.productId d = Some p'
          /\ MarketplaceProduct.stock p'
             = Number.sub (MarketplaceProduct.stock p) (OrderRepository.quantity d)
          /\ (forall s q : Z,
                Number.safe s -> Number.safe q -> (0 <= q)%Z ->
                MarketplaceProduct.stock p = Number.of_Z s ->
                OrderRepository.quantity d = Number.of_Z q ->
                (q <= s)%Z
                /\ MarketplaceProduct.stock p' = Number.of_Z (s - q)
                /\ (0 <= s - q)%Z)).
Proof.
  intros Hrun.
  destruct (createOrder_success_inv _ _ _ _ Hrun)
    as (p & p2 & Hp & Hact & Hle & Hpr & Ho & Hp2 & Hw1).
  exists p. repeat (split; [assumption || (rewrite Ho; reflexivity) |]).
  intros Hid. rewrite Hid in Hp2, Hw1. assert (p2 = p) as -> by congruence.
  rewrite Hw1. eexists. split; [cbn; apply lookup_insert_eq |].
  split; [reflexivity |]. cbn.
  intros s q Hs Hq Hq0 Hstock Hquantity.
  rewrite Hstock, Hquantity in Hle. rewrite ltb_of_Z in Hle by assumption.
  apply Z.ltb_ge in Hle. split; [exact Hle |]. split; [| lia].
  rewrite Hstock, Hquantity. apply sub_of_Z; try assumption.
  unfold Number.safe in *. lia.
Qed.

Lemma createOrder_success_requires_witness :
  exists p,
    products Sample.shop !! "p1" = Some p
    /\ MarketplaceProduct.isActive p = true
    /\ Number.ltb (MarketplaceProduct.stock p) (Number.of_Z 2) = false
    /\ Number.gtb
         (Number.abs
            (Number.sub (Number.mul (MarketplaceProduct.price p) (Number.of_Z 2))
               (Number.of_Z 20)))
         (Number.decimal 1 100) = false
    /\ Order.quantity
         (Order.mk "order" "bob" "p1" (Number.of_Z 2) (Number.of_Z 20) pending None)
       = Number.of_Z 2
    /\ Order.totalPrice
         (Order.mk "order" "bob" "p1" (Number.of_Z 2) (Number.of_Z 20) pending None)
       = Number.of_Z 20
    /\ (MarketplaceProduct.id p = "p1" ->
        exists p',
          products (snd (OrderService.createOrder (Sample.purchase None) Sample.shop))
            !! "p1" = Some p'
          /\ MarketplaceProduct.stock p'
             = Number.sub (MarketplaceProduct.stock p) (Number.of_Z 2)
          /\ (forall s q : Z,
                Number.safe s -> Number.safe q -> (0 <= q)%Z ->
                MarketplaceProduct.stock p = Number.of_Z s ->
                Number.of_Z 2 = Number.of_Z q ->
                (q <= s)%Z
                /\ MarketplaceProduct.stock p' = Number.of_Z (s - q)
                /\ (0 <= s - q)%Z)).
Proof.
  apply (createOrder_success_requires Sample.shop _ (Sample.purchase None)).
  reflexivity.
Defined.

(** X5. Ordering and then cancelling: when [createOrder] succeeds with
    order data that carry no status, the buyer can cancel the new order,
    and the product then has the stock (stock - quantity) + quantity, in
    doubles, its price and its availability untouched.  For a stock and a
    quantity that are integers below 2^53 in absolute value, as is their
    difference, that is the stock from before the order: a round trip. *)
Theorem createOrder_then_cancelOrder (w w1 : World)
    (d : OrderRepository.CreateOrderInput) (o : Order.t) (p : MarketplaceProduct.t) :
  products w !! OrderRepository.productId d = Some p ->
  MarketplaceProduct.id p = OrderRepository.productId d ->
  OrderRepository.status d = None ->
  OrderService.createOrder d w = (Ok o, w1) ->
  exists o' p' w2,
    OrderService.cancelOrder (Order.id o) (OrderRepository.buyerId d) false w1 = (Ok o', w2)
    /\ orders w2 !! Order.id o = Some o'
    /\ Order.status o' = canceled
    /\ products w2 !! OrderRepository.productId d = Some p'
    /\ MarketplaceProduct.stock p'
       = Number.add
           (Number.sub (MarketplaceProduct.stock p) (OrderRepository.quantity d))
           (OrderRepository.quantity d)
    /\ (forall s q : Z,
          Number.safe s -> Number.safe q -> Number.safe (s - q) ->
          MarketplaceProduct.stock p = Number.of_Z s ->
          OrderRepository.quantity d = Number.of_Z q ->
          MarketplaceProduct.stock p' = MarketplaceProduct.stock p)
    /\ MarketplaceProduct.price p' = MarketplaceProduct.price p
    /\ MarketplaceProduct.isActive p' = MarketplaceProduct.isActive p
    /\ MarketplaceProduct.sellerId p' = MarketplaceProduct.sellerId p.
Proof.
  intros Hp Hid Hstatus Hrun.
  destruct (createOrder_success_inv _ _ _ _ Hrun)
    as (p0 & p2 & Hp0 & _ & _ & _ & Ho & Hp2 & Hw1).
  assert (p0 = p) as -> by congruence.
  rewrite Hid in Hp2, Hw1. assert (p2 = p) as -> by congruence.
  set (p1 := ProductRepository.apply_update
               (ProductRepository.mkUpdate None
                  (Some (Number.sub (MarketplaceProduct.stock p)
                           (OrderRepository.quantity d)))
                  None) p) in *.
  assert (Ho1 : orders w1 !! Order.id o = Some o).
  { rewrite Hw1, Ho. cbn. apply lookup_insert_eq. }
  assert (Hp1 : products w1 !! Order.productId o = Some p1).
  { rewrite Hw1, Ho. cbn. apply lookup_insert_eq. }
  unfold OrderService.cancelOrder.
  rewrite (bind_ok _ _ _ _ _ (findById_order w1 (Order.id o) o p1 Ho1 Hp1)).
  cbn [fst snd].
  assert (Hbuyer : Order.buyerId o = OrderRepository.buyerId d) by (rewrite Ho; reflexivity).
  rewrite Hbuyer, eqb_same. cbn [negb andb].
  rewrite (bind_ok _ _ _ _ _ (throw_if_false _ w1)).
  assert (Hpending : Order.status o = pending) by (rewrite Ho, Hstatus; reflexivity).
  rewrite Hpending. cbn [OrderStatus_eqb negb].
  rewrite (bind_ok _ _ _ _ _ (throw_if_false _ w1)).
  rewrite (bind_ok _ _ _ _ _ (update_order w1 (Order.id o) _ o Ho1)).
  erewrite bind_ok; [| apply updateProduct_admin; exact Hp1].
  do 3 eexists. split; [reflexivity |]. cbn.
  assert (Hpid : Order.productId o = OrderRepository.productId d) by (rewrite Ho; reflexivity).
  rewrite Hpid, !lookup_insert_eq.
  split; [reflexivity |]. split; [reflexivity |]. split; [reflexivity |].
  cbn. rewrite Ho. cbn [Order.quantity].
  split; [reflexivity |]. split; [| repeat split; reflexivity].
  intros s q Hs Hq Hsq -> ->.
  rewrite sub_of_Z by assumption.
  rewrite add_of_Z by (try assumption; replace (s - q + q)%Z with s by lia; assumption).
  f_equal. lia.
Qed.

Lemma createOrder_then_cancelOrder_witness :
  exists o' p' w2,
    OrderService.cancelOrder "order" "bob" false
      (snd (OrderService.createOrder (Sample.purchase None) Sample.shop)) = (Ok o', w2)
    /\ orders w2 !! "order" = Some o'
    /\ Order.status o' = canceled
    /\ products w2 !! "p1" = Some p'
    /\ MarketplaceProduct.stock p'
       = Number.add (Number.sub (Number.of_Z 5) (Number.of_Z 2)) (Number.of_Z 2)
    /\ (forall s q : Z,
          Number.safe s -> Number.safe q -> Number.safe (s - q) ->
          Number.of_Z 5 = Number.of_Z s ->
          Number.of_Z 2 = Number.of_Z q ->
          MarketplaceProduct.stock p' = Number.of_Z 5)
    /\ MarketplaceProduct.price p' = Number.of_Z 10
    /\ MarketplaceProduct.isActive p' = true
    /\ MarketplaceProduct.sellerId p' = "sam".
Proof.
  apply (createOrder_then_cancelOrder Sample.shop _ (Sample.purchase None)
           (Order.mk "order" "bob" "p1" (Number.of_Z 2) (Number.of_Z 20) pending None)
           (Sample.product 5)).
  - reflexivity.
  - reflexivity.
  - reflexivity.
  - reflexivity.
Defined.

(** ** Editing an order and a product *)

(** X6. [updateOrder] is for the buyer and for admins: any other caller,
    the seller included, is refused, and a buyer is refused on a completed
    order, in both cases with nothing written; an admin may edit an order
    at any status. *)
Theorem updateOrder_guards (w : World) (orderId : string) (o : Order.t)
    (p : MarketplaceProduct.t) (data : OrderRepository.UpdateOrderInput)
    (userId : string) :
  orders w !! orderId = Some o ->
  products w !! Order.productId o = Some p ->
  (userId <> Order.buyerId o ->
   OrderService.updateOrder orderId data userId false w
     = (Throw (Err "You are not authorized to update this order"), w))
  /\ (userId = Order.buyerId o -> Order.status o = completed ->
      OrderService.updateOrder orderId data userId false w
        = (Throw (Err "Cannot update a completed order"), w))
  /\ OrderService.updateOrder orderId data userId true w
     = (Ok (OrderRepository.apply_update data o),
        set_orders (<[orderId := OrderRepository.apply_update data o]> (orders w)) w).
Proof.
  intros Ho Hp. unfold OrderService.updateOrder.
  rewrite !(bind_ok _ _ _ _ _ (findById_order w orderId o p Ho Hp)). cbn [fst snd].
  split; [| split].
  - intros Hne. rewrite (eqb_differ (Order.buyerId o) userId) by congruence.
    reflexivity.
  - intros -> Hst. rewrite eqb_same. cbn [negb andb].
    rewrite (bind_ok _ _ _ _ _ (throw_if_false _ w)).
    rewrite Hst. reflexivity.
  - cbn [negb andb]. rewrite (bind_ok _ _ _ _ _ (throw_if_false _ w)).
    rewrite andb_false_r, (bind_ok _ _ _ _ _ (throw_if_false _ w)).
    apply update_order, Ho.
Qed.

Lemma updateOrder_guards_witness :
  OrderService.updateOrder "o1" (OrderRepository.mkUpdate None None None (Some "home"))
    "sam" false (Sample.shop_with pending)
  = (Throw (Err "You are not authorized to update this order"),
     Sample.shop_with pending).
Proof.
  apply (proj1 (updateOrder_guards (Sample.shop_with pending) "o1" (Sample.order pending)
                  (Sample.product 3)
                  (OrderRepository.mkUpdate None None None (Some "home"))
                  "sam" eq_refl eq_refl)).
  discriminate.
Defined.

(** X7. [updateOrder] writes the patch as it is given: for the buyer of an
    order that is not completed, a status in the patch is stored without
    the transition table, so that a canceled order can be made pending
    again, and a quantity or total price in the patch is stored without a
    check against the product, whose stock stays as it is. *)
Theorem updateOrder_writes_patch (w : World) (orderId : string) (o : Order.t)
    (p : MarketplaceProduct.t) (quantity totalPrice : Number.t) (status : OrderStatus) :
  orders w !! orderId = Some o ->
  products w !! Order.productId o = Some p ->
  Order.status o <> completed ->
  exists o' w',
    OrderService.updateOrder orderId
      (OrderRepository.mkUpdate (Some quantity) (Some totalPrice) (Some status) None)
      (Order.buyerId o) false w = (Ok o', w')
    /\ orders w' !! orderId = Some o'
    /\ Order.status o' = status
    /\ Order.quantity o' = quantity
    /\ Order.totalPrice o' = totalPrice
    /\ products w' = products w.
Proof.
  intros Ho Hp Hst. unfold OrderService.updateOrder.
  rewrite (bind_ok _ _ _ _ _ (findById_order w orderId o p Ho Hp)). cbn [fst snd].
  rewrite eqb_same. cbn [negb andb].
  rewrite (bind_ok _ _ _ _ _ (throw_if_false _ w)).
  unfold OrderStatus_eqb. rewrite bool_decide_eq_false_2 by exact Hst.
  cbn [andb]. rewrite (bind_ok _ _ _ _ _ (throw_if_false _ w)).
  rewrite (update_order w orderId _ o Ho).
  do 2 eexists. split; [reflexivity |]. cbn.
  rewrite lookup_insert_eq. repeat split; reflexivity.
Qed.

Lemma updateOrder_writes_patch_witness :
  exists o' w',
    OrderService.updateOrder "o1"
      (OrderRepository.mkUpdate (Some (Number.of_Z 100)) (Some (Number.of_Z 1))
         (Some pending) None)
      "bob" false (Sample.shop_with canceled) = (Ok o', w')
    /\ orders w' !! "o1" = Some o'
    /\ Order.status o' = pending
    /\ Order.quantity o' = Number.of_Z 100
    /\ Order.totalPrice o' = Number.of_Z 1
    /\ products w' = products (Sample.shop_with canceled).
Proof.
  apply (updateOrder_writes_patch (Sample.shop_with canceled) "o1"
           (Sample.order canceled) (Sample.product 3) (Number.of_Z 100) (Number.of_Z 1)
           pending).
  - reflexivity.
  - reflexivity.
  - discriminate.
Defined.

(** X8. [updateProduct] throws "Product not found" for a product that is
    not in the table and refuses a caller who is neither an admin nor the
    seller of the product, writing nothing in both cases; for the seller
    or an admin it stores that product with each of price, stock and
    availability replaced by the value the patch gives, and kept when the
    patch gives none, and leaves the seller, the id, every other product
    and the orders as they are. *)
Theorem updateProduct_guards (w : World) (productId userId : string)
    (data : ProductRepository.UpdateProductInput) (isAdmin : bool) :
  (products w !! productId = None ->
   ProductService.updateProduct productId userId data isAdmin w
     = (Throw (Err "Product not found"), w))
  /\ (forall p, products w !! productId = Some p ->
      (isAdmin = false -> userId <> MarketplaceProduct.sellerId p ->
       ProductService.updateProduct productId userId data isAdmin w
         = (Throw (Err "You can only update your own products"), w))
      /\ (isAdmin = true \/ userId = MarketplaceProduct.sellerId p ->
          exists p' w',
            ProductService.updateProduct productId userId data isAdmin w = (Ok p', w')
            /\ products w' !! productId = Some p'
            /\ MarketplaceProduct.price p'
               = default (MarketplaceProduct.price p) (ProductRepository.u_price data)
            /\ MarketplaceProduct.stock p'
               = default (MarketplaceProduct.stock p) (ProductRepository.u_stock data)
            /\ MarketplaceProduct.isActive p'
               = default (MarketplaceProduct.isActive p)
                   (ProductRepository.u_isActive data)
            /\ MarketplaceProduct.sellerId p' = MarketplaceProduct.sellerId p
            /\ MarketplaceProduct.id p' = MarketplaceProduct.id p
            /\ (forall k, k <> productId -> products w' !! k = products w !! k)
            /\ orders w' = orders w)).
Proof.
  unfold ProductService.updateProduct.
  assert (Hfind : ProductRepository.findById productId w
                  = (Ok (products w !! productId), w)) by reflexivity.
  rewrite !(bind_ok _ _ _ _ _ Hfind). clear Hfind.
  split.
  - intros Hnone. now rewrite Hnone.
  - intros p Hp. rewrite Hp. split.
    + intros -> Hne. rewrite (eqb_differ (MarketplaceProduct.sellerId p) userId)
        by congruence. reflexivity.
    + intros Hwho.
      assert (Hauth : negb isAdmin
                      && negb (String.eqb (MarketplaceProduct.sellerId p) userId) = false).
      { destruct Hwho as [-> | ->]; [reflexivity |].
        rewrite eqb_same. apply andb_false_r. }
      rewrite Hauth, (bind_ok _ _ _ _ _ (throw_if_false _ w)).
      unfold ProductRepository.update. rewrite Hp.
      do 2 eexists. split; [reflexivity |]. cbn.
      rewrite lookup_insert_eq. repeat split; try reflexivity.
      intros k Hk. now apply lookup_insert_ne.
Qed.

Lemma updateProduct_guards_witness :
  ProductService.updateProduct "p1" "bob"
    (ProductRepository.mkUpdate (Some (Number.of_Z 1)) None None) false Sample.shop
  = (Throw (Err "You can only update your own products"), Sample.shop).
Proof.
  destruct (updateProduct_guards Sample.shop "p1" "bob"
              (ProductRepository.mkUpdate (Some (Number.of_Z 1)) None None) false) as [_ H].
  destruct (H (Sample.product 5) eq_refl) as [Hrefused _].
  apply Hrefused; [reflexivity | discriminate].
Defined.

(** ** The order controller *)

Lemma authenticated (user : Http.User) :
  Http.id user <> "" -> Http.unauthenticated (Some user) = false.
Proof.
  intros H. unfold Http.unauthenticated, truthy.
  now rewrite (eqb_differ _ _ H).
Qed.

(** X9. [createOrder] of the controller, for an authenticated user and a
    body that fits the schema, answers 201 or 400 and never 500.  With 201
    comes a new order whose buyer is the authenticated user and whose
    status is pending; with 400 comes no order, and in a product table
    keyed by id nothing has been written.  Without a user the answer is
    401 and nothing is written. *)
Theorem controller_createOrder_answers (w : World) (user : Http.User)
    (data : OrderController.OrderCreateData) :
  Http.id user <> "" ->
  (exists r w',
     OrderController.createOrder (Some user) (Some data) w = (Ok r, w')
     /\ ((Http.status r = 201
          /\ exists o,
               Http.data r = Some o
               /\ Order.buyerId o = Http.id user
               /\ Order.status o = pending
               /\ orders w !! Order.id o = None
               /\ orders w' !! Order.id o = Some o)
         \/ (Http.status r = 400
             /\ Http.data r = None
             /\ ((forall p, products w !! OrderController.productId data = Some p ->
                            MarketplaceProduct.id p = OrderController.productId data) ->
                 w' = w))))
  /\ (forall validationResult,
        OrderController.createOrder None validationResult w
        = (Ok (Http.fail 401 "Authentication required"), w)).
Proof.
  intros Hid. split; [| reflexivity].
  unfold OrderController.createOrder, try_catch.
  rewrite (authenticated user Hid).
  set (d := OrderRepository.mkCreate (Http.id user) (OrderController.productId data)
              (OrderController.quantity data) (OrderController.totalPrice data) None
              (OrderController.shippingAddress data)).
  destruct (OrderService.createOrder d w) as [[o|e] w1] eqn:Hrun.
  - rewrite (bind_ok _ _ _ _ _ Hrun).
    destruct (createOrder_success_inv _ _ _ _ Hrun)
      as (p & p2 & _ & _ & _ & _ & Ho & _ & Hw1).
    do 2 eexists. split; [reflexivity |]. left. split; [reflexivity |].
    exists o. split; [reflexivity |].
    rewrite Hw1, Ho. cbn. rewrite lookup_insert_eq.
    repeat split; try reflexivity. apply fresh_string_fresh.
  - rewrite (bind_throw _ _ _ _ _ Hrun).
    destruct (createOrder_failure_inv _ _ _ _ Hrun)
      as [[-> [-> | [-> | [-> | ->]]]] | [-> (p & Hp & Hnone)]];
      (do 2 eexists; split; [reflexivity |]; right;
       split; [reflexivity |]; split; [reflexivity |]); try (intros _; reflexivity).
    intros Hkeyed. cbn in Hp. rewrite (Hkeyed p Hp) in Hnone. congruence.
Qed.

Lemma controller_createOrder_answers_witness :
  exists r w',
    OrderController.createOrder (Some (Http.mkUser "bob" "bob@booth.test" "User"))
      (Some (OrderController.mkCreateData "p1" (Number.of_Z 2) (Number.of_Z 20) None)) Sample.shop = (Ok r, w')
    /\ ((Http.status r = 201
         /\ exists o,
              Http.data r = Some o
              /\ Order.buyerId o = "bob"
              /\ Order.status o = pending
              /\ orders Sample.shop !! Order.id o = None
              /\ orders w' !! Order.id o = Some o)
        \/ (Http.status r = 400
            /\ Http.data r = None
            /\ ((forall p, products Sample.shop !! "p1" = Some p ->
                           MarketplaceProduct.id p = "p1") ->
                w' = Sample.shop))).
Proof.
  apply (proj1 (controller_createOrder_answers Sample.shop
                  (Http.mkUser "bob" "bob@booth.test" "User")
                  (OrderController.mkCreateData "p1" (Number.of_Z 2) (Number.of_Z 20) None)
                  ltac:(discriminate))).
Defined.

(** [updateOrder] of the service either throws and writes nothing or
    writes the patch on the order. *)
Lemma updateOrder_effect (w : World) (orderId : string)
    (data : OrderRepository.UpdateOrderInput) (userId : string) (isAdmin : bool) :
  (exists e, OrderService.updateOrder orderId data userId isAdmin w = (Throw e, w)
             /\ (includes (message e) "not found" = true
                 \/ includes (message e) "not authorized" = true
                 \/ includes (message e) "Cannot" = true))
  \/ (exists o, orders w !! orderId = Some o /\
        OrderService.updateOrder orderId data userId isAdmin w =
          (Ok (OrderRepository.apply_update data o),
           set_orders (<[orderId := OrderRepository.apply_update data o]> (orders w)) w)).
Proof.
  unfold OrderService.updateOrder, bind, OrderRepository.findById.
  destruct (orders w !! orderId) as [o|] eqn:Ho; cbn;
    [| left; eexists; split; [reflexivity | left; reflexivity]].
  destruct (products w !! Order.productId o) as [p|]; cbn;
    [| left; eexists; split; [reflexivity | left; reflexivity]].
  match goal with |- context [throw_if ?b ?e w] => destruct b end; cbn;
    [left; eexists; split; [reflexivity | right; left; reflexivity] |].
  match goal with |- context [throw_if ?b ?e w] => destruct b end; cbn;
    [left; eexists; split; [reflexivity | right; right; reflexivity] |].
  right. exists o. split; [reflexivity |].
  unfold OrderRepository.update. now rewrite Ho.
Qed.

(** A successful status update follows the transition table. *)
Lemma updateOrderStatus_effect_table (w : World) (orderId : string)
    (status : OrderStatus) (userId : string) (isAdmin : bool) :
  (exists e, OrderService.updateOrderStatus orderId status userId isAdmin w = (Throw e, w))
  \/ (exists o, orders w !! orderId = Some o
        /\ raw_transition (Order.status o) status = true
        /\ OrderService.updateOrderStatus orderId status userId isAdmin w =
             (Ok (OrderRepository.apply_update (OrderRepository.only_status status) o),
              set_orders (<[orderId := OrderRepository.apply_update
                                         (OrderRepository.only_status status) o]>
                            (orders w)) w)).
Proof.
  destruct (updateOrderStatus_effect w orderId status userId isAdmin)
    as [He | (o & Ho & Hrun)]; [left; exact He |].
  destruct (products w !! Order.productId o) as [p|] eqn:Hp.
  - destruct (updateOrderStatus_cases w orderId o p status userId isAdmin Ho Hp)
      as [[_ H] | [(_ & _ & e & H & _) | [(_ & _ & _ & e & H & _) | (_ & Hraw & _ & H)]]];
      cbv zeta in H; try (rewrite H in Hrun; discriminate).
    right. exists o. repeat split; assumption.
  - exfalso. unfold OrderService.updateOrderStatus, bind, OrderRepository.findById in Hrun.
    rewrite Ho in Hrun. cbn in Hrun. rewrite Hp in Hrun. discriminate.
Qed.

(** X10. Whatever the request, [updateOrder] of the controller answers
    without throwing, writes to no product and to no other order, and
    leaves the buyer, the product, the quantity and the total price of the
    order as they are; the status of the order is either unchanged or a
    status of the transition table of the former one. *)
Theorem controller_updateOrder_keeps_order (w : World) (user : option Http.User)
    (id : string) (validationResult : option OrderController.OrderUpdateData) :
  exists r w',
    OrderController.updateOrder user id validationResult w = (Ok r, w')
    /\ products w' = products w
    /\ (forall k, k <> id -> orders w' !! k = orders w !! k)
    /\ (forall o, orders w !! id = Some o ->
        exists o',
          orders w' !! id = Some o'
          /\ Order.buyerId o' = Order.buyerId o
          /\ Order.productId o' = Order.productId o
          /\ Order.quantity o' = Order.quantity o
          /\ Order.totalPrice o' = Order.totalPrice o
          /\ (Order.status o' = Order.status o
              \/ In (Order.status o') (transition_table (Order.status o)))).
Proof.
  assert (Hsame : forall r : Http.Response Order.t,
    exists r0 w',
      (Ok r, w) = (Ok r0, w')
      /\ products w' = products w
      /\ (forall k, k <> id -> orders w' !! k = orders w !! k)
      /\ (forall o, orders w !! id = Some o ->
          exists o',
            orders w' !! id = Some o'
            /\ Order.buyerId o' = Order.buyerId o
            /\ Order.productId o' = Order.productId o
            /\ Order.quantity o' = Order.quantity o
            /\ Order.totalPrice o' = Order.totalPrice o
            /\ (Order.status o' = Order.status o
                \/ In (Order.status o') (transition_table (Order.status o))))).
  { intros r. exists r, w. repeat split; try reflexivity.
    intros o Ho. exists o. repeat split; try assumption. now left. }
  unfold OrderController.updateOrder.
  destruct user as [u|]; [| apply Hsame].
  unfold try_catch at 1.
  destruct (Http.unauthenticated (Some u)); [apply Hsame |].
  destruct validationResult as [data|]; [| apply Hsame].
  unfold try_catch.
  destruct (OrderController.u_status data) as [status|].
  - destruct (updateOrderStatus_effect_table w id status (Http.id u)
                (String.eqb (Http.role u) "Admin"))
      as [[e He] | (o & Ho & Hraw & Hrun)].
    + rewrite (bind_throw _ _ _ _ _ He).
      destruct (includes (message e) "not found"); [apply Hsame |].
      destruct (includes (message e) "not authorized"); [apply Hsame |].
      destruct (includes (message e) "Cannot"); apply Hsame.
    + rewrite (bind_ok _ _ _ _ _ Hrun).
      do 2 eexists. split; [reflexivity |]. split; [reflexivity |].
      split; [intros k Hk; cbn; now apply lookup_insert_ne |].
      intros o0 Ho0. assert (o0 = o) as -> by congruence.
      eexists. split; [cbn; apply lookup_insert_eq |].
      repeat split. right. cbn. now apply status_in_In.
  - destruct (updateOrder_effect w id
                (OrderRepository.mkUpdate None None None
                   (OrderController.u_shippingAddress data))
                (Http.id u) (String.eqb (Http.role u) "Admin"))
      as [(e & He & _) | (o & Ho & Hrun)].
    + rewrite (bind_throw _ _ _ _ _ He).
      destruct (includes (message e) "not found"); [apply Hsame |].
      destruct (includes (message e) "not authorized"); [apply Hsame |].
      destruct (includes (message e) "Cannot"); apply Hsame.
    + rewrite (bind_ok _ _ _ _ _ Hrun).
      do 2 eexists. split; [reflexivity |]. split; [reflexivity |].
      split; [intros k Hk; cbn; now apply lookup_insert_ne |].
      intros o0 Ho0. assert (o0 = o) as -> by congruence.
      eexists. split; [cbn; apply lookup_insert_eq |].
      repeat split. now left.
Qed.

(** X11. On the route of [updateOrder], a refusal by the role checks of
    [validateStatusTransition] is answered with 500 "Server error": its
    message matches none of the three tests of the handler, which
    rethrows it, where the handler of [updateOrderStatus] answers the same
    error with 403.  Here for a buyer who asks for a status of the table
    other than canceled. *)
Theorem controller_updateOrder_role_refusal (w : World) (user : Http.User)
    (id : string) (o : Order.t) (p : MarketplaceProduct.t) (status : OrderStatus)
    (address : option string) :
  Http.id user <> "" ->
  orders w !! id = Some o ->
  products w !! Order.productId o = Some p ->
  Http.id user = Order.buyerId o ->
  Http.id user <> MarketplaceProduct.sellerId p ->
  In status (transition_table (Order.status o)) ->
  status <> canceled ->
  OrderController.updateOrder (Some user) id
    (Some (OrderController.mkUpdateData address (Some status))) w
  = (Ok (Http.serverError (Err "Buyers can only cancel pending orders")), w)
  /\ OrderController.updateOrderStatus_code (Err "Buyers can only cancel pending orders")
     = 403.
Proof.
  intros Hid Ho Hp Hbuyer Hseller Htable Hst. split; [| reflexivity].
  assert (Hrun : OrderService.updateOrderStatus id status (Http.id user)
                   (String.eqb (Http.role user) "Admin") w
                 = (Throw (Err "Buyers can only cancel pending orders"), w)).
  { unfold OrderService.updateOrderStatus.
    rewrite (bind_ok _ _ _ _ _ (findById_order w id o p Ho Hp)). cbn [fst snd].
    rewrite Hbuyer, eqb_same, !andb_false_r.
    rewrite (bind_ok _ _ _ _ _ (throw_if_false _ w)).
    apply status_in_In in Htable.
    unfold bind. rewrite (validate_inside_table _ _ _ (o, p) w Htable).
    unfold role_refused. cbn [fst snd].
    rewrite <- Hbuyer, eqb_same, (eqb_differ _ _ Hseller).
    unfold OrderStatus_eqb. rewrite (bool_decide_eq_false_2 _ Hst). reflexivity. }
  unfold OrderController.updateOrder, try_catch.
  rewrite (authenticated user Hid). cbn [OrderController.u_status].
  rewrite (bind_throw _ _ _ _ _ Hrun). reflexivity.
Qed.

Lemma controller_updateOrder_role_refusal_witness :
  OrderController.updateOrder (Some (Http.mkUser "bob" "bob@booth.test" "User")) "o1"
    (Some (OrderController.mkUpdateData None (Some processing)))
    (Sample.shop_with pending)
  = (Ok (Http.serverError (Err "Buyers can only cancel pending orders")),
     Sample.shop_with pending)
  /\ OrderController.updateOrderStatus_code (Err "Buyers can only cancel pending orders")
     = 403.
Proof.
  apply (controller_updateOrder_role_refusal (Sample.shop_with pending)
           (Http.mkUser "bob" "bob@booth.test" "User") "o1" (Sample.order pending)
           (Sample.product 3) processing None).
  - discriminate.
  - reflexivity.
  - reflexivity.
  - reflexivity.
  - discriminate.
  - left. reflexivity.
  - discriminate.
Defined.

(** X12. [getOrderById] of the controller never throws and writes
    nothing, whatever it answers: 200, 401, 403 or 404.  It hands an
    order out only with 200, the order stored under the id with its
    product, and only to an authenticated user who is an admin, the buyer
    of the order or the seller of its product. *)
Theorem controller_getOrderById_discloses (w : World) (user : option Http.User)
    (id : string) :
  exists r,
    OrderController.getOrderById user id w = (Ok r, w)
    /\ In (Http.status r) [200; 401; 403; 404]
    /\ forall o p,
         Http.data r = Some (o, p) ->
         Http.status r = 200
         /\ orders w !! id = Some o
         /\ products w !! Order.productId o = Some p
         /\ exists u, user = Some u
              /\ Http.id u <> ""
              /\ (Http.role u = "Admin" \/ Http.id u = Order.buyerId o
                  \/ Http.id u = MarketplaceProduct.sellerId p).
Proof.
  unfold OrderController.getOrderById, try_catch.
  destruct user as [u|].
  2:{ eexists. split; [reflexivity |]. split; [cbn; tauto | discriminate]. }
  destruct (Http.unauthenticated (Some u)) eqn:Hauth.
  { eexists. split; [reflexivity |]. split; [cbn; tauto | discriminate]. }
  assert (Hid : Http.id u <> "").
  { intros Hempty. unfold Http.unauthenticated, truthy in Hauth.
    rewrite Hempty in Hauth. discriminate. }
  unfold OrderService.getOrderById, bind, OrderRepository.findById.
  destruct (orders w !! id) as [o0|] eqn:Ho; cbn;
    [| eexists; split; [reflexivity |]; split; [cbn; tauto | discriminate]].
  destruct (products w !! Order.productId o0) as [p0|] eqn:Hp; cbn;
    [| eexists; split; [reflexivity |]; split; [cbn; tauto | discriminate]].
  destruct (String.eqb (Http.role u) "Admin") eqn:Hadmin;
    destruct (String.eqb (Http.id u) (Order.buyerId o0)) eqn:Hb;
    destruct (String.eqb (Http.id u) (MarketplaceProduct.sellerId p0)) eqn:Hs;
    cbn; (eexists; split; [reflexivity |]; split; [cbn; tauto |]);
    try discriminate;
    intros o p [= <- <-];
    (split; [reflexivity |]; split; [reflexivity |]; split; [exact Hp |];
     exists u; split; [reflexivity |]; split; [exact Hid |]);
    rewrite ?String.eqb_eq in *; auto.
Qed.
(** ** Order statistics *)

Lemma filter_perm {A} (f : A -> bool) (l l' : list A) :
  l ≡ₚ l' -> List.filter f l ≡ₚ List.filter f l'.
Proof.
  induction 1 as [| x l l' _ IH | x y l | l l' l'' _ IH1 _ IH2]; cbn.
  - reflexivity.
  - destruct (f x); [now constructor | exact IH].
  - destruct (f x), (f y); try reflexivity. constructor.
  - now transitivity (List.filter f l').
Qed.

Lemma count_status_perm (s : OrderStatus) (l l' : list Order.t) :
  l ≡ₚ l' -> OrderRepository.count_status s l = OrderRepository.count_status s l'.
Proof.
  intros H. unfold OrderRepository.count_status.
  apply Permutation_length, filter_perm, H.
Qed.

Lemma sum_Z_perm (l l' : list Z) : l ≡ₚ l' -> sum_Z l = sum_Z l'.
Proof.
  unfold sum_Z.
  induction 1 as [| x l l' _ IH | x y l | l l' l'' _ IH1 _ IH2]; cbn; lia.
Qed.

Lemma sum_abs_perm (l l' : list Z) : l ≡ₚ l' -> sum_abs l = sum_abs l'.
Proof.
  unfold sum_abs.
  induction 1 as [| x l l' _ IH | x y l | l l' l'' _ IH1 _ IH2]; cbn; lia.
Qed.

(** A sum over rows is the sum of their column. *)
Lemma fold_add_column {A} (f : A -> Number.t) (l : list A) (a : Number.t) :
  fold_left (fun sum x => Number.add sum (f x)) l a
  = fold_left Number.add (map f l) a.
Proof.
  revert a. induction l as [| x l IH]; intros a; cbn; [reflexivity | apply IH].
Qed.

(** The sum, from 0, of a column of integers, the sum of their absolute
    values below 2^53: the rows may be read in any order. *)
Lemma fold_add_perm_of_Z {A} (f : A -> Number.t) (rows l : list A) (ns : list Z) :
  rows ≡ₚ l ->
  map f l = map Number.of_Z ns ->
  (sum_abs ns < 2 ^ 53)%Z ->
  fold_left (fun sum x => Number.add sum (f x)) rows (Number.of_Z 0)
  = Number.of_Z (sum_Z ns).
Proof.
  intros Hperm Hl Hb.
  assert (Hcol : map f l ≡ₚ map f rows) by (apply Permutation_map; now symmetry).
  rewrite Hl in Hcol.
  destruct (Permutation_map_inv _ _ (Permutation_sym Hcol)) as (l3 & Hrows & Hl3).
  rewrite fold_add_column, Hrows.
  rewrite fold_add_of_Z.
  - rewrite Z.add_0_l. f_equal. symmetry. now apply sum_Z_perm.
  - rewrite <- (sum_abs_perm _ _ Hl3). cbn. lia.
Qed.


Lemma sum_totalPrice_of_Z (rows : list Order.t) (l : list Order.t) (prices : list Z) :
  rows ≡ₚ l ->
  map Order.totalPrice l = map Number.of_Z prices ->
  (sum_abs prices < 2 ^ 53)%Z ->
  OrderRepository.sum_totalPrice rows = Number.of_Z (sum_Z prices).
Proof. apply fold_add_perm_of_Z. Qed.

(** The rows of the order table after an order is added under a fresh key. *)
Lemma findMany_added (w w1 : World) (k : string) (o : Order.t) :
  orders w !! k = None ->
  orders w1 = <[k := o]> (orders w) ->
  OrderRepository.findMany w1 ≡ₚ o :: OrderRepository.findMany w.
Proof.
  intros Hk Hw1. unfold OrderRepository.findMany. rewrite Hw1.
  now rewrite (map_to_list_insert _ _ _ Hk).
Qed.





(** X13. A new order shows in the statistics of its buyer: one order more
    and, when the order data carry no status, one pending order more; the
    total spent is the sum, in doubles and from 0, of the total prices of
    the buyer's orders, the new one among them, in the order the rows are
    read. When these total prices are integers and the sum of their
    absolute values is below 2^53, the total spent is the total spent
    before plus the total price of the order. The counts of every other
    buyer are as before, and their total spent is the sum of the same
    total prices as before. *)
Theorem createOrder_buyer_stats (w w1 : World) (d : OrderRepository.CreateOrderInput)
    (o : Order.t) (buyerId : string) (s s1 : BuyerStats.t) :
  OrderService.createOrder d w = (Ok o, w1) ->
  OrderRepository.status d = None ->
  fst (OrderService.getBuyerStats buyerId w) = Ok s ->
  fst (OrderService.getBuyerStats buyerId w1) = Ok s1 ->
  let before :=
    List.filter (fun x => String.eqb (Order.buyerId x) buyerId)
      (OrderRepository.findMany w) in
  (buyerId = OrderRepository.buyerId d ->
   BuyerStats.totalOrders s1 = S (BuyerStats.totalOrders s)
   /\ BuyerStats.pendingOrders s1 = S (BuyerStats.pendingOrders s)
   /\ BuyerStats.completedOrders s1 = BuyerStats.completedOrders s
   /\ Order.totalPrice o = OrderRepository.totalPrice d
   /\ (exists rows, rows ≡ₚ o :: before
         /\ BuyerStats.totalSpent s1 = OrderRepository.sum_totalPrice rows)
   /\ forall (prices : list Z) (n : Z),
        map Order.totalPrice before = map Number.of_Z prices ->
        OrderRepository.totalPrice d = Number.of_Z n ->
        (Z.abs n + sum_abs prices < 2 ^ 53)%Z ->
        BuyerStats.totalSpent s = Number.of_Z (sum_Z prices)
        /\ BuyerStats.totalSpent s1 = Number.of_Z (sum_Z prices + n))
  /\ (buyerId <> OrderRepository.buyerId d ->
      BuyerStats.totalOrders s1 = BuyerStats.totalOrders s
      /\ BuyerStats.pendingOrders s1 = BuyerStats.pendingOrders s
      /\ BuyerStats.completedOrders s1 = BuyerStats.completedOrders s
      /\ (exists rows, rows ≡ₚ before
            /\ BuyerStats.totalSpent s1 = OrderRepository.sum_totalPrice rows)
      /\ forall prices : list Z,
           map Order.totalPrice before = map Number.of_Z prices ->
           (sum_abs prices < 2 ^ 53)%Z ->
           BuyerStats.totalSpent s1 = BuyerStats.totalSpent s).
Proof.
  intros Hrun Hstatus Hs Hs1 before.
  destruct (createOrder_success_inv _ _ _ _ Hrun)
    as (p & p2 & _ & _ & _ & _ & Ho & _ & Hw1).
  assert (Hrows : OrderRepository.findMany w1 ≡ₚ o :: OrderRepository.findMany w).
  { apply (findMany_added w w1 (OrderRepository.new_id w)).
    - apply fresh_string_fresh.
    - rewrite Hw1. reflexivity. }
  injection Hs as <-. injection Hs1 as <-.
  cbn [BuyerStats.totalOrders BuyerStats.pendingOrders BuyerStats.completedOrders
       BuyerStats.totalSpent].
  fold before.
  pose proof (filter_perm (fun x => String.eqb (Order.buyerId x) buyerId) _ _ Hrows) as Hf.
  cbn [List.filter] in Hf. fold before in Hf.
  assert (Hb : Order.buyerId o = OrderRepository.buyerId d) by (rewrite Ho; reflexivity).
  assert (Hst : Order.status o = pending) by (rewrite Ho, Hstatus; reflexivity).
  assert (Hpr : Order.totalPrice o = OrderRepository.totalPrice d) by (rewrite Ho; reflexivity).
  split.
  - intros ->. rewrite Hb, eqb_same in Hf.
    rewrite (Permutation_length Hf), !(count_status_perm _ _ _ Hf).
    unfold OrderRepository.count_status. cbn [List.filter]. rewrite Hst.
    cbn [OrderStatus_eqb length].
    split; [reflexivity |]. split; [reflexivity |]. split; [reflexivity |].
    split; [exact Hpr |]. split.
    + eexists. split; [exact Hf | reflexivity].
    + intros prices n Hbefore Hn Hbound.
      pose proof (sum_abs_nonneg prices) as Hnn.
      split.
      * apply (sum_totalPrice_of_Z _ before prices); [reflexivity | exact Hbefore | lia].
      * rewrite (sum_totalPrice_of_Z _ (o :: before) (n :: prices) Hf).
        -- f_equal. change (sum_Z (n :: prices)) with (n + sum_Z prices)%Z. lia.
        -- cbn [map]. now rewrite Hpr, Hn, Hbefore.
        -- change (sum_abs (n :: prices)) with (Z.abs n + sum_abs prices)%Z. lia.
  - intros Hne. rewrite Hb, (eqb_differ _ _ (not_eq_sym Hne)) in Hf.
    rewrite (Permutation_length Hf), !(count_status_perm _ _ _ Hf).
    split; [reflexivity |]. split; [reflexivity |]. split; [reflexivity |]. split.
    + eexists. split; [exact Hf | reflexivity].
    + intros prices Hbefore Hbound.
      rewrite (sum_totalPrice_of_Z _ before prices Hf Hbefore Hbound).
      symmetry. now apply (sum_totalPrice_of_Z _ before prices).
Qed.

Lemma createOrder_buyer_stats_witness :
  BuyerStats.totalOrders (BuyerStats.mk 1 (Number.of_Z 20) 1 0)
    = S (BuyerStats.totalOrders (BuyerStats.mk 0 (Number.of_Z 0) 0 0))
  /\ BuyerStats.totalSpent (BuyerStats.mk 1 (Number.of_Z 20) 1 0)
     = Number.of_Z (sum_Z [] + 20).
Proof.
  pose proof (proj1 (createOrder_buyer_stats Sample.shop
                  (snd (OrderService.createOrder (Sample.purchase None) Sample.shop))
                  (Sample.purchase None)
                  (Order.mk "order" "bob" "p1" (Number.of_Z 2) (Number.of_Z 20)
                     pending None)
                  "bob" (BuyerStats.mk 0 (Number.of_Z 0) 0 0)
                  (BuyerStats.mk 1 (Number.of_Z 20) 1 0)
                  eq_refl eq_refl eq_refl eq_refl) eq_refl)
    as (H1 & _ & _ & _ & _ & H2).
  split; [exact H1 |].
  apply (H2 [] 20%Z); [reflexivity | reflexivity | vm_compute; reflexivity].
Defined.



(** ** Ranking service and controller *)

(** One adjustment seen from every pair: the score of the adjusted pair is
    the adjusted score and every other score stays. *)
Lemma adjustRanking_scoreOf (w : World) (userId categoryId : string)
    (adjustment : Number.t) (updatedBy : option string) :
  exists r w',
    RankingService.adjustRanking userId categoryId adjustment updatedBy w = (Ok r, w')
    /\ rankings w' !! (userId, categoryId) = Some r
    /\ UserRanking.score r = adjusted (rankings w !! (userId, categoryId)) adjustment
    /\ forall u c, (u, c) <> (userId, categoryId) -> rankings w' !! (u, c) = rankings w !! (u, c).
Proof.
  destruct (adjustRanking_score w userId categoryId adjustment updatedBy)
    as (r & w' & Hrun & Hw' & Hs).
  exists r, w'. split; [exact Hrun |]. rewrite Hw'. cbn [rankings set_rankings].
  split; [apply lookup_insert_eq |]. split; [exact Hs |].
  intros u c Hne. apply lookup_insert_ne. congruence.
Qed.

Lemma scoreOf_entry (w : World) (u c : string) (r : UserRanking.t) :
  rankings w !! (u, c) = Some r -> scoreOf w u c = UserRanking.score r.
Proof. intros H. unfold scoreOf. now rewrite H. Qed.

Lemma scoreOf_same_entry (w' w : World) (u c : string) :
  rankings w' !! (u, c) = rankings w !! (u, c) -> scoreOf w' u c = scoreOf w u c.
Proof. intros H. unfold scoreOf. now rewrite H. Qed.

(** The order of two adjustments of one entry shows in the last digit:
    from 0.1, the adjustments 0.1 and 0.4 give 0.6000000000000001 in one
    order and 0.6 in the other. *)
Example adjustRanking_order_shows :
  let w := Sample.ranked "content" (Number.decimal 1 10) in
  let a := Number.decimal 1 10 in
  let b := Number.decimal 4 10 in
  scoreOf (snd ((RankingService.adjustRanking "bob" "content" a None ;;;
                 RankingService.adjustRanking "bob" "content" b None) w))
    "bob" "content"
  <> scoreOf (snd ((RankingService.adjustRanking "bob" "content" b None ;;;
                    RankingService.adjustRanking "bob" "content" a None) w))
       "bob" "content".
Proof. vm_compute. discriminate. Qed.

(** X15. Two adjustments in a row return in both orders.  On different
    pairs they commute: every score is the same after both orders.  On
    the same pair every other score stays and the score of the pair is
    the double sum (score + d1) + d2 in one order and (score + d2) + d1
    in the other, d1 + d2 and d2 + d1 when the pair had no entry; the two
    agree when the pair had no entry, and when the score, the adjustments
    and the sums are integers below 2^53 in absolute value. *)
Theorem adjustRanking_commutes (w : World) (u1 c1 : string) (d1 : Number.t)
    (by1 : option string) (u2 c2 : string) (d2 : Number.t) (by2 : option string) :
  exists r12 w12 r21 w21,
    (RankingService.adjustRanking u1 c1 d1 by1 ;;;
     RankingService.adjustRanking u2 c2 d2 by2) w = (Ok r12, w12)
    /\ (RankingService.adjustRanking u2 c2 d2 by2 ;;;
        RankingService.adjustRanking u1 c1 d1 by1) w = (Ok r21, w21)
    /\ ((u1, c1) <> (u2, c2) -> forall u c, scoreOf w12 u c = scoreOf w21 u c)
    /\ ((u1, c1) = (u2, c2) ->
        (forall u c, (u, c) <> (u1, c1) ->
           scoreOf w12 u c = scoreOf w u c /\ scoreOf w21 u c = scoreOf w u c)
        /\ scoreOf w12 u1 c1 = Number.add (adjusted (rankings w !! (u1, c1)) d1) d2
        /\ scoreOf w21 u1 c1 = Number.add (adjusted (rankings w !! (u1, c1)) d2) d1
        /\ (rankings w !! (u1, c1) = None -> scoreOf w12 u1 c1 = scoreOf w21 u1 c1)
        /\ forall s a b : Z,
             Number.safe s -> Number.safe a -> Number.safe b ->
             Number.safe (s + a) -> Number.safe (s + b) -> Number.safe (s + a + b) ->
             scoreOf w u1 c1 = Number.of_Z s ->
             d1 = Number.of_Z a -> d2 = Number.of_Z b ->
             scoreOf w12 u1 c1 = Number.of_Z (s + a + b)
             /\ scoreOf w21 u1 c1 = Number.of_Z (s + a + b)).
Proof.
  destruct (adjustRanking_scoreOf w u1 c1 d1 by1) as (ra & wa & Ha & Hea & Hsa & Hoa).
  destruct (adjustRanking_scoreOf wa u2 c2 d2 by2) as (rab & wab & Hab & Heab & Hsab & Hoab).
  destruct (adjustRanking_scoreOf w u2 c2 d2 by2) as (rb & wb & Hb & Heb & Hsb & Hob).
  destruct (adjustRanking_scoreOf wb u1 c1 d1 by1) as (rba & wba & Hba & Heba & Hsba & Hoba).
  exists rab, wab, rba, wba.
  split; [now rewrite (bind_ok _ _ _ _ _ Ha) |].
  split; [now rewrite (bind_ok _ _ _ _ _ Hb) |].
  split.
  - intros Hne u c.
    destruct (decide ((u, c) = (u1, c1))) as [[= -> ->] | H1].
    + rewrite (scoreOf_same_entry wab wa u1 c1 (Hoab _ _ Hne)).
      rewrite (scoreOf_entry _ _ _ _ Hea), (scoreOf_entry _ _ _ _ Heba), Hsa, Hsba.
      now rewrite (Hob _ _ Hne).
    + rewrite (scoreOf_same_entry wba wb u c (Hoba _ _ H1)).
      destruct (decide ((u, c) = (u2, c2))) as [[= -> ->] | H2].
      * rewrite (scoreOf_entry _ _ _ _ Heab), (scoreOf_entry _ _ _ _ Heb), Hsab, Hsb.
        now rewrite (Hoa _ _ H1).
      * rewrite (scoreOf_same_entry wab wa u c (Hoab _ _ H2)).
        rewrite (scoreOf_same_entry wa w u c (Hoa _ _ H1)).
        now rewrite (scoreOf_same_entry wb w u c (Hob _ _ H2)).
  - intros [= <- <-].
    rewrite Hea in Hsab. rewrite Heb in Hsba. cbn [adjusted] in Hsab, Hsba.
    rewrite Hsa in Hsab. rewrite Hsb in Hsba.
    assert (H12 : scoreOf wab u1 c1
                  = Number.add (adjusted (rankings w !! (u1, c1)) d1) d2)
      by now rewrite (scoreOf_entry _ _ _ _ Heab).
    assert (H21 : scoreOf wba u1 c1
                  = Number.add (adjusted (rankings w !! (u1, c1)) d2) d1)
      by now rewrite (scoreOf_entry _ _ _ _ Heba).
    split.
    { intros u c Hne. split.
      - rewrite (scoreOf_same_entry wab wa u c (Hoab _ _ Hne)).
        apply scoreOf_same_entry, Hoa, Hne.
      - rewrite (scoreOf_same_entry wba wb u c (Hoba _ _ Hne)).
        apply scoreOf_same_entry, Hob, Hne. }
    split; [exact H12 |]. split; [exact H21 |]. split.
    { intros Hnone. rewrite H12, H21, Hnone. cbn [adjusted]. apply add_comm. }
    intros s a b Hs Hsafe_a Hsafe_b Hsa' Hsb' Hsab' Hscore -> ->.
    rewrite H12, H21.
    rewrite (adjusted_of_Z w u1 c1 s a Hs Hsafe_a Hsa' Hscore).
    rewrite (adjusted_of_Z w u1 c1 s b Hs Hsafe_b Hsb' Hscore).
    rewrite !add_of_Z by (try assumption; replace (s + b + a)%Z with (s + a + b)%Z by lia;
                          assumption).
    split; f_equal; lia.
Qed.

(** X16. [getOrCreateRanking] returns the entry of the pair as it is, with
    nothing written, when there is one, and creates it with the default
    score, 0 when none is given, when there is none; called again, with
    whatever default, it returns that same entry and writes nothing. *)
Theorem getOrCreateRanking_idempotent (w : World) (userId categoryId : string)
    (defaultScore defaultScore' : option Number.t) :
  exists r w1,
    RankingService.getOrCreateRanking userId categoryId defaultScore w = (Ok r, w1)
    /\ rankings w1 !! (userId, categoryId) = Some r
    /\ (forall r0, rankings w !! (userId, categoryId) = Some r0 -> r = r0 /\ w1 = w)
    /\ (rankings w !! (userId, categoryId) = None ->
        UserRanking.score r = default (Number.of_Z 0) defaultScore
        /\ forall k, k <> (userId, categoryId) -> rankings w1 !! k = rankings w !! k)
    /\ RankingService.getOrCreateRanking userId categoryId defaultScore' w1 = (Ok r, w1).
Proof.
  unfold RankingService.getOrCreateRanking, RankingRepository.findRanking, bind.
  destruct (rankings w !! (userId, categoryId)) as [r0|] eqn:Hr.
  - exists r0, w. split; [reflexivity |]. split; [exact Hr |].
    split; [intros r1 [= <-]; split; reflexivity |].
    split; [discriminate |]. now rewrite Hr.
  - unfold RankingRepository.createRanking. cbn. rewrite Hr.
    do 2 eexists. split; [reflexivity |]. cbn. rewrite !lookup_insert_eq.
    split; [reflexivity |]. split; [discriminate |].
    split; [| reflexivity].
    intros _. split; [reflexivity |]. intros k Hk. now apply lookup_insert_ne.
Qed.

Lemma score_or_zero_value (s : Number.t) :
  Number.truthy s = true -> RankingService.score_or_zero (Some s) = s.
Proof. intros H. unfold RankingService.score_or_zero. now rewrite H. Qed.

Lemma updateRanking_existing (w : World) (userId categoryId : string)
    (data : RankingRepository.UpdateRankingInput) (r : UserRanking.t) :
  rankings w !! (userId, categoryId) = Some r ->
  RankingService.updateRanking userId categoryId data w
    = (Ok (RankingRepository.apply_update data r),
       set_rankings (<[(userId, categoryId) := RankingRepository.apply_update data r]>
                       (rankings w)) w).
Proof.
  intros Hr. unfold RankingService.updateRanking, RankingRepository.findRanking, bind.
  rewrite Hr. unfold RankingRepository.updateRanking. now rewrite Hr.
Qed.

Lemma updateRanking_absent (w : World) (userId categoryId : string)
    (data : RankingRepository.UpdateRankingInput) :
  rankings w !! (userId, categoryId) = None ->
  let r := UserRanking.mk userId categoryId
             (RankingService.score_or_zero (RankingRepository.u_score data))
             (or_else (RankingRepository.u_updatedBy data) userId) in
  RankingService.updateRanking userId categoryId data w
    = (Ok r, set_rankings (<[(userId, categoryId) := r]> (rankings w)) w).
Proof.
  intros Hr. unfold RankingService.updateRanking, RankingRepository.findRanking, bind.
  rewrite Hr. unfold RankingRepository.createRanking. cbn. now rewrite Hr.
Qed.

(** X17. [updateRanking] of the service sets the score: with a score in
    the data, the entry of the pair afterwards holds that score when it
    existed, and [score || 0] when it is created, which is that score
    unless the score is a zero or NaN; no other entry changes, and an
    adjustment made next returns the double sum of the score held and the
    adjustment.  Without a score, a new entry starts at 0 and an existing
    one keeps its score. *)
Theorem updateRanking_sets_score (w : World) (userId categoryId : string)
    (score adjustment : Number.t) (updatedBy updatedBy' : option string) :
  (exists r w1,
     RankingService.updateRanking userId categoryId
       (RankingRepository.mkUpdate (Some score) updatedBy) w = (Ok r, w1)
     /\ rankings w1 !! (userId, categoryId) = Some r
     /\ UserRanking.score r
        = match rankings w !! (userId, categoryId) with
          | Some _ => score
          | None => RankingService.score_or_zero (Some score)
          end
     /\ (Number.truthy score = true -> UserRanking.score r = score)
     /\ (forall k, k <> (userId, categoryId) -> rankings w1 !! k = rankings w !! k)
     /\ exists r2 w2,
          RankingService.adjustRanking userId categoryId adjustment updatedBy' w1
          = (Ok r2, w2)
          /\ UserRanking.score r2 = Number.add (UserRanking.score r) adjustment)
  /\ (exists r w1,
        RankingService.updateRanking userId categoryId
          (RankingRepository.mkUpdate None updatedBy) w = (Ok r, w1)
        /\ UserRanking.score r = scoreOf w userId categoryId).
Proof.
  destruct (rankings w !! (userId, categoryId)) as [r0|] eqn:Hr.
  - split.
    + do 2 eexists. split; [apply (updateRanking_existing _ _ _ _ _ Hr) |].
      cbn [rankings set_rankings]. rewrite lookup_insert_eq.
      split; [reflexivity |]. split; [reflexivity |]. split; [reflexivity |].
      split; [intros k Hk; now apply lookup_insert_ne |].
      do 2 eexists. split.
      * apply adjustRanking_existing. cbn. apply lookup_insert_eq.
      * reflexivity.
    + do 2 eexists. split; [apply (updateRanking_existing _ _ _ _ _ Hr) |].
      unfold scoreOf. rewrite Hr. reflexivity.
  - split.
    + do 2 eexists. split; [apply (updateRanking_absent _ _ _ _ Hr) |].
      cbn [rankings set_rankings]. rewrite lookup_insert_eq.
      split; [reflexivity |]. split; [reflexivity |].
      split; [intros Ht; now apply score_or_zero_value |].
      split; [intros k Hk; now apply lookup_insert_ne |].
      do 2 eexists. split.
      * apply adjustRanking_existing. cbn. apply lookup_insert_eq.
      * reflexivity.
    + do 2 eexists. split; [apply (updateRanking_absent _ _ _ _ Hr) |].
      unfold scoreOf. rewrite Hr. reflexivity.
Qed.

(** X18. [updateUserRanking] of the controller is for admins: any other
    user, or none, is answered 403 and nothing is written.  For an admin,
    an adjustment in the body is applied, the entry then holding the
    double sum of its score and the adjustment, or the adjustment when it
    is new, and a score in the same body is ignored; a score alone is
    set, as [score || 0] when the entry is new; in both cases the answer
    is 200 and the entry names the admin as its last updater.  A body
    with neither, or one that does not fit the schema, is answered 400
    with nothing written. *)
Theorem controller_updateUserRanking (w : World) (userId categoryId : string) :
  (forall user validationResult,
     (forall u, user = Some u -> Http.role u <> "Admin") ->
     RankingController.updateUserRanking user userId categoryId validationResult w
     = (Ok (Http.fail 403 "Admin access required"), w))
  /\ (forall admin,
      Http.id admin <> "" -> Http.role admin = "Admin" ->
      (forall adjustment score,
         exists r w',
           RankingController.updateUserRanking (Some admin) userId categoryId
             (Some (RankingController.mkData score (Some adjustment))) w
           = (Ok (Http.ok 200 (Some "Ranking updated successfully") r), w')
           /\ rankings w' !! (userId, categoryId) = Some r
           /\ UserRanking.score r
              = adjusted (rankings w !! (userId, categoryId)) adjustment
           /\ UserRanking.updatedBy r = Http.id admin)
      /\ (forall score,
            exists r w',
              RankingController.updateUserRanking (Some admin) userId categoryId
                (Some (RankingController.mkData (Some score) None)) w
              = (Ok (Http.ok 200 (Some "Ranking updated successfully") r), w')
              /\ rankings w' !! (userId, categoryId) = Some r
              /\ UserRanking.score r
                 = match rankings w !! (userId, categoryId) with
                   | Some _ => score
                   | None => RankingService.score_or_zero (Some score)
                   end
              /\ UserRanking.updatedBy r = Http.id admin)
      /\ RankingController.updateUserRanking (Some admin) userId categoryId
           (Some (RankingController.mkData None None)) w
         = (Ok (Http.fail 400 "Either score or adjustment must be provided"), w)
      /\ RankingController.updateUserRanking (Some admin) userId categoryId None w
         = (Ok (Http.fail 400 "Invalid data"), w)).
Proof.
  split.
  - intros user vr Hrole. unfold RankingController.updateUserRanking, try_catch.
    destruct user as [u|]; [| reflexivity].
    rewrite (eqb_differ _ _ (Hrole u eq_refl)). cbn [negb].
    now rewrite orb_true_r.
  - intros admin Hid Hadmin.
    assert (Hgate : Http.unauthenticated (Some admin)
                    || negb (String.eqb (Http.role admin) "Admin") = false).
    { rewrite (authenticated admin Hid), Hadmin. reflexivity. }
    assert (Hby : or_else (Some (Http.id admin)) userId = Http.id admin).
    { unfold or_else, truthy. now rewrite (eqb_differ _ _ Hid). }
    unfold RankingController.updateUserRanking, try_catch. rewrite Hgate.
    cbn [RankingController.adjustment RankingController.score].
    split; [| split; [| split; reflexivity]].
    + intros adjustment score.
      destruct (rankings w !! (userId, categoryId)) as [r0|] eqn:Hr.
      * rewrite (bind_ok _ _ _ _ _ (adjustRanking_existing _ _ _ _ _ _ Hr)).
        do 2 eexists. split; [reflexivity |]. cbn. rewrite lookup_insert_eq.
        split; [reflexivity |]. split; reflexivity.
      * rewrite (bind_ok _ _ _ _ _ (adjustRanking_absent _ _ _ _ _ Hr)).
        do 2 eexists. split; [reflexivity |]. cbn. rewrite lookup_insert_eq.
        split; [reflexivity |]. split; [reflexivity | exact Hby].
    + intros score.
      destruct (rankings w !! (userId, categoryId)) as [r0|] eqn:Hr.
      * rewrite (bind_ok _ _ _ _ _ (updateRanking_existing _ _ _ _ _ Hr)).
        do 2 eexists. split; [reflexivity |]. cbn. rewrite lookup_insert_eq.
        repeat split; reflexivity.
      * rewrite (bind_ok _ _ _ _ _ (updateRanking_absent _ _ _ _ Hr)).
        do 2 eexists. split; [reflexivity |]. cbn. rewrite lookup_insert_eq.
        split; [reflexivity |]. split; [reflexivity | exact Hby].
Qed.

Lemma controller_updateUserRanking_witness :
  exists r w',
    RankingController.updateUserRanking
      (Some (Http.mkUser "root" "root@booth.test" "Admin")) "bob" "content"
      (Some (RankingController.mkData (Some (Number.of_Z 7)) (Some (Number.of_Z 2))))
      Sample.shop
    = (Ok (Http.ok 200 (Some "Ranking updated successfully") r), w')
    /\ rankings w' !! ("bob", "content") = Some r
    /\ UserRanking.score r
       = adjusted (rankings Sample.shop !! ("bob", "content")) (Number.of_Z 2)
    /\ UserRanking.updatedBy r = "root".
Proof.
  destruct (controller_updateUserRanking Sample.shop "bob" "content") as [_ H].
  destruct (H (Http.mkUser "root" "root@booth.test" "Admin")) as [Hadj _].
  - discriminate.
  - reflexivity.
  - apply (Hadj (Number.of_Z 2) (Some (Number.of_Z 7))).
Defined.

(** ** Reading the rankings *)

Lemma insert_by_score_perm (r : UserRanking.t) (l : list UserRanking.t) :
  RankingRepository.insert_by_score r l ≡ₚ r :: l.
Proof.
  induction l as [| x l IH]; cbn; [reflexivity |].
  destruct (Number.leb (UserRanking.score x) (UserRanking.score r)); [reflexivity |].
  rewrite IH. apply perm_swap.
Qed.

Lemma orderBy_score_desc_perm (l : list UserRanking.t) :
  RankingRepository.orderBy_score_desc l ≡ₚ l.
Proof.
  induction l as [| x l IH]; cbn; [reflexivity |].
  now rewrite insert_by_score_perm, IH.
Qed.

Lemma insert_by_score_Forall (P : UserRanking.t -> Prop) (r : UserRanking.t)
    (l : list UserRanking.t) :
  P r -> Forall P l -> Forall P (RankingRepository.insert_by_score r l).
Proof.
  intros Hr. induction 1 as [| x l Hx Hl IH]; cbn; [now repeat constructor |].
  destruct (Number.leb (UserRanking.score x) (UserRanking.score r));
    now repeat constructor.
Qed.

Lemma insert_by_score_sorted (r : UserRanking.t) (l : list UserRanking.t) :
  StronglySorted by_score_desc l ->
  StronglySorted by_score_desc (RankingRepository.insert_by_score r l).
Proof.
  induction 1 as [| x l Hl IH Hx]; cbn; [repeat constructor |].
  destruct (Number.leb (UserRanking.score x) (UserRanking.score r)) eqn:Hle.
  - constructor; [now constructor |].
    constructor; [exact Hle |].
    eapply Forall_impl; [exact Hx |]. intros y Hy. unfold by_score_desc in *.
    now apply (leb_trans _ (UserRanking.score x)).
  - constructor; [exact IH |].
    apply insert_by_score_Forall; [| exact Hx].
    unfold by_score_desc. now apply leb_total.
Qed.

Lemma orderBy_score_desc_sorted (l : list UserRanking.t) :
  StronglySorted by_score_desc (RankingRepository.orderBy_score_desc l).
Proof.
  induction l as [| x l IH]; cbn; [constructor | now apply insert_by_score_sorted].
Qed.

Lemma sorted_app_inv (l1 l2 : list UserRanking.t) :
  StronglySorted by_score_desc (l1 ++ l2) ->
  StronglySorted by_score_desc l1
  /\ forall x y, In x l1 -> In y l2 -> by_score_desc x y.
Proof.
  induction l1 as [| a l1 IH]; cbn; intros H.
  - split; [constructor | intros x y []].
  - apply StronglySorted_inv in H as [Hs Ha]. destruct (IH Hs) as [Hs1 Hcross].
    apply Forall_app in Ha as [Ha1 Ha2]. split.
    + now constructor.
    + intros x y [<- | Hx] Hy.
      * rewrite Forall_forall in Ha2. apply Ha2. now apply list_elem_of_In.
      * now apply Hcross.
Qed.

(** What [getUserRankings] answers: the entries of the user, ordered. *)
Lemma getUserRankings_rows (w : World) (userId : string) :
  exists l,
    RankingService.getUserRankings userId w = (Ok l, w)
    /\ l = RankingRepository.orderBy_score_desc
             (RankingRepository.findMany
                (fun r => String.eqb (UserRanking.userId r) userId) w)
    /\ (forall r, In r l <->
          UserRanking.userId r = userId
          /\ exists k, rankings w !! k = Some r).
Proof.
  eexists. split; [reflexivity |]. split; [reflexivity |].
  intros r. rewrite <- list_elem_of_In, orderBy_score_desc_perm, list_elem_of_In.
  unfold RankingRepository.findMany. rewrite filter_In, String.eqb_eq.
  rewrite <- list_elem_of_In, list_elem_of_fmap. split.
  - intros [([k r'] & -> & Hin) Hu]. split; [exact Hu |].
    exists k. now apply elem_of_map_to_list.
  - intros [Hu [k Hk]]. split; [| exact Hu].
    exists (k, r). split; [reflexivity |]. now apply elem_of_map_to_list.
Qed.

(** X19. [getUserRankings] returns the entries of the user, each one once
    and no other, highest score first, and writes nothing. *)
Theorem getUserRankings_sorted (w : World) (userId : string) :
  exists l,
    RankingService.getUserRankings userId w = (Ok l, w)
    /\ l ≡ₚ RankingRepository.findMany
              (fun r => String.eqb (UserRanking.userId r) userId) w
    /\ StronglySorted by_score_desc l
    /\ (forall r, In r l <->
          UserRanking.userId r = userId
          /\ exists k, rankings w !! k = Some r).
Proof.
  destruct (getUserRankings_rows w userId) as (l & Hl & -> & Hin).
  eexists. split; [exact Hl |].
  split; [apply orderBy_score_desc_perm |].
  split; [apply orderBy_score_desc_sorted | exact Hin].
Qed.

(** X20. [getTopUsersByCategory] returns the entries of the category with
    the highest scores: as many as the limit, 10 when none is given, or
    all of them when there are fewer, highest first, and every entry of
    the category left out scores no more than any entry returned. *)
Theorem getTopUsersByCategory_top (w : World) (categoryId : string)
    (limit : option nat) :
  exists l rest,
    RankingService.getTopUsersByCategory categoryId limit w = (Ok l, w)
    /\ l ++ rest ≡ₚ RankingRepository.findMany
                      (fun r => String.eqb (UserRanking.categoryId r) categoryId) w
    /\ length l = Nat.min (default 10 limit) (length (l ++ rest))
    /\ StronglySorted by_score_desc l
    /\ (forall x y, In x l -> In y rest ->
          Number.leb (UserRanking.score y) (UserRanking.score x) = true).
Proof.
  set (all := RankingRepository.orderBy_score_desc
                (RankingRepository.findMany
                   (fun r => String.eqb (UserRanking.categoryId r) categoryId) w)).
  exists (take (default 10 limit) all), (drop (default 10 limit) all).
  split; [reflexivity |].
  rewrite take_drop.
  split; [apply orderBy_score_desc_perm |].
  split; [apply length_take |].
  apply sorted_app_inv. rewrite take_drop. apply orderBy_score_desc_sorted.
Qed.

(** The summary, read on the rows of the user as [getUserRankings] orders
    them. *)
Lemma getUserRankingSummary_rows (w : World) (userId : string) :
  exists s,
    RankingService.getUserRankingSummary userId w = (Ok s, w)
    /\ RankingSummary.userId s = userId
    /\ RankingSummary.rankings s
       = RankingRepository.orderBy_score_desc
           (RankingRepository.findMany
              (fun r => String.eqb (UserRanking.userId r) userId) w)
    /\ RankingSummary.rankingCount s = length (RankingSummary.rankings s)
    /\ RankingSummary.totalScore s
       = fold_left (fun sum ranking => Number.add sum (UserRanking.score ranking))
           (RankingSummary.rankings s) (Number.of_Z 0)
    /\ RankingSummary.averageScore s
       = (if Nat.ltb 0 (RankingSummary.rankingCount s)
          then Number.div (RankingSummary.totalScore s)
                 (Number.of_Z (Z.of_nat (RankingSummary.rankingCount s)))
          else Number.of_Z 0).
Proof. eexists. repeat split; reflexivity. Qed.

(** X21. In the summary of a user, the rankings are the entries of the
    user, the count is their number, the total is the sum of their scores
    in doubles, added from 0 in the order of the rankings, and the
    average is the double quotient of the total by the count; a user
    without entries has count, total and average 0.  When the scores are
    integers and the sum of their absolute values is below 2^53, the
    total is their sum. *)
Theorem getUserRankingSummary_average (w : World) (userId : string) :
  exists s,
    RankingService.getUserRankingSummary userId w = (Ok s, w)
    /\ RankingSummary.rankingCount s = length (RankingSummary.rankings s)
    /\ (forall r, In r (RankingSummary.rankings s) <->
          UserRanking.userId r = userId /\ exists k, rankings w !! k = Some r)
    /\ RankingSummary.totalScore s
       = fold_left Number.add (map UserRanking.score (RankingSummary.rankings s))
           (Number.of_Z 0)
    /\ (RankingSummary.rankingCount s <> 0 ->
        RankingSummary.averageScore s
        = Number.div (RankingSummary.totalScore s)
            (Number.of_Z (Z.of_nat (RankingSummary.rankingCount s))))
    /\ (RankingSummary.rankingCount s = 0 ->
        RankingSummary.totalScore s = Number.of_Z 0
        /\ RankingSummary.averageScore s = Number.of_Z 0)
    /\ (forall scores : list Z,
          map UserRanking.score (RankingSummary.rankings s) = map Number.of_Z scores ->
          (sum_abs scores < 2 ^ 53)%Z ->
          RankingSummary.totalScore s = Number.of_Z (sum_Z scores)).
Proof.
  destruct (getUserRankings_rows w userId) as (l & Hl & _ & Hin).
  unfold RankingService.getUserRankings in Hl.
  unfold RankingService.getUserRankingSummary, RankingRepository.getUserRankingSummary.
  rewrite (bind_ok _ _ _ _ _ Hl).
  eexists. split; [reflexivity |]. cbn [RankingSummary.rankingCount
    RankingSummary.rankings RankingSummary.totalScore RankingSummary.averageScore].
  split; [reflexivity |]. split; [exact Hin |].
  split; [apply fold_add_column |].
  split; [| split].
  - intros Hc. destruct l as [| x l]; [now exfalso | reflexivity].
  - destruct l as [| x l]; [| discriminate]. intros _. split; reflexivity.
  - intros scores Hscores Hb.
    now apply (fold_add_perm_of_Z UserRanking.score l l scores).
Qed.

(** The rows of the ranking table after a write on one pair. *)
Lemma ranking_rows_written (w : World) (k : string * string) (r : UserRanking.t) :
  exists rest,
    map snd (map_to_list (<[k := r]> (rankings w))) ≡ₚ r :: rest
    /\ map snd (map_to_list (rankings w))
       ≡ₚ match rankings w !! k with
           | Some r0 => r0 :: rest
           | None => rest
           end.
Proof.
  destruct (rankings w !! k) as [r0|] eqn:Hk.
  - exists (map snd (map_to_list (delete k (rankings w)))). split.
    + rewrite <- insert_delete_eq.
      rewrite map_to_list_insert by apply lookup_delete_eq. reflexivity.
    + now rewrite <- (map_to_list_delete _ _ _ Hk).
  - exists (map snd (map_to_list (rankings w))). split; [| reflexivity].
    now rewrite (map_to_list_insert _ _ _ Hk).
Qed.

(** X22. In a ranking table keyed by (user, category), an adjustment of a
    score of a user raises the count of the summary of that user by one
    exactly when the entry is new, and the table stays keyed; the
    rankings of the summary are the rankings before with the adjusted
    entry in the place of the former one.  When the scores of the user and
    the adjustment are integers and the sum of their absolute values is
    below 2^53, the total of the summary moves by the adjustment. *)
Theorem adjustRanking_summary (w w1 : World) (userId categoryId : string)
    (adjustment : Number.t) (updatedBy : option string) (r : UserRanking.t)
    (s s1 : RankingSummary.t) :
  rankings_keyed w ->
  RankingService.adjustRanking userId categoryId adjustment updatedBy w = (Ok r, w1) ->
  fst (RankingService.getUserRankingSummary userId w) = Ok s ->
  fst (RankingService.getUserRankingSummary userId w1) = Ok s1 ->
  RankingSummary.rankingCount s1
  = RankingSummary.rankingCount s
    + (match rankings w !! (userId, categoryId) with Some _ => 0 | None => 1 end)
  /\ rankings_keyed w1
  /\ UserRanking.score r = adjusted (rankings w !! (userId, categoryId)) adjustment
  /\ (exists rest,
        RankingSummary.rankings s1 ≡ₚ r :: rest
        /\ RankingSummary.rankings s
           ≡ₚ match rankings w !! (userId, categoryId) with
               | Some r0 => r0 :: rest
               | None => rest
               end)
  /\ forall (scores : list Z) (a : Z),
       map UserRanking.score (RankingSummary.rankings s) = map Number.of_Z scores ->
       adjustment = Number.of_Z a ->
       (Z.abs a + sum_abs scores < 2 ^ 53)%Z ->
       RankingSummary.totalScore s = Number.of_Z (sum_Z scores)
       /\ RankingSummary.totalScore s1 = Number.of_Z (sum_Z scores + a).
Proof.
  intros Hkeyed Hrun Hs Hs1.
  destruct (getUserRankingSummary_rows w userId)
    as (t & Ht & _ & Hrows & Hcount & Htotal & _).
  destruct (getUserRankingSummary_rows w1 userId)
    as (t1 & Ht1 & _ & Hrows1 & Hcount1 & Htotal1 & _).
  rewrite Ht in Hs. rewrite Ht1 in Hs1. injection Hs as <-. injection Hs1 as <-.
  rewrite Hcount, Hcount1, Htotal, Htotal1. clear Ht Ht1 Hcount Hcount1 Htotal Htotal1.
  assert (Hw1 : rankings w1 = <[(userId, categoryId) := r]> (rankings w)
                /\ UserRanking.userId r = userId
                /\ UserRanking.categoryId r = categoryId
                /\ UserRanking.score r
                   = adjusted (rankings w !! (userId, categoryId)) adjustment).
  { destruct (rankings w !! (userId, categoryId)) as [r0|] eqn:Hr.
    - rewrite (adjustRanking_existing _ _ _ _ _ _ Hr) in Hrun.
      injection Hrun as <- <-. apply Hkeyed in Hr. injection Hr as Hu Hc.
      cbn. repeat split; try reflexivity; congruence.
    - rewrite (adjustRanking_absent _ _ _ _ _ Hr) in Hrun.
      injection Hrun as <- <-. cbn. repeat split; reflexivity. }
  destruct Hw1 as (Hw1 & Hu & Hc & Hscore).
  destruct (ranking_rows_written w (userId, categoryId) r) as (rest & Hafter & Hbefore).
  pose proof (filter_perm (fun x => String.eqb (UserRanking.userId x) userId) _ _ Hafter)
    as Fa.
  pose proof (filter_perm (fun x => String.eqb (UserRanking.userId x) userId) _ _ Hbefore)
    as Fb.
  cbn [List.filter] in Fa. rewrite Hu, eqb_same in Fa.
  set (mine := List.filter (fun x => String.eqb (UserRanking.userId x) userId) rest)
    in *.
  assert (Ga : RankingSummary.rankings t1 ≡ₚ r :: mine).
  { rewrite Hrows1, orderBy_score_desc_perm. unfold RankingRepository.findMany.
    rewrite Hw1. exact Fa. }
  assert (Gb : RankingSummary.rankings t
               ≡ₚ match rankings w !! (userId, categoryId) with
                   | Some r0 => r0 :: mine
                   | None => mine
                   end).
  { rewrite Hrows, orderBy_score_desc_perm. unfold RankingRepository.findMany.
    rewrite Fb. destruct (rankings w !! (userId, categoryId)) as [r0|] eqn:Hr.
    - apply Hkeyed in Hr. injection Hr as Hu0 _.
      cbn [List.filter]. rewrite <- Hu0, eqb_same. reflexivity.
    - reflexivity. }
  split; [| split; [| split; [exact Hscore | split]]].
  - rewrite (Permutation_length Ga), (Permutation_length Gb).
    destruct (rankings w !! (userId, categoryId)); cbn [length]; lia.
  - intros k r' Hk. rewrite Hw1 in Hk.
    apply lookup_insert_Some in Hk as [[<- <-] | [_ Hk]].
    + now rewrite Hu, Hc.
    + now apply Hkeyed.
  - exists mine. split; [exact Ga | exact Gb].
  - intros scores a Hscores -> Hb.
    pose proof (sum_abs_nonneg scores) as Hnn.
    split.
    { apply (fold_add_perm_of_Z UserRanking.score _ (RankingSummary.rankings t) scores);
        [reflexivity | exact Hscores | lia]. }
    destruct (rankings w !! (userId, categoryId)) as [r0|] eqn:Hr; cbn [adjusted] in Hscore.
    + assert (Hcol : map UserRanking.score (r0 :: mine) ≡ₚ map Number.of_Z scores).
      { rewrite <- Hscores. apply Permutation_map. now symmetry. }
      destruct (Permutation_map_inv _ _ Hcol) as (l3 & Hl3 & Hperm).
      destruct l3 as [| n0 l3]; [discriminate |].
      cbn [map] in Hl3. injection Hl3 as Hn0 Hl3.
      pose proof (sum_abs_perm _ _ Hperm) as Habs.
      pose proof (sum_Z_perm _ _ Hperm) as Hsum.
      change (sum_abs (n0 :: l3)) with (Z.abs n0 + sum_abs l3)%Z in Habs.
      change (sum_Z (n0 :: l3)) with (n0 + sum_Z l3)%Z in Hsum.
      pose proof (sum_abs_nonneg l3) as Hnn3.
      assert (Hr' : UserRanking.score r = Number.of_Z (n0 + a)).
      { rewrite Hscore, Hn0. apply add_of_Z; unfold Number.safe; lia. }
      rewrite (fold_add_perm_of_Z UserRanking.score _ (r :: mine) ((n0 + a)%Z :: l3) Ga).
      * f_equal. change (sum_Z ((n0 + a)%Z :: l3)) with (n0 + a + sum_Z l3)%Z. lia.
      * cbn [map]. now rewrite Hr', Hl3.
      * change (sum_abs ((n0 + a)%Z :: l3)) with (Z.abs (n0 + a) + sum_abs l3)%Z. lia.
    + rewrite (fold_add_perm_of_Z UserRanking.score _
                 (r :: RankingSummary.rankings t) (a :: scores)).
      * f_equal. change (sum_Z (a :: scores)) with (a + sum_Z scores)%Z. lia.
      * rewrite Ga. constructor. now symmetry.
      * cbn [map]. now rewrite Hscore, Hscores.
      * change (sum_abs (a :: scores)) with (Z.abs a + sum_abs scores)%Z. lia.
Qed.

Lemma adjustRanking_summary_witness :
  RankingSummary.totalScore (RankingSummary.mk "bob" (Number.of_Z 0) 0 (Number.of_Z 0) [])
  = Number.of_Z (sum_Z [])
  /\ RankingSummary.totalScore
       (RankingSummary.mk "bob" (Number.of_Z 3) 1 (Number.of_Z 3)
          [UserRanking.mk "bob" "content" (Number.of_Z 3) "bob"])
     = Number.of_Z (sum_Z [] + 3).
Proof.
  refine (proj2 (proj2 (proj2 (proj2
            (adjustRanking_summary Sample.shop _ "bob" "content" (Number.of_Z 3) None
               (UserRanking.mk "bob" "content" (Number.of_Z 3) "bob")
               (RankingSummary.mk "bob" (Number.of_Z 0) 0 (Number.of_Z 0) [])
               (RankingSummary.mk "bob" (Number.of_Z 3) 1 (Number.of_Z 3)
                  [UserRanking.mk "bob" "content" (Number.of_Z 3) "bob"])
               _ eq_refl eq_refl eq_refl)))) [] 3%Z eq_refl eq_refl _).
  - intros k r Hk. unfold Sample.shop in Hk. cbn [rankings] in Hk.
    rewrite lookup_empty in Hk. discriminate.
  - vm_compute. reflexivity.
Defined.

(** ** Likes, comments and shares *)

(** The block that updates the ranking of the owner, with the ranking
    service of the application: it returns, and touches the ranking table
    only. *)
Lemma booth_block (owner : option string) (userId : string)
    (k : RankingService.engagementType) (v : Number.t) (w : World) :
  exists w',
    EngagementService.updateOwnerRanking RankingService.applyPostEngagementRanking
      owner userId k v w = (Ok tt, w')
    /\ engagements w' = engagements w
    /\ (forall u c, scoreOf w' u c = engaged w owner userId k v u c).
Proof.
  unfold EngagementService.updateOwnerRanking, engaged, truthy_owner.
  destruct owner as [o|]; cbn [default from_option]; unfold id.
  2:{ exists w. split; [reflexivity |]. split; reflexivity. }
  destruct (truthy o && negb (String.eqb o userId)); cbn [when andb].
  2:{ exists w. split; [reflexivity |]. split; reflexivity. }
  destruct (applyPostEngagementRanking_score w o k v) as (r & w' & Hrun & Hw' & Hs).
  exists w'. unfold try_catch. rewrite Hrun.
  split; [reflexivity |]. split; [rewrite Hw'; reflexivity |].
  intros u c. case_bool_decide as Huc.
  - injection Huc as -> ->. rewrite Hw', scoreOf_written. exact Hs.
  - rewrite Hw', scoreOf_other by congruence. reflexivity.
Qed.

(** The block, when the table of engagements was written just before: the
    scores it starts from are those of the table of rankings. *)
Lemma engaged_rankings (w w0 : World) (owner : option string) (userId : string)
    (k : RankingService.engagementType) (v : Number.t) (u c : string) :
  rankings w0 = rankings w ->
  engaged w0 owner userId k v u c = engaged w owner userId k v u c.
Proof. intros H. unfold engaged, scoreOf. now rewrite H. Qed.

(** [find] answers when an element of the list satisfies the test. *)
Lemma find_finds {A} (f : A -> bool) (l : list A) (x : A) :
  In x l -> f x = true -> exists y, find f l = Some y.
Proof.
  intros Hin Hf. destruct (find f l) as [y|] eqn:E; [eauto |].
  rewrite (find_none _ _ E _ Hin) in Hf. discriminate.
Qed.

(** [findFirst] answers a row exactly when a row of the table satisfies the
    clause, and the row it answers is such a row. *)
Lemma findUserEngagement_spec (userId contentId : string) (type : EngagementType)
    (w : World) :
  exists found,
    EngagementRepository.findUserEngagement userId contentId type w = (Ok found, w)
    /\ (forall e, found = Some e ->
          EngagementRepository.matches userId contentId type e = true
          /\ exists k, engagements w !! k = Some e)
    /\ (found = None ->
        forall k e, engagements w !! k = Some e ->
          EngagementRepository.matches userId contentId type e = false).
Proof.
  rewrite findUserEngagement_returns. eexists. split; [reflexivity |].
  destruct (find _ (map_to_list (engagements w))) as [[k e]|] eqn:E; cbn.
  - split; [| discriminate]. intros e' [= <-].
    apply find_some in E as [Hin Hm]. split; [exact Hm |].
    exists k. now apply elem_of_map_to_list, list_elem_of_In.
  - split; [discriminate |]. intros _ k e Hk.
    apply (find_none _ _ E (k, e)).
    now apply list_elem_of_In, elem_of_map_to_list.
Qed.

(** The [where] clause of [findUserEngagement], as three equations. *)
Lemma matches_iff (userId contentId : string) (type : EngagementType)
    (e : Engagement.t) :
  EngagementRepository.matches userId contentId type e = true
  <-> Engagement.userId e = userId /\ Engagement.contentId e = contentId
      /\ Engagement.type e = type.
Proof.
  unfold EngagementRepository.matches.
  rewrite !andb_true_iff, !String.eqb_eq, bool_decide_eq_true. tauto.
Qed.

(** X23. [hasUserLiked] tells which of the two calls is refused: when it
    answers true, [createLike] throws "User has already liked this
    content"; when it answers false, [removeLike] throws "Like not found";
    the refused call writes nothing and adjusts no score. *)
Theorem hasUserLiked_decides (rk : Adjuster) (w : World) (userId contentId : string) :
  exists b,
    EngagementService.hasUserLiked userId contentId w = (Ok b, w)
    /\ (b = true ->
        forall contentType owner,
          EngagementService.createLike rk userId contentId contentType owner w
          = (Throw (Err "User has already liked this content"), w))
    /\ (b = false ->
        forall owner,
          EngagementService.removeLike rk userId contentId owner w
          = (Throw (Err "Like not found"), w)).
Proof.
  unfold EngagementService.hasUserLiked, EngagementService.createLike,
    EngagementService.removeLike.
  pose proof (findUserEngagement_returns userId contentId Like w) as Hf.
  destruct (snd <$> find _ _) as [e|].
  - exists true. split; [now rewrite (bind_ok _ _ _ _ _ Hf) |].
    split; [| discriminate]. intros _ t owner. now rewrite (bind_ok _ _ _ _ _ Hf).
  - exists false. split; [now rewrite (bind_ok _ _ _ _ _ Hf) |].
    split; [discriminate |]. intros _ owner. now rewrite (bind_ok _ _ _ _ _ Hf).
Qed.

(** The effect of the operations of the application on the engagement
    table. *)
Lemma createLike_effect (w : World) (userId contentId contentType : string)
    (owner : option string) :
  (exists e, Booth.createLike userId contentId contentType owner w = (Throw e, w))
  \/ (exists w1,
        let like := Engagement.mk (EngagementRepository.new_id w) userId contentId
                      contentType Like None None in
        Booth.createLike userId contentId contentType owner w = (Ok like, w1)
        /\ engagements w1 = <[EngagementRepository.new_id w := like]> (engagements w)
        /\ (forall k e, engagements w !! k = Some e ->
              EngagementRepository.matches userId contentId Like e = false)
        /\ forall u c,
             scoreOf w1 u c
             = engaged w owner userId RankingService.like (Number.of_Z 1) u c).
Proof.
  unfold Booth.createLike, EngagementService.createLike.
  destruct (findUserEngagement_spec userId contentId Like w)
    as (found & Hf & _ & Hnone).
  rewrite (bind_ok _ _ _ _ _ Hf).
  destruct found as [e|]; [left; eexists; reflexivity |].
  right. rewrite (bind_ok _ _ _ _ _ (create_engagement _ w)).
  match goal with
  | |- context [EngagementService.updateOwnerRanking _ ?o ?u ?k ?v] =>
      destruct (booth_block o u k v
                  (set_engagements
                     (<[EngagementRepository.new_id w :=
                          Engagement.mk (EngagementRepository.new_id w) userId contentId
                            contentType Like None None]> (engagements w)) w))
        as (w1 & Hb & He & Hs)
  end.
  exists w1. cbn zeta. split.
  - cbn [EngagementRepository.userId EngagementRepository.contentId
           EngagementRepository.contentType EngagementRepository.type
           EngagementRepository.comment EngagementRepository.parentId].
    now rewrite (bind_ok _ _ _ _ _ Hb).
  - split; [exact He |]. split; [now apply Hnone |].
    intros u c. rewrite Hs. now apply engaged_rankings.
Qed.

(** [removeLike] either throws with nothing written, or deletes the row [findFirst] answered. *)
Lemma removeLike_effect (w : World) (userId contentId : string)
    (owner : option string) :
  (exists e, Booth.removeLike userId contentId owner w = (Throw e, w))
  \/ (exists existing w1,
        Booth.removeLike userId contentId owner w = (Ok tt, w1)
        /\ EngagementRepository.matches userId contentId Like existing = true
        /\ (exists k, engagements w !! k = Some existing)
        /\ engagements w1 = delete (Engagement.id existing) (engagements w)).
Proof.
  unfold Booth.removeLike, EngagementService.removeLike.
  destruct (findUserEngagement_spec userId contentId Like w)
    as (found & Hf & Hsome & _).
  rewrite (bind_ok _ _ _ _ _ Hf).
  destruct found as [existing|]; [| left; eexists; reflexivity].
  destruct (Hsome existing eq_refl) as [Hm Hk].
  destruct (engagements w !! Engagement.id existing) as [e0|] eqn:He.
  - right. rewrite (bind_ok _ _ _ _ _ (delete_engagement _ _ w He)).
    match goal with
    | |- context [EngagementService.updateOwnerRanking _ ?o ?u ?k ?v ?w0] =>
        destruct (booth_block o u k v w0) as (w1 & Hb & Heng & _)
    end.
    exists existing, w1. split; [exact Hb |]. split; [exact Hm |].
    split; [exact Hk | exact Heng].
  - left. rewrite (bind_throw _ _ _ _ _ (delete_engagement_missing _ w He)).
    eexists. reflexivity.
Qed.

(** [createComment] either refuses a blank text, or stores the comment under a fresh id. *)
Lemma createComment_effect (w : World) (userId contentId contentType text : string)
    (parentId owner : option string) :
  (EngagementService.blank text = true
   /\ Booth.createComment userId contentId contentType text parentId owner w
      = (Throw (Err "Comment content is required"), w))
  \/ (EngagementService.blank text = false
      /\ exists w1,
        let c := Engagement.mk (EngagementRepository.new_id w) userId contentId
                   contentType Comment (Some text) parentId in
        Booth.createComment userId contentId contentType text parentId owner w
        = (Ok c, w1)
        /\ engagements w1 = <[EngagementRepository.new_id w := c]> (engagements w)).
Proof.
  unfold Booth.createComment, EngagementService.createComment.
  assert (Hblank : negb (truthy text) || EngagementService.blank text
                   = EngagementService.blank text).
  { destruct text; reflexivity. }
  rewrite Hblank.
  destruct (EngagementService.blank text).
  - left. split; [reflexivity |].
    now rewrite (bind_throw _ _ _ _ _ (throw_if_true _ w)).
  - right. split; [reflexivity |].
    rewrite (bind_ok _ _ _ _ _ (throw_if_false _ w)).
    rewrite (bind_ok _ _ _ _ _ (create_engagement _ w)).
    match goal with
    | |- context [EngagementService.updateOwnerRanking _ ?o ?u ?k ?v] =>
        destruct (booth_block o u k v
                    (set_engagements
                       (<[EngagementRepository.new_id w :=
                            Engagement.mk (EngagementRepository.new_id w) userId
                              contentId contentType Comment (Some text) parentId]>
                          (engagements w)) w))
          as (w1 & Hb & He & _)
    end.
    exists w1. cbn zeta. split; [| exact He].
    cbn [EngagementRepository.userId EngagementRepository.contentId
           EngagementRepository.contentType EngagementRepository.type
           EngagementRepository.comment EngagementRepository.parentId].
    now rewrite (bind_ok _ _ _ _ _ Hb).
Qed.

(** The three ways [deleteComment] ends. *)
Lemma deleteComment_cases (w : World) (commentId userId : string) (isAdmin : bool)
    (owner : option string) :
  match engagements w !! commentId with
  | None =>
      Booth.deleteComment commentId userId isAdmin owner w
      = (Throw (Err "Comment not found"), w)
  | Some c =>
      if negb isAdmin && negb (String.eqb (Engagement.userId c) userId)
      then Booth.deleteComment commentId userId isAdmin owner w
           = (Throw (Err "You are not authorized to delete this comment"), w)
      else exists w1,
             Booth.deleteComment commentId userId isAdmin owner w = (Ok c, w1)
             /\ engagements w1 = delete commentId (engagements w)
             /\ forall u k,
                  scoreOf w1 u k
                  = engaged w owner userId RankingService.comment
                      (Number.neg (Number.of_Z 1)) u k
  end.
Proof.
  unfold Booth.deleteComment, EngagementService.deleteComment.
  rewrite (bind_ok _ _ _ _ _ (findById_engagement commentId w)).
  destruct (engagements w !! commentId) as [c|] eqn:Hc; [| reflexivity].
  destruct (negb isAdmin && negb (String.eqb (Engagement.userId c) userId)).
  - now rewrite (bind_throw _ _ _ _ _ (throw_if_true _ w)).
  - rewrite (bind_ok _ _ _ _ _ (throw_if_false _ w)).
    rewrite (bind_ok _ _ _ _ _ (delete_engagement _ _ w Hc)).
    match goal with
    | |- context [EngagementService.updateOwnerRanking _ ?o ?u ?k ?v] =>
        destruct (booth_block o u k v
                    (set_engagements (delete commentId (engagements w)) w))
          as (w1 & Hb & He & Hs)
    end.
    exists w1. split; [now rewrite (bind_ok _ _ _ _ _ Hb) |]. split; [exact He |].
    intros u k. rewrite Hs. now apply engaged_rankings.
Qed.

(** [createShare] stores a Share row under a fresh id and adjusts the owner. *)
Lemma createShare_effect (w : World) (userId contentId contentType : string)
    (owner : option string) :
  exists w1,
    let share := Engagement.mk (EngagementRepository.new_id w) userId contentId
                   contentType Share None None in
    Booth.createShare userId contentId contentType owner w = (Ok share, w1)
    /\ engagements w1 = <[EngagementRepository.new_id w := share]> (engagements w)
    /\ forall u c,
         scoreOf w1 u c
         = engaged w owner userId RankingService.share (Number.of_Z 1) u c.
Proof.
  unfold Booth.createShare, EngagementService.createShare.
  rewrite (bind_ok _ _ _ _ _ (create_engagement _ w)).
  match goal with
  | |- context [EngagementService.updateOwnerRanking _ ?o ?u ?k ?v] =>
      destruct (booth_block o u k v
                  (set_engagements
                     (<[EngagementRepository.new_id w :=
                          Engagement.mk (EngagementRepository.new_id w) userId
                            contentId contentType Share None None]>
                        (engagements w)) w))
        as (w1 & Hb & He & Hs)
  end.
  exists w1. cbn zeta. split; [| split; [exact He |]].
  - cbn [EngagementRepository.userId EngagementRepository.contentId
           EngagementRepository.contentType EngagementRepository.type
           EngagementRepository.comment EngagementRepository.parentId].
    now rewrite (bind_ok _ _ _ _ _ Hb).
  - intros u c. rewrite Hs. now apply engaged_rankings.
Qed.

(** A row added under a fresh key, equal to its id, keeps the table
    consistent when it is no second like. *)
Lemma consistent_insert (w w1 : World) (k : string) (e : Engagement.t) :
  likes_consistent w ->
  engagements w1 = <[k := e]> (engagements w) ->
  engagements w !! k = None ->
  Engagement.id e = k ->
  (Engagement.type e = Like ->
   forall j e2, engagements w !! j = Some e2 ->
     EngagementRepository.matches (Engagement.userId e) (Engagement.contentId e) Like e2
     = false) ->
  likes_consistent w1.
Proof.
  intros [Hkeyed Huniq] Hw1 Hfresh Hid Hnew. split.
  - intros j x Hj. rewrite Hw1 in Hj.
    apply lookup_insert_Some in Hj as [[<- <-] | [_ Hj]]; [exact Hid | now apply Hkeyed].
  - intros i j e1 e2 Hi Hj Ht1 Ht2 Hu Hc. rewrite Hw1 in Hi, Hj.
    apply lookup_insert_Some in Hi as [[<- <-] | [Hik Hi]];
      apply lookup_insert_Some in Hj as [[<- <-] | [Hjk Hj]].
    + reflexivity.
    + exfalso. pose proof (Hnew Ht1 j e2 Hj) as Hm.
      assert (EngagementRepository.matches (Engagement.userId e) (Engagement.contentId e)
                Like e2 = true) by (apply matches_iff; auto).
      congruence.
    + exfalso. pose proof (Hnew Ht2 i e1 Hi) as Hm.
      assert (EngagementRepository.matches (Engagement.userId e) (Engagement.contentId e)
                Like e1 = true) by (apply matches_iff; auto).
      congruence.
    + now apply (Huniq i j e1 e2).
Qed.

(** Deleting a row keeps the table consistent. *)
Lemma consistent_delete (w w1 : World) (k : string) :
  likes_consistent w ->
  engagements w1 = delete k (engagements w) ->
  likes_consistent w1.
Proof.
  intros [Hkeyed Huniq] Hw1. split.
  - intros j x Hj. rewrite Hw1 in Hj.
    apply lookup_delete_Some in Hj as [_ Hj]. now apply Hkeyed.
  - intros i j e1 e2 Hi Hj. rewrite Hw1 in Hi, Hj.
    apply lookup_delete_Some in Hi as [_ Hi].
    apply lookup_delete_Some in Hj as [_ Hj]. now apply (Huniq i j e1 e2).
Qed.

(** X24. Each of the five writing operations of the engagement service
    keeps the engagement table consistent, whether it returns or throws:
    every row stays under its own id, and no user holds two likes on the
    same content. *)
Theorem likes_consistent_preserved (w : World)
    (userId contentId contentType text id : string) (parentId owner : option string)
    (isAdmin : bool) :
  likes_consistent w ->
  likes_consistent (snd (Booth.createLike userId contentId contentType owner w))
  /\ likes_consistent (snd (Booth.removeLike userId contentId owner w))
  /\ likes_consistent
       (snd (Booth.createComment userId contentId contentType text parentId owner w))
  /\ likes_consistent (snd (Booth.deleteComment id userId isAdmin owner w))
  /\ likes_consistent (snd (Booth.createShare userId contentId contentType owner w)).
Proof.
  intros Hc. split; [| split; [| split; [| split]]].
  - destruct (createLike_effect w userId contentId contentType owner)
      as [[e ->] | (w1 & Hrun & Hw1 & Hnone & _)]; [exact Hc |].
    cbv zeta in Hrun. rewrite Hrun. cbn [snd].
    apply (consistent_insert w w1 _ _ Hc Hw1 (fresh_string_fresh _ _) eq_refl).
    intros _ j e2 Hj. cbn. now apply (Hnone j).
  - destruct (removeLike_effect w userId contentId owner)
      as [[e ->] | (ex & w1 & -> & _ & _ & Hw1)]; [exact Hc |].
    now apply (consistent_delete w w1 (Engagement.id ex)).
  - destruct (createComment_effect w userId contentId contentType text parentId owner)
      as [[_ ->] | (_ & w1 & Hrun & Hw1)]; [exact Hc |].
    cbv zeta in Hrun. rewrite Hrun. cbn [snd].
    apply (consistent_insert w w1 _ _ Hc Hw1 (fresh_string_fresh _ _) eq_refl).
    intros Habs. discriminate Habs.
  - pose proof (deleteComment_cases w id userId isAdmin owner) as Hdel.
    destruct (engagements w !! id) as [c|]; [| now rewrite Hdel].
    destruct (negb isAdmin && negb (String.eqb (Engagement.userId c) userId));
      [now rewrite Hdel |].
    destruct Hdel as (w1 & -> & Hw1 & _).
    now apply (consistent_delete w w1 id).
  - destruct (createShare_effect w userId contentId contentType owner)
      as (w1 & Hrun & Hw1 & _).
    cbv zeta in Hrun. rewrite Hrun. cbn [snd].
    apply (consistent_insert w w1 _ _ Hc Hw1 (fresh_string_fresh _ _) eq_refl).
    intros Habs. discriminate Habs.
Qed.

(** The empty table is consistent. *)
Lemma likes_consistent_empty (w : World) :
  engagements w = ∅ -> likes_consistent w.
Proof.
  intros H. split.
  - intros k e Hk. rewrite H, lookup_empty in Hk. discriminate.
  - intros i j e1 e2 Hi. rewrite H, lookup_empty in Hi. discriminate.
Qed.

Lemma likes_consistent_preserved_witness :
  likes_consistent (snd (Booth.createLike "alice" "post1" "Post" (Some "bob") Sample.shop))
  /\ likes_consistent (snd (Booth.removeLike "alice" "post1" (Some "bob") Sample.shop))
  /\ likes_consistent
       (snd (Booth.createComment "alice" "post1" "Post" "hello" None (Some "bob")
               Sample.shop))
  /\ likes_consistent (snd (Booth.deleteComment "c1" "alice" false (Some "bob") Sample.shop))
  /\ likes_consistent (snd (Booth.createShare "alice" "post1" "Post" (Some "bob") Sample.shop)).
Proof.
  apply (likes_consistent_preserved Sample.shop "alice" "post1" "Post" "hello" "c1"
           None (Some "bob") false).
  apply likes_consistent_empty. reflexivity.
Defined.

(** X25. After a successful [createLike], [hasUserLiked] answers true for
    that user and content; after a successful [removeLike] in a consistent
    table it answers false. *)
Theorem hasUserLiked_follows (w w1 : World) (userId contentId : string)
    (owner : option string) :
  (forall contentType like,
     Booth.createLike userId contentId contentType owner w = (Ok like, w1) ->
     EngagementService.hasUserLiked userId contentId w1 = (Ok true, w1))
  /\ (likes_consistent w ->
      Booth.removeLike userId contentId owner w = (Ok tt, w1) ->
      EngagementService.hasUserLiked userId contentId w1 = (Ok false, w1)).
Proof.
  split.
  - intros t like Hrun.
    destruct (createLike_effect w userId contentId t owner)
      as [[e He] | (w1' & Hrun' & Hw1 & _)]; [congruence |].
    cbv zeta in Hrun'. rewrite Hrun' in Hrun. injection Hrun as _ <-.
    unfold EngagementService.hasUserLiked.
    rewrite (bind_ok _ _ _ _ _ (findUserEngagement_returns userId contentId Like w1')).
    rewrite Hw1.
    match goal with
    | |- context [find ?f ?l] =>
        destruct (find_finds f l
                    (EngagementRepository.new_id w,
                     Engagement.mk (EngagementRepository.new_id w) userId contentId
                       t Like None None)) as [y ->]
    end.
    + apply list_elem_of_In, elem_of_map_to_list, lookup_insert_eq.
    + cbn. apply matches_iff. repeat split.
    + reflexivity.
  - intros [Hkeyed Huniq] Hrun.
    destruct (removeLike_effect w userId contentId owner)
      as [[e He] | (ex & w1' & Hrun' & Hm & [k Hk] & Hw1)]; [congruence |].
    rewrite Hrun' in Hrun. injection Hrun as <-.
    destruct (findUserEngagement_spec userId contentId Like w1')
      as (found & Hf & Hsome & _).
    unfold EngagementService.hasUserLiked. rewrite (bind_ok _ _ _ _ _ Hf).
    destruct found as [e|]; [| reflexivity]. exfalso.
    destruct (Hsome e eq_refl) as [Hme [j Hj]].
    rewrite Hw1 in Hj. apply lookup_delete_Some in Hj as [Hne Hj].
    rewrite (Hkeyed k ex Hk) in Hne.
    apply matches_iff in Hm as (Hu & Hc & Ht).
    apply matches_iff in Hme as (Hu' & Hc' & Ht').
    apply Hne. apply (Huniq k j ex e Hk Hj Ht Ht'); congruence.
Qed.

Lemma hasUserLiked_follows_witness :
  EngagementService.hasUserLiked "alice" "post1"
    (snd (Booth.createLike "alice" "post1" "Post" (Some "bob") Sample.shop))
  = (Ok true, snd (Booth.createLike "alice" "post1" "Post" (Some "bob") Sample.shop)).
Proof.
  apply (proj1 (hasUserLiked_follows Sample.shop _ "alice" "post1" (Some "bob"))
           "Post" (Engagement.mk "engagement" "alice" "post1" "Post" Like None None)).
  reflexivity.
Defined.

(** ** Counting engagements *)

(** A row added under a fresh key counts once, for its content and type. *)
Lemma engagements_of_insert (w w1 : World) (k : string) (e : Engagement.t)
    (contentId : string) (type : EngagementType) :
  engagements w !! k = None ->
  engagements w1 = <[k := e]> (engagements w) ->
  engagements_of contentId type w1
  = (if String.eqb (Engagement.contentId e) contentId
        && bool_decide (Engagement.type e = type) then 1 else 0)
    + engagements_of contentId type w.
Proof.
  intros Hk Hw1. unfold engagements_of. rewrite Hw1.
  pose proof (map_to_list_insert (engagements w) k e Hk) as Hp.
  apply (fmap_Permutation snd) in Hp.
  apply (filter_perm
           (fun e => String.eqb (Engagement.contentId e) contentId
                     && bool_decide (Engagement.type e = type))) in Hp.
  apply Permutation_length in Hp.
  change (@fmap list _ _ _ snd) with (@map (string * Engagement.t) _ snd) in Hp.
  rewrite Hp. cbn [map snd List.filter].
  destruct (String.eqb (Engagement.contentId e) contentId
            && bool_decide (Engagement.type e = type)); reflexivity.
Qed.

(** The three types partition the rows of a content. *)
Lemma count_by_type (contentId : string) (l : list Engagement.t) :
  length (List.filter
            (fun e => String.eqb (Engagement.contentId e) contentId
                      && bool_decide (Engagement.type e = Like)) l)
  + length (List.filter
              (fun e => String.eqb (Engagement.contentId e) contentId
                        && bool_decide (Engagement.type e = Comment)) l)
  + length (List.filter
              (fun e => String.eqb (Engagement.contentId e) contentId
                        && bool_decide (Engagement.type e = Share)) l)
  = length (List.filter
              (fun e => String.eqb (Engagement.contentId e) contentId) l).
Proof.
  induction l as [| e l IH]; [reflexivity |]. cbn [List.filter].
  destruct (String.eqb (Engagement.contentId e) contentId); cbn [andb]; [| exact IH].
  destruct (Engagement.type e); repeat case_bool_decide; try congruence;
    cbn [length]; lia.
Qed.

(** The scores after the block, with the product of the weight and the
    value worked out. *)
Lemma weight_safe (k : RankingService.engagementType) :
  Number.safe (weight k) /\ Number.safe (- weight k).
Proof. unfold Number.safe. destruct k; cbn [weight]; lia. Qed.

(** An integer adjustment: the adjusted score is the double sum of the
    score and the adjustment, a pair without an entry counting 0. *)
Lemma adjusted_scoreOf (w : World) (u c : string) (a : Z) :
  Number.safe a ->
  adjusted (rankings w !! (u, c)) (Number.of_Z a)
  = Number.add (scoreOf w u c) (Number.of_Z a).
Proof.
  intros Ha. unfold scoreOf.
  destruct (rankings w !! (u, c)); cbn [adjusted]; [reflexivity |].
  symmetry. now apply add_of_Z_0_l.
Qed.

Lemma engaged_plus (w : World) (owner : option string) (userId : string)
    (k : RankingService.engagementType) (u c : string) :
  engaged w owner userId k (Number.of_Z 1) u c
  = if truthy_owner owner userId
       && bool_decide ((u, c) = (default "" owner, "content"))
    then Number.add (scoreOf w u c) (Number.of_Z (weight k))
    else scoreOf w u c.
Proof.
  unfold engaged. rewrite weight_times_one.
  now rewrite adjusted_scoreOf by apply weight_safe.
Qed.

Lemma engaged_minus (w : World) (owner : option string) (userId : string)
    (k : RankingService.engagementType) (u c : string) :
  engaged w owner userId k (Number.neg (Number.of_Z 1)) u c
  = if truthy_owner owner userId
       && bool_decide ((u, c) = (default "" owner, "content"))
    then Number.add (scoreOf w u c) (Number.of_Z (- weight k))
    else scoreOf w u c.
Proof.
  unfold engaged. rewrite weight_times_minus_one.
  now rewrite adjusted_scoreOf by apply weight_safe.
Qed.

(** X26. [deleteComment] checks that the row exists and that the caller
    is its author or an admin, and nothing else: a missing id gives
    "Comment not found", a stranger gives the authorization error, both
    with nothing written; otherwise the row under that id is deleted and
    returned whatever its type, and the content score of an owner who is
    named and is not the caller becomes the double sum of that score and
    -3, an owner without an entry counting 0, every other score staying;
    for a score that is an integer n, with n and n - 3 below 2^53 in
    absolute value, that is n - 3. *)
Theorem deleteComment_outcome (w : World) (commentId userId : string)
    (isAdmin : bool) (owner : option string) :
  match engagements w !! commentId with
  | None =>
      Booth.deleteComment commentId userId isAdmin owner w
      = (Throw (Err "Comment not found"), w)
  | Some c =>
      if negb isAdmin && negb (String.eqb (Engagement.userId c) userId)
      then Booth.deleteComment commentId userId isAdmin owner w
           = (Throw (Err "You are not authorized to delete this comment"), w)
      else exists w1,
             Booth.deleteComment commentId userId isAdmin owner w = (Ok c, w1)
             /\ engagements w1 = delete commentId (engagements w)
             /\ (forall u k,
                   scoreOf w1 u k
                   = if truthy_owner owner userId
                        && bool_decide ((u, k) = (default "" owner, "content"))
                     then Number.add (scoreOf w u k) (Number.of_Z (- 3))
                     else scoreOf w u k)
             /\ forall n : Z,
                  truthy_owner owner userId = true ->
                  Number.safe n -> Number.safe (n - 3) ->
                  scoreOf w (default "" owner) "content" = Number.of_Z n ->
                  scoreOf w1 (default "" owner) "content" = Number.of_Z (n - 3)
  end.
Proof.
  pose proof (deleteComment_cases w commentId userId isAdmin owner) as Hdel.
  destruct (engagements w !! commentId) as [c|]; [| exact Hdel].
  destruct (negb isAdmin && negb (String.eqb (Engagement.userId c) userId));
    [exact Hdel |].
  destruct Hdel as (w1 & Hrun & Hw1 & Hs).
  exists w1. split; [exact Hrun |]. split; [exact Hw1 |].
  assert (Hs' : forall u k,
             scoreOf w1 u k
             = if truthy_owner owner userId
                  && bool_decide ((u, k) = (default "" owner, "content"))
               then Number.add (scoreOf w u k) (Number.of_Z (- 3))
               else scoreOf w u k).
  { intros u k. rewrite Hs. apply engaged_minus. }
  split; [exact Hs' |].
  intros n Ho Hn Hn3 Hscore. rewrite Hs', Ho.
  rewrite bool_decide_eq_true_2 by reflexivity. cbn [andb].
  rewrite Hscore. apply (add_of_Z n (- 3)); [assumption | | assumption].
  unfold Number.safe. lia.
Qed.

(** X27. Deleting through [deleteComment] does not undo a like: when a
    user likes a content of another owner and then passes the id of that
    like to [deleteComment], the call succeeds and the table is back to
    what it was, while the content score of the owner is the double sum
    (score + 1) + -3, an owner without an entry counting 0; for a score
    that is an integer n, with n, n + 1 and n - 2 below 2^53 in absolute
    value, that is n - 2: 2 lower than before the like. *)
Theorem like_then_deleteComment (w w1 : World) (userId contentId contentType owner : string)
    (like : Engagement.t) :
  truthy_owner (Some owner) userId = true ->
  Booth.createLike userId contentId contentType (Some owner) w = (Ok like, w1) ->
  exists w2,
    Booth.deleteComment (Engagement.id like) userId false (Some owner) w1 = (Ok like, w2)
    /\ engagements w2 = engagements w
    /\ scoreOf w2 owner "content"
       = Number.add (Number.add (scoreOf w owner "content") (Number.of_Z 1))
           (Number.of_Z (- 3))
    /\ forall n : Z,
         Number.safe n -> Number.safe (n + 1) -> Number.safe (n - 2) ->
         scoreOf w owner "content" = Number.of_Z n ->
         scoreOf w2 owner "content" = Number.of_Z (n - 2).
Proof.
  intros Ho Hrun.
  destruct (createLike_effect w userId contentId contentType (Some owner))
    as [[e He] | (w1' & Hrun' & Hw1 & _ & Hs1)]; [congruence |].
  cbv zeta in Hrun'. rewrite Hrun' in Hrun. injection Hrun as <- <-.
  cbn [Engagement.id].
  pose proof (deleteComment_cases w1' (EngagementRepository.new_id w) userId false
                (Some owner)) as Hdel.
  rewrite Hw1, lookup_insert_eq in Hdel. cbn [Engagement.userId negb andb] in Hdel.
  rewrite String.eqb_refl in Hdel. cbn [negb] in Hdel.
  destruct Hdel as (w2 & Hdel & Hw2 & Hs2).
  assert (H1 : scoreOf w1' owner "content"
               = Number.add (scoreOf w owner "content") (Number.of_Z 1)).
  { rewrite Hs1, engaged_plus, Ho.
    cbn [default from_option]. unfold id.
    now rewrite bool_decide_eq_true_2. }
  assert (H2 : scoreOf w2 owner "content"
               = Number.add (Number.add (scoreOf w owner "content") (Number.of_Z 1))
                   (Number.of_Z (- 3))).
  { rewrite Hs2, engaged_minus, Ho.
    cbn [default from_option]. unfold id.
    rewrite bool_decide_eq_true_2 by reflexivity. cbn [andb weight].
    now rewrite H1. }
  exists w2. split; [exact Hdel |]. split; [| split; [exact H2 |]].
  - rewrite Hw2. apply delete_insert_id. apply fresh_string_fresh.
  - intros n Hn Hn1 Hn2 Hscore. rewrite H2, Hscore.
    rewrite (add_of_Z n 1) by (try assumption; unfold Number.safe; lia).
    rewrite (add_of_Z (n + 1) (- 3)).
    + f_equal. lia.
    + assumption.
    + unfold Number.safe. lia.
    + now replace (n + 1 + - 3)%Z with (n - 2)%Z by lia.
Qed.

Lemma like_then_deleteComment_witness :
  exists w2,
    Booth.deleteComment "engagement" "alice" false (Some "bob")
      (snd (Booth.createLike "alice" "post1" "Post" (Some "bob") Sample.shop))
    = (Ok (Engagement.mk "engagement" "alice" "post1" "Post" Like None None), w2)
    /\ engagements w2 = engagements Sample.shop
    /\ scoreOf w2 "bob" "content"
       = Number.add (Number.add (scoreOf Sample.shop "bob" "content") (Number.of_Z 1))
           (Number.of_Z (- 3))
    /\ forall n : Z,
         Number.safe n -> Number.safe (n + 1) -> Number.safe (n - 2) ->
         scoreOf Sample.shop "bob" "content" = Number.of_Z n ->
         scoreOf w2 "bob" "content" = Number.of_Z (n - 2).
Proof.
  apply (like_then_deleteComment Sample.shop _ "alice" "post1" "Post" "bob"
           (Engagement.mk "engagement" "alice" "post1" "Post" Like None None)).
  - reflexivity.
  - reflexivity.
Defined.

(** X28. For a text of ASCII characters, [createComment] refuses an empty
    or whitespace-only text with "Comment content is required" and writes
    nothing; any other text is stored as given (not trimmed) in a new
    Comment row, which raises the comment count of the content by one and
    leaves its like and share counts as they were. *)
Theorem createComment_outcome (w : World) (userId contentId contentType text : string)
    (parentId owner : option string) :
  ascii_text text ->
  if EngagementService.blank text
  then Booth.createComment userId contentId contentType text parentId owner w
       = (Throw (Err "Comment content is required"), w)
  else exists c w1,
      Booth.createComment userId contentId contentType text parentId owner w = (Ok c, w1)
      /\ Engagement.comment c = Some text
      /\ Engagement.type c = Comment
      /\ engagements w1 !! Engagement.id c = Some c
      /\ engagements_of contentId Comment w1 = S (engagements_of contentId Comment w)
      /\ engagements_of contentId Like w1 = engagements_of contentId Like w
      /\ engagements_of contentId Share w1 = engagements_of contentId Share w.
Proof.
  intros _.
  destruct (createComment_effect w userId contentId contentType text parentId owner)
    as [[-> Hrun] | (-> & w1 & Hrun & Hw1)]; [exact Hrun |].
  cbv zeta in Hrun. eexists. exists w1. split; [exact Hrun |].
  cbn [Engagement.comment Engagement.type Engagement.id].
  split; [reflexivity |]. split; [reflexivity |].
  split; [rewrite Hw1; apply lookup_insert_eq |].
  assert (Hfresh : engagements w !! EngagementRepository.new_id w = None)
    by apply fresh_string_fresh.
  rewrite !(engagements_of_insert w w1 _ _ contentId _ Hfresh Hw1).
  cbn [Engagement.contentId Engagement.type]. rewrite String.eqb_refl.
  split; [reflexivity |]. split; reflexivity.
Qed.

Lemma createComment_outcome_witness :
  exists c w1,
    Booth.createComment "alice" "post1" "Post" " hello " None (Some "bob") Sample.shop
    = (Ok c, w1)
    /\ Engagement.comment c = Some " hello "
    /\ Engagement.type c = Comment
    /\ engagements w1 !! Engagement.id c = Some c
    /\ engagements_of "post1" Comment w1 = S (engagements_of "post1" Comment Sample.shop)
    /\ engagements_of "post1" Like w1 = engagements_of "post1" Like Sample.shop
    /\ engagements_of "post1" Share w1 = engagements_of "post1" Share Sample.shop.
Proof.
  apply (createComment_outcome Sample.shop "alice" "post1" "Post" " hello " None
           (Some "bob")).
  unfold ascii_text. cbn. repeat constructor.
Defined.

(** X29. [countEngagements] answers, for a content, the number of its
    Like, Comment and Share rows, and a total that is the number of all
    rows of that content; the table is left as it was. *)
Theorem countEngagements_counts (w : World) (contentId : string) :
  exists r,
    EngagementService.getEngagementCounts contentId w = (Ok r, w)
    /\ EngagementCount.likes r = engagements_of contentId Like w
    /\ EngagementCount.comments r = engagements_of contentId Comment w
    /\ EngagementCount.shares r = engagements_of contentId Share w
    /\ EngagementCount.total r
       = length (List.filter
                   (fun e => String.eqb (Engagement.contentId e) contentId)
                   (map snd (map_to_list (engagements w)))).
Proof.
  unfold EngagementService.getEngagementCounts, EngagementRepository.countEngagements.
  eexists. split; [reflexivity |].
  rewrite <- (count_by_type contentId (map snd (map_to_list (engagements w)))).
  unfold EngagementRepository.groupByType. cbn [map].
  fold (engagements_of contentId Like w).
  fold (engagements_of contentId Comment w).
  fold (engagements_of contentId Share w).
  destruct (engagements_of contentId Like w),
    (engagements_of contentId Comment w),
    (engagements_of contentId Share w); cbn; repeat split; reflexivity.
Qed.

(** X30. [createShare] has no guard: every call succeeds and adds a new
    Share row, so the share count of the content grows by one with each
    call, also for a user who has shared it before; its like and comment
    counts stay.  The content score of an owner who is named and is not
    the sharer becomes the double sum of that score and 5, an owner
    without an entry counting 0, every other score staying; for a score
    that is an integer n, with n and n + 5 below 2^53 in absolute value,
    that is n + 5. *)
Theorem createShare_always_adds (w : World) (userId contentId contentType : string)
    (owner : option string) :
  exists share w1,
    Booth.createShare userId contentId contentType owner w = (Ok share, w1)
    /\ Engagement.userId share = userId
    /\ engagements_of contentId Share w1 = S (engagements_of contentId Share w)
    /\ engagements_of contentId Like w1 = engagements_of contentId Like w
    /\ engagements_of contentId Comment w1 = engagements_of contentId Comment w
    /\ (forall u k,
          scoreOf w1 u k
          = if truthy_owner owner userId
               && bool_decide ((u, k) = (default "" owner, "content"))
            then Number.add (scoreOf w u k) (Number.of_Z 5)
            else scoreOf w u k)
    /\ forall n : Z,
         truthy_owner owner userId = true ->
         Number.safe n -> Number.safe (n + 5) ->
         scoreOf w (default "" owner) "content" = Number.of_Z n ->
         scoreOf w1 (default "" owner) "content" = Number.of_Z (n + 5).
Proof.
  destruct (createShare_effect w userId contentId contentType owner)
    as (w1 & Hrun & Hw1 & Hs).
  cbv zeta in Hrun. eexists. exists w1. split; [exact Hrun |].
  split; [reflexivity |].
  assert (Hfresh : engagements w !! EngagementRepository.new_id w = None)
    by apply fresh_string_fresh.
  rewrite !(engagements_of_insert w w1 _ _ contentId _ Hfresh Hw1).
  cbn [Engagement.contentId Engagement.type]. rewrite String.eqb_refl.
  split; [reflexivity |]. split; [reflexivity |]. split; [reflexivity |].
  assert (Hs' : forall u k,
             scoreOf w1 u k
             = if truthy_owner owner userId
                  && bool_decide ((u, k) = (default "" owner, "content"))
               then Number.add (scoreOf w u k) (Number.of_Z 5)
               else scoreOf w u k).
  { intros u k. rewrite Hs. apply engaged_plus. }
  split; [exact Hs' |].
  intros n Ho Hn Hn5 Hscore. rewrite Hs', Ho.
  rewrite bool_decide_eq_true_2 by reflexivity. cbn [andb].
  rewrite Hscore. apply (add_of_Z n 5); [assumption | | assumption].
  unfold Number.safe. lia.
Qed.

